(** * devopsify.ai: the judgment pipeline

    A shallow embedding of [server/services/appUnderstanding.ts] (stack and
    behaviour detection, with the judgment engine that file carries) and of
    [server/services/alertOrchestrator.ts], with the properties the
    specification states about them.

    Conventions of the embedding:
    - a JavaScript string is a [string]: one [ascii] per code unit, for code
      units below 256 (the few display texts with other characters are kept
      as their UTF-8 bytes; no operation looks into them);
    - a JavaScript number that the code only uses as an integer is a [Z];
    - an optional field ([x?: T]) is an [option T];
    - a plain object used as a dictionary is a [gmap string _]; a [Map], whose
      iteration order the code depends on, is an association list in
      insertion order;
    - [async] functions that never fail are plain functions. *)

From Stdlib Require Import ZArith String Ascii List Lia Sorting.Sorted Permutation Bool.
From Stdlib Require Import DecimalString Decimal.
From stdpp Require Import base option list gmap strings.

Import ListNotations.
Local Open Scope string_scope.
Local Open Scope Z_scope.

(** ** Strings *)

Module JsString.

(** [s.length > 0]: the truthiness of a string. *)
Definition truthy (s : string) : bool :=
  match s with
  | EmptyString => false
  | String _ _ => true
  end.

(** Truthiness of [s?: string]: present and not empty. *)
Definition truthy_opt (o : option string) : bool :=
  match o with
  | Some s => truthy s
  | None => false
  end.

(** [a || b] on optional strings. *)
Definition or_else (a b : option string) : option string :=
  if truthy_opt a then a else b.

Definition lower_ascii (c : ascii) : ascii :=
  let n := nat_of_ascii c in
  if ((65 <=? n)%nat && (n <=? 90)%nat)
     || ((192 <=? n)%nat && (n <=? 222)%nat && negb (n =? 215)%nat)
  then ascii_of_nat (n + 32)
  else c.

(** [s.toLowerCase()] *)
Fixpoint toLowerCase (s : string) : string :=
  match s with
  | EmptyString => EmptyString
  | String c s' => String (lower_ascii c) (toLowerCase s')
  end.

(** [s.startsWith(p)] *)
Fixpoint startsWith (p s : string) : bool :=
  match p, s with
  | EmptyString, _ => true
  | String a p', String b s' => if Ascii.eqb a b then startsWith p' s' else false
  | String _ _, EmptyString => false
  end.

(** [s.includes(p)] *)
Fixpoint includes (s p : string) : bool :=
  startsWith p s
  || match s with
     | EmptyString => false
     | String _ s' => includes s' p
     end.

(** [xs.join(sep)] *)
Fixpoint join (sep : string) (xs : list string) : string :=
  match xs with
  | [] => ""
  | [x] => x
  | x :: rest => x ++ sep ++ join sep rest
  end.

(** [String(n)] for an integer [n]. *)
Definition ofZ (n : Z) : string := NilZero.string_of_int (Z.to_int n).

End JsString.

(** ** Regular expressions

    The patterns of [analyzePatterns] are sequences of literal characters,
    [\s+], [\s*] and [\w+]. The matcher backtracks as the JavaScript one
    does: a quantifier takes as many characters as it can and gives them
    back one at a time until the rest of the pattern matches. *)

Module Regex.

Inductive atom : Type :=
| Chr (c : ascii)     (* a literal character *)
| Space1              (* \s+ *)
| Space0              (* \s* *)
| Word1.              (* \w+ *)

Record regex : Type := mkRegex {
  atoms : list atom;
  ignoreCase : bool   (* the i flag *)
}.

(** [\s] *)
Definition isSpace (c : ascii) : bool :=
  let n := nat_of_ascii c in
  ((9 <=? n)%nat && (n <=? 13)%nat) || (n =? 32)%nat || (n =? 160)%nat.

(** [\w] *)
Definition isWord (c : ascii) : bool :=
  let n := nat_of_ascii c in
  ((48 <=? n)%nat && (n <=? 57)%nat)
  || ((65 <=? n)%nat && (n <=? 90)%nat)
  || ((97 <=? n)%nat && (n <=? 122)%nat)
  || (n =? 95)%nat.

Definition fold_ascii (c : ascii) : ascii :=
  let n := nat_of_ascii c in
  if ((65 <=? n)%nat && (n <=? 90)%nat) then ascii_of_nat (n + 32) else c.

Definition chrMatches (i : bool) (p c : ascii) : bool :=
  if i then Ascii.eqb (fold_ascii p) (fold_ascii c) else Ascii.eqb p c.

(** Greedy repetition of a character class, then the continuation [k];
    the result is the text left after the whole match. *)
Fixpoint star (cls : ascii -> bool) (k : string -> option string) (s : string)
  : option string :=
  match s with
  | String c s' =>
      if cls c then
        match star cls k s' with
        | Some r => Some r
        | None => k s
        end
      else k s
  | EmptyString => k s
  end.

Definition plus (cls : ascii -> bool) (k : string -> option string) (s : string)
  : option string :=
  match s with
  | String c s' => if cls c then star cls k s' else None
  | EmptyString => None
  end.

Definition step (i : bool) (a : atom) (k : string -> option string) (s : string)
  : option string :=
  match a with
  | Chr p =>
      match s with
      | String c s' => if chrMatches i p c then k s' else None
      | EmptyString => None
      end
  | Space1 => plus isSpace k s
  | Space0 => star isSpace k s
  | Word1 => plus isWord k s
  end.

(** A match of the pattern at the start of [s]: what is left of [s]. *)
Definition matchAt (r : regex) (s : string) : option string :=
  fold_right (step (ignoreCase r)) Some (atoms r) s.

(** [r.test(s)] for a pattern without the g flag. *)
Fixpoint test (r : regex) (s : string) : bool :=
  match matchAt r s with
  | Some _ => true
  | None =>
      match s with
      | String _ s' => test r s'
      | EmptyString => false
      end
  end.

(** [(s.match(r) || []).length] for a pattern with the g flag: the matches
    are found left to right, each search starting where the last match
    ended (one further after an empty match). [skip] counts the characters
    of the current match still to pass over. *)
Fixpoint countFrom (r : regex) (skip : nat) (s : string) : nat :=
  match skip with
  | S n =>
      match s with
      | String _ s' => countFrom r n s'
      | EmptyString => O
      end
  | O =>
      match matchAt r s with
      | Some rest =>
          match s with
          | String _ s' =>
              S (countFrom r (String.length s - String.length rest - 1) s')
          | EmptyString => 1%nat
          end
      | None =>
          match s with
          | String _ s' => countFrom r O s'
          | EmptyString => O
          end
      end
  end.

Definition matchCount (r : regex) (s : string) : nat := countFrom r O s.

Fixpoint lit (s : string) : list atom :=
  match s with
  | EmptyString => []
  | String c s' => Chr c :: lit s'
  end.

(** [/.../] and [/.../i] (the g flag only matters to the caller). *)
Definition re (a : list atom) : regex := mkRegex a false.
Definition rei (a : list atom) : regex := mkRegex a true.

End Regex.

(** ** Shared types ([shared/types.ts]) *)

Inductive ConcurrencyRisk : Type := RiskLow | RiskMedium | RiskHigh.

Inductive Severity : Type := SevLow | SevMedium | SevHigh.

Module StackProfile.
Record t : Type := mk {
  runtime : option string;
  framework : option string;
  database : option string;
  databases : option (list string);
  external_apis : option (list string);
  has_background_jobs : option bool;
  has_file_uploads : option bool;
  deployment_platform : option string
}.

Definition set_runtime (v : string) (p : t) : t :=
  mk (Some v) (framework p) (database p) (databases p) (external_apis p)
     (has_background_jobs p) (has_file_uploads p) (deployment_platform p).
Definition set_framework (v : string) (p : t) : t :=
  mk (runtime p) (Some v) (database p) (databases p) (external_apis p)
     (has_background_jobs p) (has_file_uploads p) (deployment_platform p).
Definition set_database (v : option string) (p : t) : t :=
  mk (runtime p) (framework p) v (databases p) (external_apis p)
     (has_background_jobs p) (has_file_uploads p) (deployment_platform p).
Definition set_databases (v : option (list string)) (p : t) : t :=
  mk (runtime p) (framework p) (database p) v (external_apis p)
     (has_background_jobs p) (has_file_uploads p) (deployment_platform p).
Definition set_external_apis (v : option (list string)) (p : t) : t :=
  mk (runtime p) (framework p) (database p) (databases p) v
     (has_background_jobs p) (has_file_uploads p) (deployment_platform p).
Definition set_has_background_jobs (v : bool) (p : t) : t :=
  mk (runtime p) (framework p) (database p) (databases p) (external_apis p)
     (Some v) (has_file_uploads p) (deployment_platform p).
Definition set_has_file_uploads (v : bool) (p : t) : t :=
  mk (runtime p) (framework p) (database p) (databases p) (external_apis p)
     (has_background_jobs p) (Some v) (deployment_platform p).
Definition set_deployment_platform (v : string) (p : t) : t :=
  mk (runtime p) (framework p) (database p) (databases p) (external_apis p)
     (has_background_jobs p) (has_file_uploads p) (Some v).
End StackProfile.

Module BehaviorProfile.
Record t : Type := mk {
  is_stateful : bool;
  write_heavy : bool;
  has_background_jobs : bool;
  has_file_uploads : bool;
  estimated_concurrency_risk : ConcurrencyRisk;
  external_dependency_count : Z
}.
End BehaviorProfile.

(** ** App understanding ([server/services/appUnderstanding.ts]) *)

Module AppUnderstanding.

(** The part of a parsed package.json the detectors read. *)
Record PackageJson : Type := mkPackageJson {
  dependencies : option (gmap string string);
  devDependencies : option (gmap string string)
}.

Record AppContent : Type := mkAppContent {
  files : list (string * string);   (* filename -> content *)
  packageJson : option PackageJson;
  requirements : option string      (* python requirements *)
}.

(** [files.has(name)] *)
Definition filesHas (fs : list (string * string)) (name : string) : bool :=
  existsb (fun kv => String.eqb (fst kv) name) fs.

(** [{ ...(dependencies || {}), ...(devDependencies || {}) }]: on a name
    declared twice the later spread, devDependencies, wins. *)
Definition mergedDeps (pj : PackageJson) : gmap string string :=
  default ∅ (devDependencies pj) ∪ default ∅ (dependencies pj).

(** The truthiness of [deps[pkg]]. *)
Definition hasDep (deps : gmap string string) (pkg : string) : bool :=
  match deps !! pkg with
  | Some v => JsString.truthy v
  | None => false
  end.

(** [Object.keys(deps)] *)
Definition depKeys (deps : gmap string string) : list string :=
  (map_to_list deps).*1.

Definition listIncludes (l : list string) (x : string) : bool :=
  existsb (String.eqb x) l.

(** [arr?.push(x)] *)
Definition push (x : string) (arr : option (list string)) : option (list string) :=
  (fun l => (l ++ [x])%list) <$> arr.

(** [[...new Set(arr)]]: the first occurrence of each element, in order. *)
Definition dedupe (arr : list string) : list string :=
  fold_left (fun acc x => if listIncludes acc x then acc else (acc ++ [x])%list) arr [].

Definition frameworks : list (string * string) :=
  [ ("express", "Express");
    ("fastify", "Fastify");
    ("next", "Next.js");
    ("nuxt", "Nuxt");
    ("koa", "Koa");
    ("hapi", "@hapi/hapi");
    ("@nestjs/core", "NestJS") ].

Definition dbMapping : list (string * string) :=
  [ ("pg", "PostgreSQL");
    ("mongoose", "MongoDB");
    ("mongodb", "MongoDB");
    ("sqlite3", "SQLite");
    ("better-sqlite3", "SQLite");
    ("mysql2", "MySQL");
    ("mysql", "MySQL");
    ("@prisma/client", "Prisma");
    ("prisma", "Prisma") ].

Definition apiPatterns : list (string * string) :=
  [ ("stripe", "Stripe");
    ("twilio", "Twilio");
    ("@sendgrid/mail", "SendGrid");
    ("sendgrid", "SendGrid");
    ("aws-sdk", "AWS");
    ("@aws-sdk", "AWS");
    ("@google-cloud", "Google Cloud");
    ("firebase", "Firebase");
    ("firebase-admin", "Firebase") ].

(** The framework loop: the first table entry whose package is declared. *)
Definition detectFramework (deps : gmap string string) (p : StackProfile.t)
  : StackProfile.t :=
  match find (fun e => hasDep deps (fst e)) frameworks with
  | Some e => StackProfile.set_framework (snd e) p
  | None => p
  end.

(** One turn of the database loop. *)
Definition addDatabase (deps : gmap string string)
    (dbs : option (list string)) (e : string * string) : option (list string) :=
  if hasDep deps (fst e)
     && negb (default false ((fun l => listIncludes l (snd e)) <$> dbs))
  then push (snd e) dbs
  else dbs.

(** One turn of the external API loop. *)
Definition addApi (deps : gmap string string)
    (apis : option (list string)) (e : string * string) : option (list string) :=
  if existsb (fun dep => JsString.includes dep (fst e)) (depKeys deps)
  then push (snd e) apis
  else apis.

(** [if (databases && databases.length > 0) database = databases[0]] *)
Definition setPrimaryDatabase (p : StackProfile.t) : StackProfile.t :=
  match StackProfile.databases p with
  | Some (d :: _) => StackProfile.set_database (Some d) p
  | _ => p
  end.

Definition detectPlatform (fs : list (string * string)) (p : StackProfile.t)
  : StackProfile.t :=
  if filesHas fs "vercel.json" then StackProfile.set_deployment_platform "Vercel" p
  else if filesHas fs "replit.nix" || filesHas fs ".replit"
       then StackProfile.set_deployment_platform "Replit" p
  else if filesHas fs "fly.toml" then StackProfile.set_deployment_platform "Fly.io" p
  else if filesHas fs "railway.json" then StackProfile.set_deployment_platform "Railway" p
  else p.

(** The body of [if (appContent.packageJson) { ... }]. *)
Definition nodeDetection (fs : list (string * string)) (pj : PackageJson)
    (p0 : StackProfile.t) : StackProfile.t :=
  let p1 := StackProfile.set_runtime "Node.js" p0 in
  let deps := mergedDeps pj in
  let p2 := detectFramework deps p1 in
  let p3 := StackProfile.set_databases
              (fold_left (addDatabase deps) dbMapping (StackProfile.databases p2)) p2 in
  let p4 := setPrimaryDatabase p3 in
  let p5 := StackProfile.set_external_apis
              (fold_left (addApi deps) apiPatterns (StackProfile.external_apis p4)) p4 in
  let p6 := detectPlatform fs p5 in
  let p7 := StackProfile.set_has_background_jobs
              (hasDep deps "bull" || hasDep deps "agenda" || hasDep deps "node-cron") p6 in
  StackProfile.set_has_file_uploads
    (hasDep deps "multer" || hasDep deps "formidable" || hasDep deps "busboy") p7.

(** The Python framework chain: django, then flask, then fastapi. *)
Definition detectPythonFramework (reqLower : string) (p : StackProfile.t)
  : StackProfile.t :=
  if JsString.includes reqLower "django" then StackProfile.set_framework "Django" p
  else if JsString.includes reqLower "flask" then StackProfile.set_framework "Flask" p
  else if JsString.includes reqLower "fastapi" then StackProfile.set_framework "FastAPI" p
  else p.

(** The three Python database checks, each pushing without a look at what
    the list already holds. *)
Definition addPythonDatabases (reqLower : string) (d0 : option (list string))
  : option (list string) :=
  let d1 := if JsString.includes reqLower "psycopg" then push "PostgreSQL" d0 else d0 in
  let d2 := if JsString.includes reqLower "pymongo" then push "MongoDB" d1 else d1 in
  if JsString.includes reqLower "mysql" then push "MySQL" d2 else d2.

(** The body of [if (appContent.requirements) { ... }]. *)
Definition pythonDetection (req : string) (p0 : StackProfile.t) : StackProfile.t :=
  let p1 := StackProfile.set_runtime "Python" p0 in
  let reqLower := JsString.toLowerCase req in
  let p2 := detectPythonFramework reqLower p1 in
  setPrimaryDatabase
    (StackProfile.set_databases (addPythonDatabases reqLower (StackProfile.databases p2)) p2).

Definition initialStackProfile : StackProfile.t :=
  StackProfile.mk None None None (Some []) (Some []) None None None.

Definition detectStack (appContent : AppContent) : StackProfile.t :=
  let p0 := initialStackProfile in
  let p1 :=
    match packageJson appContent with
    | Some pj => nodeDetection (files appContent) pj p0
    | None => p0
    end in
  let p2 :=
    match requirements appContent with
    | Some req => if JsString.truthy req then pythonDetection req p1 else p1
    | None => p1
    end in
  StackProfile.set_external_apis
    (Some (dedupe (default [] (StackProfile.external_apis p2)))) p2.

(** [analyzePatterns]: the pattern tables. *)

Definition statePatterns : list Regex.regex :=
  [ Regex.rei (Regex.lit "global" ++ [Regex.Space1; Regex.Word1; Regex.Space0] ++ Regex.lit "=");
    Regex.rei (Regex.lit "session[");
    Regex.rei (Regex.lit "sessionStorage");
    Regex.rei (Regex.lit "localStorage");
    Regex.rei (Regex.lit ".cache");
    Regex.rei (Regex.lit "memoryStore");
    Regex.re (Regex.lit "new" ++ [Regex.Space1] ++ Regex.lit "Map(");
    Regex.re (Regex.lit "new" ++ [Regex.Space1] ++ Regex.lit "Set(") ].

Definition writePatterns : list Regex.regex :=
  [ Regex.rei (Regex.lit "INSERT" ++ [Regex.Space1] ++ Regex.lit "INTO");
    Regex.rei (Regex.lit "UPDATE" ++ [Regex.Space1; Regex.Word1; Regex.Space1] ++ Regex.lit "SET");
    Regex.rei (Regex.lit "DELETE" ++ [Regex.Space1] ++ Regex.lit "FROM");
    Regex.rei (Regex.lit ".save(");
    Regex.rei (Regex.lit ".create(");
    Regex.rei (Regex.lit ".update(");
    Regex.rei (Regex.lit ".delete(");
    Regex.rei (Regex.lit ".write(");
    Regex.rei (Regex.lit ".writeFile") ].

Definition readPatterns : list Regex.regex :=
  [ Regex.rei (Regex.lit "SELECT" ++ [Regex.Space1]);
    Regex.rei (Regex.lit ".find(");
    Regex.rei (Regex.lit ".findOne(");
    Regex.rei (Regex.lit ".get(");
    Regex.rei (Regex.lit ".read(");
    Regex.rei (Regex.lit ".readFile") ].

Definition bgJobPatterns : list Regex.regex :=
  [ Regex.rei (Regex.lit "setTimeout");
    Regex.rei (Regex.lit "setInterval");
    Regex.rei (Regex.lit "bull");
    Regex.rei (Regex.lit "agenda");
    Regex.rei (Regex.lit "node-cron");
    Regex.rei (Regex.lit "cron");
    Regex.rei (Regex.lit "celery");
    Regex.rei (Regex.lit ".delay(");
    Regex.rei (Regex.lit ".apply_async") ].

Definition uploadPatterns : list Regex.regex :=
  [ Regex.rei (Regex.lit "multer");
    Regex.rei (Regex.lit "formidable");
    Regex.rei (Regex.lit "busboy");
    Regex.rei (Regex.lit "werkzeug");
    Regex.rei (Regex.lit "upload(");
    Regex.rei (Regex.lit "multipart/form-data") ].

(** [/pool/i] *)
Definition poolPattern : Regex.regex := Regex.rei (Regex.lit "pool").

(** [Array.from(appContent.files.values()).join("\n")] *)
Definition codeContentOf (appContent : AppContent) : string :=
  JsString.join (String (ascii_of_nat 10) "") (map snd (files appContent)).

(** [patterns.some((pattern) => pattern.test(codeContent))] *)
Definition somePattern (patterns : list Regex.regex) (codeContent : string) : bool :=
  existsb (fun pattern => Regex.test pattern codeContent) patterns.

(** The [forEach] loops that add up the matches of every pattern. *)
Definition totalMatches (patterns : list Regex.regex) (codeContent : string) : nat :=
  fold_left (fun count pattern => (count + Regex.matchCount pattern codeContent)%nat)
    patterns O.

(** [Object.keys(deps).length] when there is a manifest, 0 otherwise. *)
Definition dependencyCount (appContent : AppContent) : Z :=
  match packageJson appContent with
  | Some pj => Z.of_nat (length (depKeys (mergedDeps pj)))
  | None => 0
  end.

(** [stackProfile.database?.toLowerCase().includes("sqlite")], undefined
    counting as false. *)
Definition isSQLiteOf (stackProfile : StackProfile.t) : bool :=
  match StackProfile.database stackProfile with
  | Some db => JsString.includes (JsString.toLowerCase db) "sqlite"
  | None => false
  end.

Definition analyzePatterns (appContent : AppContent) : BehaviorProfile.t :=
  let codeContent := codeContentOf appContent in
  let is_stateful := somePattern statePatterns codeContent in
  let writeCount := totalMatches writePatterns codeContent in
  let readCount := totalMatches readPatterns codeContent in
  let write_heavy := (readCount <? writeCount)%nat in
  let has_background_jobs := somePattern bgJobPatterns codeContent in
  let has_file_uploads := somePattern uploadPatterns codeContent in
  let external_dependency_count := dependencyCount appContent in
  let stackProfile := detectStack appContent in
  let isSQLite := isSQLiteOf stackProfile in
  let hasPooling := Regex.test poolPattern codeContent in
  let estimated_concurrency_risk :=
    if (isSQLite && write_heavy) || (is_stateful && negb hasPooling) then RiskHigh
    else if has_background_jobs || (10 <? external_dependency_count) then RiskMedium
    else RiskLow in
  BehaviorProfile.mk is_stateful write_heavy has_background_jobs has_file_uploads
    estimated_concurrency_risk external_dependency_count.

End AppUnderstanding.

(** ** Arrays *)

Module JsArray.
Section Sort.
Context {A : Type} (cmp : A -> A -> Z).

Fixpoint insert (x : A) (l : list A) : list A :=
  match l with
  | [] => [x]
  | y :: l' => if 0 <? cmp x y then y :: insert x l' else x :: l
  end.

(** [arr.sort(cmp)]: the sort is stable, so an element stays ahead of the
    later elements that [cmp] does not put before it. *)
Definition sort (l : list A) : list A := fold_right insert [] l.
End Sort.

(** [arr.slice(0, n)] *)
Definition slice0 {A : Type} (n : nat) (l : list A) : list A := firstn n l.
End JsArray.

(** ** Judgment engine *)

Module RiskScenario.
Record t : Type := mk {
  id : string;
  title : string;
  plain_explanation : string;
  trigger_condition : string;
  user_symptom : string;
  severity : Severity;
  order : Z
}.
End RiskScenario.

Module PlatformRecommendation.
Record t : Type := mk {
  platform_id : string;
  platform_name : string;
  recommended_badge : string;
  why_bullets : list string;
  when_it_changes : string;
  confidence_note : string
}.
End PlatformRecommendation.

Inductive StepMode : Type := DoNothing | WatchOneThing | SmallUpgrade.

Module NextBestStepRecommendation.
Record t : Type := mk {
  mode : StepMode;
  headline : string;
  explanation : string;
  cta_text : string;
  upgrade_required : bool
}.
End NextBestStepRecommendation.

Inductive Stage : Type := StageMvp | StageWatch | StageGrowth | StageProduction.

Inductive VerdictStatus : Type := StatusSafe | StatusWatch | StatusFix.

Module AppAnalysis.
Record t : Type := mk {
  id : string;
  user_id : string;
  stack_detection : StackProfile.t;
  behavior_profile : BehaviorProfile.t;
  launch_confidence_score : Z
}.
End AppAnalysis.

Module LaunchVerdict.
Record t : Type := mk {
  analysis_id : string;
  status : VerdictStatus;
  confidence_score : Z;
  one_line_summary : string;
  risks : list RiskScenario.t;
  platform_recommendation : PlatformRecommendation.t;
  next_best_step : NextBestStepRecommendation.t
}.
End LaunchVerdict.

(** The [PlatformScore] interface local to [recommendPlatform]. *)
Module PlatformScore.
Record t : Type := mk {
  id : string;
  name : string;
  score : Z;
  whyBullets : list string;
  whenItChanges : string;
  confidenceNote : string
}.
End PlatformScore.

Module JudgmentEngine.

(** [stackProfile.database || (stackProfile.databases && stackProfile.databases[0])] *)
Definition primaryDatabase (stackProfile : StackProfile.t) : option string :=
  JsString.or_else (StackProfile.database stackProfile)
    (match StackProfile.databases stackProfile with
     | Some (d :: _) => Some d
     | _ => None
     end).

Definition lowerIncludes (s p : string) : bool :=
  JsString.includes (JsString.toLowerCase s) p.

(** [database?.toLowerCase().includes(p)], undefined counting as false. *)
Definition dbIncludes (database : option string) (p : string) : bool :=
  match database with
  | Some db => lowerIncludes db p
  | None => false
  end.

Definition statefulnessFactor (b : BehaviorProfile.t) : Z * string :=
  if negb (BehaviorProfile.is_stateful b)
  then (30, "App is stateless (safer)")
  else (10, "App is stateful (needs careful scaling)").

Definition dataFactor (b : BehaviorProfile.t) : Z * string :=
  if negb (BehaviorProfile.write_heavy b)
  then (30, "Clean read-heavy data access")
  else (10, "Write-heavy workload (watch for bottlenecks)").

Definition databaseFactors (stackProfile : StackProfile.t) : list string :=
  let database := primaryDatabase stackProfile in
  if JsString.truthy_opt database then
    if dbIncludes database "postgresql" || dbIncludes database "postgres"
       || dbIncludes database "managed"
    then ["Uses managed database (lower risk)"]
    else if dbIncludes database "sqlite" || dbIncludes database "file"
    then ["Uses SQLite (consider upgrade for production)"]
    else []
  else [].

Definition dependencyFactor (b : BehaviorProfile.t) : Z * string :=
  let depCount := BehaviorProfile.external_dependency_count b in
  if depCount <? 3
  then (20, "Has " ++ JsString.ofZ depCount ++ " external dependencies (minimal risk)")
  else if depCount <=? 5
  then (10, "Has " ++ JsString.ofZ depCount ++ " external API dependencies")
  else (5, "Has " ++ JsString.ofZ depCount ++ " external dependencies (monitor reliability)").

Definition concurrencyFactor (b : BehaviorProfile.t) : Z * string :=
  match BehaviorProfile.estimated_concurrency_risk b with
  | RiskLow => (20, "Low concurrency risk")
  | RiskMedium => (10, "Medium concurrency risk")
  | RiskHigh => (5, "High concurrency risk (plan for scaling)")
  end.

Definition backgroundFactor (b : BehaviorProfile.t) : string :=
  if negb (BehaviorProfile.has_background_jobs b)
  then "No background jobs detected"
  else "Has background jobs (ensure separation from main app)".

Record Confidence : Type := mkConfidence {
  score : Z;
  factors : list string
}.

Definition calculateLaunchConfidence
    (stackProfile : StackProfile.t) (behaviorProfile : BehaviorProfile.t) : Confidence :=
  let f1 := statefulnessFactor behaviorProfile in
  let f2 := dataFactor behaviorProfile in
  let f3 := dependencyFactor behaviorProfile in
  let f4 := concurrencyFactor behaviorProfile in
  mkConfidence
    (0 + fst f1 + fst f2 + fst f3 + fst f4)
    ([snd f1; snd f2] ++ databaseFactors stackProfile
       ++ [snd f3; snd f4; backgroundFactor behaviorProfile])%list.

(** [detectRisks]: the five rules, each pushing at most one scenario. *)

Definition dbContentionFires (stackProfile : StackProfile.t) (b : BehaviorProfile.t) : bool :=
  let database := primaryDatabase stackProfile in
  BehaviorProfile.write_heavy b
  && JsString.truthy_opt database
  && (dbIncludes database "sqlite"
      || (negb (dbIncludes database "postgresql")
          && negb (dbIncludes database "postgres")
          && negb (dbIncludes database "managed"))).

Definition dbContentionRisk (b : BehaviorProfile.t) : RiskScenario.t :=
  RiskScenario.mk "db-contention" "Database contention"
    "Your database isn't built for lots of writes at once. If 10 people hit it simultaneously, they'll all wait in line."
    "write_heavy AND database is sqlite OR not managed"
    "Slower responses under heavy use"
    (match BehaviorProfile.estimated_concurrency_risk b with
     | RiskHigh => SevHigh
     | _ => SevMedium
     end)
    1.

Definition costExplosionFires (stackProfile : StackProfile.t) : bool :=
  match StackProfile.deployment_platform stackProfile with
  | Some dp =>
      let platform := JsString.toLowerCase dp in
      JsString.truthy platform
      && (JsString.includes platform "vercel"
          || JsString.includes platform "netlify"
          || JsString.includes platform "lambda"
          || JsString.includes platform "serverless")
  | None => false
  end.

Definition costExplosionRisk : RiskScenario.t :=
  RiskScenario.mk "cost-explosion" "Surprise cost increase"
    "On serverless platforms, a sudden spike in traffic can lead to unexpected bills. Watch your usage metrics closely."
    "serverless platform detected"
    "Unexpected hosting bills"
    SevMedium
    2.

Definition externalDepsFires (b : BehaviorProfile.t) : bool :=
  2 <? BehaviorProfile.external_dependency_count b.

Definition externalDepsRisk (b : BehaviorProfile.t) : RiskScenario.t :=
  RiskScenario.mk "external-deps" "External dependency risk"
    ("You're relying on " ++ JsString.ofZ (BehaviorProfile.external_dependency_count b)
     ++ " external APIs. If any go down or slow down, your app feels it.")
    "external_dependency_count > 2"
    "Intermittent failures or slow responses"
    (if 5 <? BehaviorProfile.external_dependency_count b then SevHigh else SevMedium)
    3.

Definition backgroundBlockingFires (b : BehaviorProfile.t) : bool :=
  BehaviorProfile.has_background_jobs b
  && (BehaviorProfile.write_heavy b || BehaviorProfile.is_stateful b).

Definition backgroundBlockingRisk : RiskScenario.t :=
  RiskScenario.mk "background-blocking" "Long-running tasks block users"
    "Background jobs are running on the same server as user requests. Heavy processing can slow down the whole app."
    "has_background_jobs AND (stateful OR write_heavy)"
    "App feels sluggish during processing"
    SevMedium
    4.

Definition isHigh (r : ConcurrencyRisk) : bool :=
  match r with RiskHigh => true | _ => false end.

Definition concurrencyFires (b : BehaviorProfile.t) : bool :=
  BehaviorProfile.is_stateful b || isHigh (BehaviorProfile.estimated_concurrency_risk b).

Definition concurrencyRisk (b : BehaviorProfile.t) : RiskScenario.t :=
  RiskScenario.mk "concurrency-risk" "Growth may expose concurrency issues"
    "Your app maintains state or has high concurrency risk. When traffic increases, race conditions or data conflicts could appear."
    "is_stateful OR estimated_concurrency_risk high"
    "Data inconsistencies or crashes under load"
    (if BehaviorProfile.is_stateful b then SevHigh else SevMedium)
    5.

Definition pushIf {A : Type} (c : bool) (x : A) : list A := if c then [x] else [].

(** [detectedRisks] as it stands before the sort. *)
Definition detectedRisks (stackProfile : StackProfile.t) (b : BehaviorProfile.t)
  : list RiskScenario.t :=
  (pushIf (dbContentionFires stackProfile b) (dbContentionRisk b)
   ++ pushIf (costExplosionFires stackProfile) costExplosionRisk
   ++ pushIf (externalDepsFires b) (externalDepsRisk b)
   ++ pushIf (backgroundBlockingFires b) backgroundBlockingRisk
   ++ pushIf (concurrencyFires b) (concurrencyRisk b))%list.

Definition severityWeight (s : Severity) : Z :=
  match s with
  | SevHigh => 3
  | SevMedium => 2
  | SevLow => 1
  end.

(** The comparator handed to [sort]. *)
Definition riskCompare (a b : RiskScenario.t) : Z :=
  let weightDiff :=
    severityWeight (RiskScenario.severity b) - severityWeight (RiskScenario.severity a) in
  if negb (weightDiff =? 0) then weightDiff
  else RiskScenario.order a - RiskScenario.order b.

Definition detectRisks (stackProfile : StackProfile.t) (behaviorProfile : BehaviorProfile.t)
  : list RiskScenario.t :=
  JsArray.slice0 3 (JsArray.sort riskCompare (detectedRisks stackProfile behaviorProfile)).

(** [recommendPlatform] *)

Definition isLow (r : ConcurrencyRisk) : bool :=
  match r with RiskLow => true | _ => false end.

(** [stackProfile.runtime?.toLowerCase()] and the like. *)
Definition lowerOpt (o : option string) : option string := JsString.toLowerCase <$> o.

Definition optEquals (o : option string) (v : string) : bool :=
  match o with
  | Some s => String.eqb s v
  | None => false
  end.

Definition optIncludes (o : option string) (v : string) : bool :=
  match o with
  | Some s => JsString.includes s v
  | None => false
  end.

Definition hasDatabaseOf (stackProfile : StackProfile.t) : bool :=
  JsString.truthy_opt (StackProfile.database stackProfile)
  || match StackProfile.databases stackProfile with
     | Some (_ :: _) => true
     | _ => false
     end.

(** A scoring step: [if (c) { score += pts; why.push(bullet) }]. *)
Definition bonus (c : bool) (pts : Z) : Z := if c then pts else 0.

Definition replitCandidate (stackProfile : StackProfile.t) (b : BehaviorProfile.t)
  : PlatformScore.t :=
  let runtime := lowerOpt (StackProfile.runtime stackProfile) in
  let simple := negb (BehaviorProfile.is_stateful b)
                && isLow (BehaviorProfile.estimated_concurrency_risk b) in
  let supported := optEquals runtime "node" || optEquals runtime "python" in
  PlatformScore.mk "replit" "Replit"
    (50 + bonus simple 30 + bonus supported 20)
    (JsArray.slice0 2
       (pushIf simple "Simple setup for low-to-moderate traffic"
        ++ pushIf supported "Great support for Node.js and Python")%list)
    "If usage grows 5–10×, this setup may need an upgrade."
    "You're not missing out by staying here.".

Definition vercelCandidate (stackProfile : StackProfile.t) (b : BehaviorProfile.t)
  : PlatformScore.t :=
  let framework := lowerOpt (StackProfile.framework stackProfile) in
  let hasDatabase := hasDatabaseOf stackProfile in
  let frontend := optIncludes framework "next" || optIncludes framework "react" in
  let serverless := negb hasDatabase && negb (BehaviorProfile.write_heavy b) in
  PlatformScore.mk "vercel" "Vercel"
    (50 + bonus frontend 40 + bonus serverless 20
     - bonus (BehaviorProfile.is_stateful b || hasDatabase) 20)
    (JsArray.slice0 2
       (pushIf frontend "Built for Next.js and React apps"
        ++ pushIf serverless "Perfect for serverless API routes")%list)
    "If you add databases or stateful features, consider Railway."
    "Best for static sites and serverless functions.".

Definition railwayCandidate (stackProfile : StackProfile.t) (b : BehaviorProfile.t)
  : PlatformScore.t :=
  let hasDatabase := hasDatabaseOf stackProfile in
  PlatformScore.mk "railway" "Railway"
    (50 + bonus hasDatabase 30 + bonus (BehaviorProfile.has_background_jobs b) 25
     + bonus (BehaviorProfile.write_heavy b) 15)
    (JsArray.slice0 2
       (pushIf hasDatabase "Excellent database support"
        ++ pushIf (BehaviorProfile.has_background_jobs b) "Handles background jobs well")%list)
    "If you need multi-region or advanced scaling, look at Fly.io."
    "Great balance of simplicity and power.".

Definition flyCandidate (stackProfile : StackProfile.t) (b : BehaviorProfile.t)
  : PlatformScore.t :=
  let hasDatabase := hasDatabaseOf stackProfile in
  let high := isHigh (BehaviorProfile.estimated_concurrency_risk b) in
  PlatformScore.mk "fly" "Fly.io"
    (50 + bonus (BehaviorProfile.is_stateful b) 35 + bonus high 25
     + bonus (hasDatabase && BehaviorProfile.write_heavy b) 20)
    (JsArray.slice0 2
       (pushIf (BehaviorProfile.is_stateful b) "Built for stateful applications"
        ++ pushIf high "Handles high concurrency well")%list)
    "This scales with you through production."
    "Best for apps that need global distribution.".

(** [platforms] as pushed, before the sort. *)
Definition platformCandidates (stackProfile : StackProfile.t) (b : BehaviorProfile.t)
  : list PlatformScore.t :=
  [ replitCandidate stackProfile b;
    vercelCandidate stackProfile b;
    railwayCandidate stackProfile b;
    flyCandidate stackProfile b ].

Definition platformCompare (a b : PlatformScore.t) : Z :=
  PlatformScore.score b - PlatformScore.score a.

Definition orDefaultBullets (bullets fallback : list string) : list string :=
  match bullets with
  | [] => fallback
  | _ :: _ => bullets
  end.

Definition recommendPlatform (stackProfile : StackProfile.t)
    (behaviorProfile : BehaviorProfile.t) (currentPlatform : option string)
  : PlatformRecommendation.t :=
  let platforms :=
    JsArray.sort platformCompare (platformCandidates stackProfile behaviorProfile) in
  let current := JsString.truthy_opt currentPlatform in
  let currentPlatformData :=
    if current then
      let currentPlatformNormalized := JsString.toLowerCase (default "" currentPlatform) in
      find (fun p => JsString.includes currentPlatformNormalized (PlatformScore.id p)) platforms
    else None in
  let stay :=
    match currentPlatformData with
    | Some data => if 70 <=? PlatformScore.score data then Some data else None
    | None => None
    end in
  match stay with
  | Some data =>
      PlatformRecommendation.mk (PlatformScore.id data) (PlatformScore.name data)
        "✅ Stay where you are"
        (orDefaultBullets (PlatformScore.whyBullets data)
           ["Handles your current usage well"; "No urgent need to change"])
        (PlatformScore.whenItChanges data) (PlatformScore.confidenceNote data)
  | None =>
      (* platforms[0]: the array always holds the four candidates *)
      let best := hd (replitCandidate stackProfile behaviorProfile) platforms in
      PlatformRecommendation.mk (PlatformScore.id best) (PlatformScore.name best)
        (if current then "⚠️ Consider upgrading" else "✅ Recommended right now")
        (orDefaultBullets (PlatformScore.whyBullets best)
           ["Best fit for your app's needs"; "Balances simplicity and capability"])
        (PlatformScore.whenItChanges best) (PlatformScore.confidenceNote best)
  end.

(** [recommendNextStep] *)

Definition doNothingStep : NextBestStepRecommendation.t :=
  NextBestStepRecommendation.mk DoNothing "Nothing right now."
    "You're in a good place. Focus on your product."
    "We can watch this for you" false.

Definition recommendNextStep (stackProfile : StackProfile.t)
    (behaviorProfile : BehaviorProfile.t) (stage : Stage)
  : NextBestStepRecommendation.t :=
  let database := primaryDatabase stackProfile in
  let b := behaviorProfile in
  let hasHighRisk :=
    isHigh (BehaviorProfile.estimated_concurrency_risk b)
    || BehaviorProfile.is_stateful b
    || (5 <? BehaviorProfile.external_dependency_count b) in
  match stage with
  | StageMvp =>
      if BehaviorProfile.write_heavy b && dbIncludes database "sqlite" then
        NextBestStepRecommendation.mk WatchOneThing "Keep an eye on database usage"
          "Your SQLite database works fine for now. When you hit ~50 concurrent users, you'll want to upgrade to PostgreSQL."
          "Enable Watch Mode" false
      else if BehaviorProfile.has_background_jobs b then
        NextBestStepRecommendation.mk WatchOneThing "Monitor background job performance"
          "Background jobs are running on the same server. This is fine for MVP, but watch for slowdowns."
          "Get alerts when things change" false
      else doNothingStep
  | StageWatch | StageGrowth =>
      if dbIncludes database "sqlite" && BehaviorProfile.write_heavy b then
        NextBestStepRecommendation.mk SmallUpgrade "Before charging users, switch to managed DB"
          "SQLite works for testing, but you'll want PostgreSQL or a managed database before going live with paying customers."
          "Show me how to upgrade"
          (match stage with StageGrowth => true | _ => false end)
      else if BehaviorProfile.has_background_jobs b && BehaviorProfile.is_stateful b then
        NextBestStepRecommendation.mk SmallUpgrade "Separate background jobs from main app"
          "Move long-running tasks to a separate service or queue to keep your main app responsive."
          "See upgrade options" false
      else if 3 <? BehaviorProfile.external_dependency_count b then
        NextBestStepRecommendation.mk WatchOneThing "Add monitoring for external APIs"
          "You're relying on several external services. Set up alerts so you know when they slow down or fail."
          "Enable API monitoring" false
      else
        NextBestStepRecommendation.mk WatchOneThing "Watch for traffic patterns"
          "Your setup is solid. Keep an eye on usage patterns to catch issues before they affect users."
          "Enable Watch Mode" false
  | StageProduction =>
      if hasHighRisk then
        NextBestStepRecommendation.mk SmallUpgrade "Reduce concurrency risks"
          "Your app has high concurrency risk. Consider adding caching, connection pooling, or load balancing."
          "Review upgrade plan" true
      else if JsString.truthy_opt database
              && negb (dbIncludes database "postgresql")
              && negb (dbIncludes database "managed") then
        NextBestStepRecommendation.mk SmallUpgrade "Upgrade to managed database"
          "For production stability, use a managed database service with automatic backups and scaling."
          "See migration guide" true
      else if BehaviorProfile.has_background_jobs b then
        NextBestStepRecommendation.mk SmallUpgrade "Use dedicated job queue"
          "Production apps need reliable background processing. Consider Redis-backed queues or dedicated workers."
          "View job queue options" false
      else
        NextBestStepRecommendation.mk WatchOneThing "Monitor for regressions"
          "Your production setup is solid. Watch for performance regressions as you add features."
          "Enable Production Plus" false
  end.

(** [generateLaunchVerdict], step 4: the stage of a score. *)
Definition stageOfScore (score : Z) : Stage :=
  if 80 <=? score then StageProduction
  else if 65 <=? score then StageGrowth
  else if 50 <=? score then StageWatch
  else StageMvp.

(** [generateLaunchVerdict], step 6: the status of a score. *)
Definition statusOfScore (score : Z) : VerdictStatus :=
  if 80 <=? score then StatusSafe
  else if 50 <=? score then StatusWatch
  else StatusFix.

(** [generateLaunchVerdict], step 7: the one-line summary. *)
Definition oneLineSummary (status : VerdictStatus) (risks : list RiskScenario.t) : string :=
  match status, risks with
  | StatusSafe, [] =>
      "Your app is safe to launch. The current setup handles your needs well."
  | StatusSafe, r :: _ =>
      "Your app is safe to share. " ++ RiskScenario.user_symptom r
      ++ " may appear as you grow."
  | StatusWatch, r :: _ =>
      "Your app works now, but watch for: "
      ++ JsString.toLowerCase (RiskScenario.user_symptom r)
  | StatusWatch, [] =>
      "Your app is functional. Monitor usage patterns as you grow."
  | StatusFix, r :: _ =>
      "Fix before launch: " ++ RiskScenario.plain_explanation r
  | StatusFix, [] =>
      "Your app needs improvements before handling production traffic."
  end.

Definition generateLaunchVerdict (analysis : AppAnalysis.t) : LaunchVerdict.t :=
  let stack := AppAnalysis.stack_detection analysis in
  let behavior := AppAnalysis.behavior_profile analysis in
  let confidence := calculateLaunchConfidence stack behavior in
  let risks := detectRisks stack behavior in
  let platformRecommendation :=
    recommendPlatform stack behavior (StackProfile.deployment_platform stack) in
  let stage := stageOfScore (score confidence) in
  let nextBestStep := recommendNextStep stack behavior stage in
  let status := statusOfScore (score confidence) in
  let oneLine := oneLineSummary status risks in
  LaunchVerdict.mk (AppAnalysis.id analysis) status (score confidence) oneLine risks
    platformRecommendation nextBestStep.

End JudgmentEngine.

(** ** Alert orchestrator ([server/services/alertOrchestrator.ts]) *)

Inductive AlertCategory : Type :=
| UsageGrowth | CostRisk | ArchitectureDrift | PlatformSuitability | StabilityRegression.

Inductive AlertSeverity : Type := Informational | HeadsUp | ActionSoon.

Module Alert.
(** A row of the alerts table; times are milliseconds since the epoch. *)
Record t : Type := mk {
  id : string;
  user_id : string;
  analysis_id : string;
  category : AlertCategory;
  severity : AlertSeverity;
  title : string;
  body : string;
  what_changed : option string;
  next_step : option string;
  created_at : Z;
  read_at : option Z
}.
End Alert.

Module AlertOrchestrator.

(** What a call reads from outside: the alerts table and the two clocks
    (the database's [NOW()] and [new Date()]). *)
Record World : Type := mkWorld {
  alertsTable : list Alert.t;
  dbNow : Z;
  jsNow : Z
}.

(** [INTERVAL '7 days'] *)
Definition sevenDays : Z := 7 * 24 * 60 * 60 * 1000.

Definition categoryEqb (a b : AlertCategory) : bool :=
  match a, b with
  | UsageGrowth, UsageGrowth
  | CostRisk, CostRisk
  | ArchitectureDrift, ArchitectureDrift
  | PlatformSuitability, PlatformSuitability
  | StabilityRegression, StabilityRegression => true
  | _, _ => false
  end.

(** [SELECT * FROM alerts WHERE user_id = $1 AND analysis_id = $2
    AND created_at > NOW() - INTERVAL '7 days'] *)
Definition recentAlertsQuery (w : World) (userId analysisId : string) : list Alert.t :=
  List.filter (fun a =>
            String.eqb (Alert.user_id a) userId
            && String.eqb (Alert.analysis_id a) analysisId
            && (dbNow w - sevenDays <? Alert.created_at a))
         (alertsTable w).

(** [recentCategories.has(c)] *)
Definition has (recentCategories : list AlertCategory) (c : AlertCategory) : bool :=
  existsb (categoryEqb c) recentCategories.

Definition createAlert (w : World) (userId analysisId : string)
    (category : AlertCategory) (severity : AlertSeverity)
    (title body what_changed next_step : string) : Alert.t :=
  Alert.mk "" userId analysisId category severity title body
    (Some what_changed) (Some next_step) (jsNow w) None.

Definition riskName (r : ConcurrencyRisk) : string :=
  match r with
  | RiskLow => "low"
  | RiskMedium => "medium"
  | RiskHigh => "high"
  end.

Definition isHigh (r : ConcurrencyRisk) : bool :=
  match r with RiskHigh => true | _ => false end.

Definition pushIf (c : bool) (a : Alert.t) : list Alert.t := if c then [a] else [].

Definition evaluateAlerts (w : World) (analysisId userId : string)
    (newProfile : BehaviorProfile.t) (previousProfile : option BehaviorProfile.t)
  : list Alert.t :=
  let recentAlerts := recentAlertsQuery w userId analysisId in
  let recentCategories := map Alert.category recentAlerts in
  match previousProfile with
  | None => []
  | Some previousProfile =>
      (pushIf
         (negb (has recentCategories UsageGrowth)
          && negb (isHigh (BehaviorProfile.estimated_concurrency_risk previousProfile))
          && isHigh (BehaviorProfile.estimated_concurrency_risk newProfile))
         (createAlert w userId analysisId UsageGrowth HeadsUp
            "Your app is handling more traffic"
            "We noticed your app's usage patterns have changed. This is a good sign — it means people are using it more."
            ("Concurrency risk increased from "
             ++ riskName (BehaviorProfile.estimated_concurrency_risk previousProfile)
             ++ " to high")
            "Keep an eye on response times. If things slow down, we'll let you know what to do.")
       ++ pushIf
         (negb (has recentCategories CostRisk)
          && (BehaviorProfile.external_dependency_count previousProfile + 2
              <? BehaviorProfile.external_dependency_count newProfile))
         (createAlert w userId analysisId CostRisk Informational
            "New external services detected"
            "Your app now connects to more external services. This is fine, but each service may have its own costs."
            ("External dependencies increased from "
             ++ JsString.ofZ (BehaviorProfile.external_dependency_count previousProfile)
             ++ " to "
             ++ JsString.ofZ (BehaviorProfile.external_dependency_count newProfile))
            "Review the pricing for any new services you're using.")
       ++ pushIf
         (negb (has recentCategories ArchitectureDrift)
          && negb (BehaviorProfile.is_stateful previousProfile)
          && BehaviorProfile.is_stateful newProfile)
         (createAlert w userId analysisId ArchitectureDrift HeadsUp
            "Your app now stores state"
            "We detected that your app has started storing data in memory or files. This works fine now, but may cause issues if you need to run multiple copies."
            "App changed from stateless to stateful"
            "Consider using a database for important data instead of in-memory storage.")
       ++ pushIf
         (negb (has recentCategories PlatformSuitability)
          && BehaviorProfile.has_background_jobs newProfile
          && BehaviorProfile.write_heavy newProfile)
         (createAlert w userId analysisId PlatformSuitability ActionSoon
            "Your setup might need an upgrade soon"
            "With background jobs and frequent database writes, you're doing things that work better with dedicated resources."
            "Detected background jobs combined with write-heavy patterns"
            "When you're ready, we can show you a smoother setup.")
       ++ pushIf
         (negb (has recentCategories StabilityRegression)
          && negb (BehaviorProfile.has_background_jobs previousProfile)
          && BehaviorProfile.has_background_jobs newProfile)
         (createAlert w userId analysisId StabilityRegression Informational
            "Background tasks detected"
            "Your app now runs tasks in the background. This is common, but make sure long tasks don't slow down user requests."
            "Background jobs were added"
            "Consider moving heavy tasks to a separate queue if response times suffer."))%list
  end.

End AlertOrchestrator.

(** ** Vocabulary of the specification *)

Module Spec.

(** high > medium > low *)
Definition severityAbove (a b : Severity) : Prop :=
  match a, b with
  | SevHigh, SevMedium | SevHigh, SevLow | SevMedium, SevLow => True
  | _, _ => False
  end.

(** [a] is ranked no later than [b]: by severity descending, then by
    display order ascending. *)
Definition ranksBefore (a b : RiskScenario.t) : Prop :=
  severityAbove (RiskScenario.severity a) (RiskScenario.severity b)
  \/ (RiskScenario.severity a = RiskScenario.severity b
      /\ RiskScenario.order a <= RiskScenario.order b).

(** How safe a status is: fix < watch < safe. *)
Definition safety (s : VerdictStatus) : Z :=
  match s with
  | StatusFix => 0
  | StatusWatch => 1
  | StatusSafe => 2
  end.

(** An alert of category [c] for this user and analysis was created
    within the trailing 7 days. *)
Definition notifiedRecently (w : AlertOrchestrator.World) (userId analysisId : string)
    (c : AlertCategory) : Prop :=
  exists a, In a (AlertOrchestrator.alertsTable w)
            /\ Alert.user_id a = userId
            /\ Alert.analysis_id a = analysisId
            /\ Alert.category a = c
            /\ AlertOrchestrator.dbNow w - AlertOrchestrator.sevenDays < Alert.created_at a.


(** The trigger condition of each category (section 4.5). *)
Definition triggers (c : AlertCategory) (previous new : BehaviorProfile.t) : Prop :=
  match c with
  | UsageGrowth =>
      BehaviorProfile.estimated_concurrency_risk previous <> RiskHigh
      /\ BehaviorProfile.estimated_concurrency_risk new = RiskHigh
  | CostRisk =>
      BehaviorProfile.external_dependency_count new
      > BehaviorProfile.external_dependency_count previous + 2
  | ArchitectureDrift =>
      BehaviorProfile.is_stateful previous = false
      /\ BehaviorProfile.is_stateful new = true
  | PlatformSuitability =>
      BehaviorProfile.has_background_jobs new = true
      /\ BehaviorProfile.write_heavy new = true
  | StabilityRegression =>
      BehaviorProfile.has_background_jobs previous = false
      /\ BehaviorProfile.has_background_jobs new = true
  end.

(** The display names the two detection blocks of [detectStack] push. *)
Definition databaseNames : list string :=
  ["PostgreSQL"; "MongoDB"; "SQLite"; "MySQL"; "Prisma"].

End Spec.

(** ** Concrete inputs used below *)

Module Inputs.

(** A package.json declaring express, next to a requirements.txt. *)
Definition nodeAndPython : AppUnderstanding.AppContent :=
  AppUnderstanding.mkAppContent []
    (Some (AppUnderstanding.mkPackageJson (Some {["express" := "4.18.0"]}) None))
    (Some "flask==2.0").

(** The manifest of the repository's own edge-case test: stripe is a
    devDependency only. *)
Definition stripeDevOnly : AppUnderstanding.AppContent :=
  AppUnderstanding.mkAppContent []
    (Some (AppUnderstanding.mkPackageJson
             (Some {["express" := "1.0.0"]})
             (Some {["vitest" := "1.0.0"; "stripe" := "1.0.0"]})))
    None.

(** The end-to-end scenario of section 8. *)
Definition sqliteStack : StackProfile.t :=
  StackProfile.mk None None (Some "SQLite") None None None None None.

Definition sqliteBehavior : BehaviorProfile.t :=
  BehaviorProfile.mk false true false false RiskHigh 1.

Definition sqliteAnalysis : AppAnalysis.t :=
  AppAnalysis.mk "analysis-1" "user-1" sqliteStack sqliteBehavior 0.

(** The cooldown scenario of section 8: the application turns stateful while
    one architecture_drift alert is on record, 3 days old or 8 days old. *)
Definition day : Z := 24 * 60 * 60 * 1000.

Definition driftAlertAt (created : Z) : Alert.t :=
  Alert.mk "alert-1" "user-1" "analysis-1" ArchitectureDrift HeadsUp
    "Your app now stores state" "" None None created None.

Definition worldWithAlertAged (days : Z) : AlertOrchestrator.World :=
  AlertOrchestrator.mkWorld [driftAlertAt (100 * day - days * day)] (100 * day) (100 * day).

Definition statelessProfile : BehaviorProfile.t :=
  BehaviorProfile.mk false false false false RiskLow 0.

Definition statefulProfile : BehaviorProfile.t :=
  BehaviorProfile.mk true false false false RiskLow 0.

(** A package.json with one dependency and no requirements.txt. *)
Definition nodeOnly : AppUnderstanding.AppContent :=
  AppUnderstanding.mkAppContent []
    (Some (AppUnderstanding.mkPackageJson (Some {["express" := "4.18.0"]}) None))
    None.

End Inputs.

(** ** The analysis route ([server/routes/analyze.ts]) *)

Module AnalyzeRoute.

(** [{ ...analysis, stack_detection: stackProfile, behavior_profile: behaviorProfile }] *)
Definition withProfiles (analysis : AppAnalysis.t)
    (stackProfile : StackProfile.t) (behaviorProfile : BehaviorProfile.t) : AppAnalysis.t :=
  AppAnalysis.mk (AppAnalysis.id analysis) (AppAnalysis.user_id analysis)
    stackProfile behaviorProfile (AppAnalysis.launch_confidence_score analysis).

(** The analysis steps of [handleAnalyze], from the fetched content to the
    verdict: detectStack, analyzePatterns, generateLaunchVerdict. *)
Definition analyzeContent (analysis : AppAnalysis.t)
    (appContent : AppUnderstanding.AppContent) : LaunchVerdict.t :=
  let stackProfile := AppUnderstanding.detectStack appContent in
  let behaviorProfile := AppUnderstanding.analyzePatterns appContent in
  let partialAnalysis := withProfiles analysis stackProfile behaviorProfile in
  JudgmentEngine.generateLaunchVerdict partialAnalysis.

End AnalyzeRoute.

(** ** Names the code fixes in its tables *)

Module Catalog.

(** The [id]s of the five risk rules of [detectRisks]. *)
Definition riskIds : list string :=
  ["db-contention"; "cost-explosion"; "external-deps"; "background-blocking";
   "concurrency-risk"].

(** The [id]s of the four candidates of [recommendPlatform]. *)
Definition platformIds : list string := ["replit"; "vercel"; "railway"; "fly"].

(** The service names of [apiPatterns]. *)
Definition apiNames : list string :=
  ["Stripe"; "Twilio"; "SendGrid"; "AWS"; "Google Cloud"; "Firebase"].

End Catalog.

(** ** Content fetching ([parseZipUpload], [fetchFiles]) *)

Module ContentFetch.

(** [s.endsWith(suffix)] *)
Fixpoint endsWith (s suffix : string) : bool :=
  String.eqb s suffix
  || match s with
     | EmptyString => false
     | String _ s' => endsWith s' suffix
     end.

(** The skip patterns are literal texts, some anchored: [/text/], [/^text/]
    and [/text$/]. *)
Inductive SkipPattern : Type :=
| Anywhere (text : string)
| AtStart (text : string)
| AtEnd (text : string).

(** [pattern.test(path)] *)
Definition testPattern (pattern : SkipPattern) (path : string) : bool :=
  match pattern with
  | Anywhere text => JsString.includes path text
  | AtStart text => JsString.startsWith text path
  | AtEnd text => endsWith path text
  end.

(** [skipPatterns] of [parseZipUpload] *)
Definition zipSkipPatterns : list SkipPattern :=
  [ Anywhere "node_modules/";
    Anywhere ".git/";
    Anywhere ".next/";
    Anywhere "dist/";
    Anywhere "build/";
    Anywhere "__pycache__/";
    AtEnd ".lock";
    AtEnd "package-lock.json";
    AtEnd "yarn.lock";
    AtEnd "pnpm-lock.yaml" ].

(** [skipPatterns] of [fetchFiles] *)
Definition treeSkipPatterns : list SkipPattern :=
  [ AtStart "node_modules/";
    AtStart ".git/";
    AtStart ".next/";
    AtStart "dist/";
    AtStart "build/";
    AtStart "__pycache__/";
    AtEnd ".lock";
    AtEnd "package-lock.json";
    AtEnd "yarn.lock";
    AtEnd "pnpm-lock.yaml" ].

(** [skipPatterns.some((pattern) => pattern.test(path))] *)
Definition shouldSkip (patterns : list SkipPattern) (path : string) : bool :=
  existsb (fun pattern => testPattern pattern path) patterns.

(** An entry of the archive; [data] is [None] when reading it throws. *)
Record ZipEntry : Type := mkZipEntry {
  entryName : string;
  isDirectory : bool;
  data : option string
}.

(** What [JSON.parse] makes of a text. *)
Inductive JsonResult : Type :=
| JsonThrows
| JsonValue (v : option AppUnderstanding.PackageJson).

(** [files.set(name, content)]: a known name keeps its place and gets the
    new content, a new one goes to the end. *)
Fixpoint mapSet (fs : list (string * string)) (name content : string)
  : list (string * string) :=
  match fs with
  | [] => [(name, content)]
  | (k, v) :: rest =>
      if String.eqb k name then (k, content) :: rest
      else (k, v) :: mapSet rest name content
  end.

(** One turn of the loop over the entries of [parseZipUpload]. *)
Definition addEntry (parse : string -> JsonResult)
    (appContent : AppUnderstanding.AppContent) (entry : ZipEntry)
  : AppUnderstanding.AppContent :=
  if isDirectory entry then appContent
  else if shouldSkip zipSkipPatterns (entryName entry) then appContent
  else
    match data entry with
    | None => appContent
    | Some content =>
        let files := mapSet (AppUnderstanding.files appContent) (entryName entry) content in
        let packageJson :=
          if endsWith (entryName entry) "package.json" then
            match parse content with
            | JsonValue v => v
            | JsonThrows => AppUnderstanding.packageJson appContent
            end
          else AppUnderstanding.packageJson appContent in
        let requirements :=
          if endsWith (entryName entry) "requirements.txt" then Some content
          else AppUnderstanding.requirements appContent in
        AppUnderstanding.mkAppContent files packageJson requirements
    end.

(** The entries the loop reads: files, not skipped, whose data can be read. *)
Definition isRead (entry : ZipEntry) : bool :=
  negb (isDirectory entry)
  && negb (shouldSkip zipSkipPatterns (entryName entry))
  && match data entry with Some _ => true | None => false end.

(** What [JSON.parse] makes of the data of an entry. *)
Definition manifestOf (parse : string -> JsonResult) (entry : ZipEntry) : JsonResult :=
  match data entry with
  | Some content => parse content
  | None => JsonThrows
  end.

Definition isValue (r : JsonResult) : bool :=
  match r with
  | JsonValue _ => true
  | JsonThrows => false
  end.

Definition valueOf (r : JsonResult) : option AppUnderstanding.PackageJson :=
  match r with
  | JsonValue v => v
  | JsonThrows => None
  end.

(** [parseZipUpload] on the entries of an archive that could be opened. *)
Definition parseZipUpload (parse : string -> JsonResult) (zipEntries : list ZipEntry)
  : AppUnderstanding.AppContent :=
  fold_left (addEntry parse) zipEntries (AppUnderstanding.mkAppContent [] None None).

(** An item of the repository tree. *)
Record TreeItem : Type := mkTreeItem {
  path : string;
  type : string;
  size : option Z;
  url : string
}.

(** [filesToFetch]: blobs, not skipped, not above 100KB. *)
Definition filesToFetch (tree : list TreeItem) : list TreeItem :=
  List.filter
    (fun item =>
       if negb (String.eqb (type item) "blob") then false
       else if shouldSkip treeSkipPatterns (path item) then false
       else match size item with
            | Some n => if negb (n =? 0) && (100 * 1024 <? n) then false else true
            | None => true
            end)
    tree.

Definition concurrencyLimit : nat := 10.

(** [arr.slice(i, j)] *)
Definition slice {A : Type} (i j : nat) (l : list A) : list A := firstn (j - i) (skipn i l).

(** The batches of the loop [for (let i = 0; i < n; i += concurrencyLimit)];
    the loop takes at most [fuel] turns. *)
Fixpoint batchesFrom {A : Type} (fuel i : nat) (files : list A) : list (list A) :=
  match fuel with
  | O => []
  | S fuel' =>
      if (i <? length files)%nat
      then slice i (i + concurrencyLimit) files
           :: batchesFrom fuel' (i + concurrencyLimit) files
      else []
  end.

Definition batches {A : Type} (files : list A) : list (list A) :=
  batchesFrom (length files) 0 files.

End ContentFetch.

(** ** Repository addresses ([cloneGitHubRepo])

    The two patterns of [cloneGitHubRepo] are anchored at both ends and made
    of literal texts, capturing groups of one or more characters of a class,
    greedy ([+]) or lazy ([+?]), and an optional capturing literal. The
    matcher backtracks as the JavaScript one does: a greedy group takes the
    longest run and gives characters back one at a time, a lazy group takes
    one character and takes more one at a time, an optional literal is tried
    before it is left out. *)

Module GitHubUrl.

Inductive node : Type :=
| Lit (text : string)                         (* literal text *)
| Group (cls : ascii -> bool) (lazy : bool)   (* ([cls]+) or ([cls]+?) *)
| Maybe (text : string).                      (* (text)? *)

(** The captured groups, in order; [None] for a group that took no part. *)
Definition captures : Type := list (option string).

(** Matches a literal at the head of [s]; gives the rest. *)
Fixpoint matchLit (text s : string) : option string :=
  match text, s with
  | EmptyString, _ => Some s
  | String a text', String b s' => if Ascii.eqb a b then matchLit text' s' else None
  | String _ _, EmptyString => None
  end.

(** [acc] followed by the character [c] *)
Definition snoc (acc : string) (c : ascii) : string := acc ++ String c "".

(** A greedy group: [acc] is what the group has taken so far. *)
Fixpoint greedy {R : Type} (cls : ascii -> bool) (k : string -> string -> option R)
    (acc s : string) : option R :=
  match s with
  | String c s' =>
      if cls c then
        match greedy cls k (snoc acc c) s' with
        | Some r => Some r
        | None => k (snoc acc c) s'
        end
      else None
  | EmptyString => None
  end.

(** A lazy group. *)
Fixpoint lazy {R : Type} (cls : ascii -> bool) (k : string -> string -> option R)
    (acc s : string) : option R :=
  match s with
  | String c s' =>
      if cls c then
        match k (snoc acc c) s' with
        | Some r => Some r
        | None => lazy cls k (snoc acc c) s'
        end
      else None
  | EmptyString => None
  end.

(** Matches the pattern [^ p $] against [s]. *)
Fixpoint run (p : list node) (s : string) (caps : captures) : option captures :=
  match p with
  | [] => match s with EmptyString => Some caps | String _ _ => None end
  | Lit text :: p' =>
      match matchLit text s with
      | Some rest => run p' rest caps
      | None => None
      end
  | Group cls false :: p' =>
      greedy cls (fun text rest => run p' rest (caps ++ [Some text])%list) "" s
  | Group cls true :: p' =>
      lazy cls (fun text rest => run p' rest (caps ++ [Some text])%list) "" s
  | Maybe text :: p' =>
      match matchLit text s with
      | Some rest =>
          match run p' rest (caps ++ [Some text])%list with
          | Some r => Some r
          | None => run p' s (caps ++ [None])%list
          end
      | None => run p' s (caps ++ [None])%list
      end
  end.

(** [[^/]] *)
Definition notSlash (c : ascii) : bool := negb (Ascii.eqb c "/").

(** [.]: any character but a line terminator. *)
Definition dot (c : ascii) : bool :=
  negb (Ascii.eqb c "010") && negb (Ascii.eqb c "013").

(** [/^https:\/\/github\.com\/([^/]+)\/([^/]+?)(\.git)?$/] *)
Definition httpsPattern : list node :=
  [Lit "https://github.com/"; Group notSlash false; Lit "/"; Group notSlash true;
   Maybe ".git"].

(** [/^git@github\.com:([^/]+)\/(.+?)\.git$/] *)
Definition sshPattern : list node :=
  [Lit "git@github.com:"; Group notSlash false; Lit "/"; Group dot true; Lit ".git"].

(** [url.match(pattern)]: the groups, or [None] for [null]. *)
Definition matchUrl (pattern : list node) (url : string) : option captures :=
  run pattern url [].

(** [m[i]] for a group number [i >= 1] *)
Definition group (m : captures) (i : nat) : option string := nth (i - 1) m None.

(** The owner and the repository [cloneGitHubRepo] reads off the address;
    [None] where it throws "Invalid GitHub URL format". *)
Definition ownerAndRepo (githubUrl : string) : option (option string * option string) :=
  let httpsMatch := matchUrl httpsPattern githubUrl in
  let sshMatch := matchUrl sshPattern githubUrl in
  match httpsMatch with
  | Some m => Some (group m 1, group m 2)
  | None =>
      match sshMatch with
      | Some m => Some (group m 1, group m 2)
      | None => None
      end
  end.

(** Every character of [s] is in the class. *)
Fixpoint all (cls : ascii -> bool) (s : string) : bool :=
  match s with
  | EmptyString => true
  | String c s' => cls c && all cls s'
  end.

End GitHubUrl.

(** ** Failed analyses ([cloneGitHubRepo], [handleAnalyze], [handleRecheckAnalysis]) *)

Module CloneFailure.

(** The message of the error thrown when neither branch has a tree: the
    status text of the second response follows the colon. *)
Definition treeFailure (statusText : string) : string :=
  "Failed to fetch repository tree: " ++ statusText.

(** The message under which [cloneGitHubRepo] throws an error caught while
    fetching again. *)
Definition cloneFailure (message : string) : string :=
  "Failed to clone GitHub repository: " ++ message.

(** The status with which the routes answer an [Error] of the analysis. *)
Definition failureStatus (message : string) : Z :=
  if JsString.includes message "rate limit" then 429
  else if JsString.includes message "not found" then 404
  else 500.

End CloneFailure.

(** ** Saving alerts ([saveAlerts], and the alerts table of the schema) *)

Module AlertStore.

(** What the database fills in when a row is inserted into [alerts] without
    them: [id UUID DEFAULT gen_random_uuid()] and
    [created_at TIMESTAMP DEFAULT CURRENT_TIMESTAMP]; [read_at] stays NULL. *)
Record Defaults : Type := mkDefaults {
  newId : string;
  timestamp : Z
}.

(** [INSERT INTO alerts (user_id, analysis_id, category, severity, title,
    body, what_changed, next_step) VALUES (...) RETURNING *]: the row. *)
Definition insertedRow (d : Defaults) (alert : Alert.t) : Alert.t :=
  Alert.mk (newId d) (Alert.user_id alert) (Alert.analysis_id alert)
    (Alert.category alert) (Alert.severity alert) (Alert.title alert) (Alert.body alert)
    (Alert.what_changed alert) (Alert.next_step alert) (timestamp d) None.

(** The loop of [saveAlerts] from its [i]-th insert on: the table and
    [savedAlerts] grow by one row per alert; [defaults i] is what the database
    supplies for the [i]-th insert of the call. *)
Fixpoint saveFrom (i : nat) (defaults : nat -> Defaults)
    (table : list Alert.t) (alerts : list Alert.t) (savedAlerts : list Alert.t)
  : list Alert.t * list Alert.t :=
  match alerts with
  | [] => (table, savedAlerts)
  | alert :: rest =>
      let row := insertedRow (defaults i) alert in
      saveFrom (S i) defaults (table ++ [row]) rest (savedAlerts ++ [row])
  end.

(** [saveAlerts(alerts)]: the table afterwards, and the saved alerts. *)
Definition saveAlerts (defaults : nat -> Defaults)
    (table : list Alert.t) (alerts : list Alert.t) : list Alert.t * list Alert.t :=
  saveFrom 0 defaults table alerts [].

(** The rows a call inserts, in order. *)
Fixpoint insertedRows (i : nat) (defaults : nat -> Defaults) (alerts : list Alert.t)
  : list Alert.t :=
  match alerts with
  | [] => []
  | alert :: rest => insertedRow (defaults i) alert :: insertedRows (S i) defaults rest
  end.

(** The alert steps of [handleRecheckAnalysis]: evaluateAlerts on the stored
    and the new profile, then saveAlerts. *)
Definition recheckAlerts (w : AlertOrchestrator.World) (defaults : nat -> Defaults)
    (analysisId userId : string)
    (newBehaviorProfile : BehaviorProfile.t) (oldBehaviorProfile : option BehaviorProfile.t)
  : list Alert.t * list Alert.t :=
  let alerts :=
    AlertOrchestrator.evaluateAlerts w analysisId userId newBehaviorProfile
      oldBehaviorProfile in
  saveAlerts defaults (AlertOrchestrator.alertsTable w) alerts.



(** The severity [evaluateAlerts] gives to each category. *)
Definition severityOf (c : AlertCategory) : AlertSeverity :=
  match c with
  | UsageGrowth => HeadsUp
  | CostRisk => Informational
  | ArchitectureDrift => HeadsUp
  | PlatformSuitability => ActionSoon
  | StabilityRegression => Informational
  end.

(** The position of a category in the order of the rules. *)
Definition ruleIndex (c : AlertCategory) : Z :=
  match c with
  | UsageGrowth => 1
  | CostRisk => 2
  | ArchitectureDrift => 3
  | PlatformSuitability => 4
  | StabilityRegression => 5
  end.

End AlertStore.

(** ** The routes on a stored analysis ([handleGetAnalysis],
    [handleRecheckAnalysis])

    The rows are those of analyses whose profiles have been stored;
    [cloneGitHubRepo], which reads the network, is a parameter. Failures of
    the database are left out. *)

Module AnalysisRoutes.

(** A row of [app_analyses]. *)
Record Row : Type := mkRow {
  analysis : AppAnalysis.t;
  github_url : option string
}.

(** The two tables the routes read and write. *)
Record Db : Type := mkDb {
  analyses : list Row;
  alerts : list Alert.t
}.

(** What [cloneGitHubRepo] does: it throws an [Error], or returns. *)
Inductive Cloned : Type :=
| CloneError (message : string)
| CloneOk (appContent : AppUnderstanding.AppContent).

(** The answer of a route: the status, and for a success the verdict and
    the saved alerts. *)
Record Answer : Type := mkAnswer {
  status : Z;
  verdict : option LaunchVerdict.t;
  newAlerts : list Alert.t
}.

Definition refuse (code : Z) : Answer := mkAnswer code None [].

(** [SELECT * FROM app_analyses WHERE id = $1], first row *)
Definition getOne (rows : list Row) (analysisId : string) : option Row :=
  List.find (fun row => String.eqb (AppAnalysis.id (analysis row)) analysisId) rows.

(** [UPDATE app_analyses SET stack_detection = $1, behavior_profile = $2,
    launch_confidence_score = $3 WHERE id = $4] *)
Definition updateResults (rows : list Row) (analysisId : string)
    (stackProfile : StackProfile.t) (behaviorProfile : BehaviorProfile.t) (score : Z)
  : list Row :=
  map (fun row =>
         if String.eqb (AppAnalysis.id (analysis row)) analysisId
         then mkRow (AppAnalysis.mk (AppAnalysis.id (analysis row))
                       (AppAnalysis.user_id (analysis row))
                       stackProfile behaviorProfile score)
                    (github_url row)
         else row)
      rows.

Definition handleGetAnalysis (db : Db) (userId : option string) (analysisId : string)
  : Answer :=
  match userId with
  | None => refuse 401
  | Some userId =>
      if negb (JsString.truthy userId) then refuse 401
      else if negb (JsString.truthy analysisId) then refuse 400
      else
        match getOne (analyses db) analysisId with
        | None => refuse 404
        | Some row =>
            if negb (String.eqb (AppAnalysis.user_id (analysis row)) userId)
            then refuse 403
            else mkAnswer 200 (Some (JudgmentEngine.generateLaunchVerdict (analysis row))) []
        end
  end.

Definition handleRecheckAnalysis (db : Db) (dbNow jsNow : Z)
    (defaults : nat -> AlertStore.Defaults) (cloneGitHubRepo : string -> Cloned)
    (userId : option string) (analysisId : string) : Answer * Db :=
  match userId with
  | None => (refuse 401, db)
  | Some userId =>
      if negb (JsString.truthy userId) then (refuse 401, db)
      else if negb (JsString.truthy analysisId) then (refuse 400, db)
      else
        match getOne (analyses db) analysisId with
        | None => (refuse 404, db)
        | Some existingAnalysis =>
            if negb (String.eqb (AppAnalysis.user_id (analysis existingAnalysis)) userId)
            then (refuse 403, db)
            else
              match github_url existingAnalysis with
              | None => (refuse 400, db)
              | Some url =>
                  if negb (JsString.truthy url) then (refuse 400, db)
                  else
                    let oldBehaviorProfile :=
                      AppAnalysis.behavior_profile (analysis existingAnalysis) in
                    match cloneGitHubRepo url with
                    | CloneError message => (refuse (CloneFailure.failureStatus message), db)
                    | CloneOk appContent =>
                        let newStackProfile := AppUnderstanding.detectStack appContent in
                        let newBehaviorProfile := AppUnderstanding.analyzePatterns appContent in
                        let saved :=
                          AlertStore.recheckAlerts
                            (AlertOrchestrator.mkWorld (alerts db) dbNow jsNow) defaults
                            analysisId userId newBehaviorProfile (Some oldBehaviorProfile) in
                        let updatedAnalysis :=
                          AnalyzeRoute.withProfiles (analysis existingAnalysis)
                            newStackProfile newBehaviorProfile in
                        let verdict := JudgmentEngine.generateLaunchVerdict updatedAnalysis in
                        (mkAnswer 200 (Some verdict) (snd saved),
                         mkDb (updateResults (analyses db) analysisId newStackProfile
                                 newBehaviorProfile (LaunchVerdict.confidence_score verdict))
                              (fst saved))
                    end
              end
        end
  end.

(** The stored score of a row is the score of its stored profiles. *)
Definition scored (row : Row) : Prop :=
  AppAnalysis.launch_confidence_score (analysis row)
  = LaunchVerdict.confidence_score (JudgmentEngine.generateLaunchVerdict (analysis row)).

End AnalysisRoutes.

(** ** The alerts route ([server/routes/alerts.ts]) *)

Module AlertsRoute.



End AlertsRoute.

(** ** Matching in a longer text *)

Module Continuation.

(** A continuation of the matcher that still succeeds when the text [t] is
    added at the end of its input. *)
Definition extends (t : string) (k : string -> option string) : Prop :=
  forall s, is_Some (k s) -> is_Some (k (s ++ t)%string).

End Continuation.

(** ** Reading a manifest *)

Module Manifest.

(** The package [dep] is declared by the manifest, under dependencies or
    under devDependencies. *)
Definition declares (pj : AppUnderstanding.PackageJson) (dep : string) : Prop :=
  is_Some (default ∅ (AppUnderstanding.dependencies pj) !! dep)
  \/ is_Some (default ∅ (AppUnderstanding.devDependencies pj) !! dep).

(** The names declared under either heading. *)
Definition declaredNames (pj : AppUnderstanding.PackageJson) : gset string :=
  dom (default ∅ (AppUnderstanding.dependencies pj))
  ∪ dom (default ∅ (AppUnderstanding.devDependencies pj)).

End Manifest.

(** ** More concrete inputs *)

Module MoreInputs.

(** A small application on sqlite3 that writes more than it reads. *)
Definition sqliteWriter : AppUnderstanding.AppContent :=
  AppUnderstanding.mkAppContent
    [ ("db.js", "db.run('INSERT INTO notes VALUES (?)'); db.run('DELETE FROM notes')");
      ("read.js", "db.all('SELECT * FROM notes')") ]
    (Some (AppUnderstanding.mkPackageJson (Some {["sqlite3" := "5.1.0"]}) None))
    None.

(** A manifest with two packages of one database. *)
Definition twoSqlitePackages : AppUnderstanding.AppContent :=
  AppUnderstanding.mkAppContent []
    (Some (AppUnderstanding.mkPackageJson
             (Some {["sqlite3" := "5.1.0"; "better-sqlite3" := "9.0.0"]}) None))
    None.

(** The database's defaults for the inserts of one call at day 100. *)
Definition defaultsAtDay100 (i : nat) : AlertStore.Defaults :=
  AlertStore.mkDefaults "00000000-0000-4000-8000-000000000001" (100 * Inputs.day).

(** An empty alerts table on day 100, and the table a recheck left, read on
    day 103. *)
Definition emptyWorld : AlertOrchestrator.World :=
  AlertOrchestrator.mkWorld [] (100 * Inputs.day) (100 * Inputs.day).

Definition worldAfterRecheck : AlertOrchestrator.World :=
  AlertOrchestrator.mkWorld
    (fst (AlertStore.recheckAlerts emptyWorld defaultsAtDay100 "analysis-1" "user-1"
            Inputs.statefulProfile (Some Inputs.statelessProfile)))
    (103 * Inputs.day) (103 * Inputs.day).

(** Two spellings of one requirements text. *)
Definition djangoLower : string := "django==4.2".
Definition djangoUpper : string := "Django==4.2".

Definition pendingAnalysis : AppAnalysis.t :=
  AppAnalysis.mk "analysis-1" "user-1"
    (StackProfile.mk None None None None None None None None)
    (BehaviorProfile.mk false false false false RiskLow 0) 0.

(** A database with one stored analysis of user-1, and a repository that
    now holds the sqlite application. *)
Definition oneAnalysis : AnalysisRoutes.Db :=
  AnalysisRoutes.mkDb
    [AnalysisRoutes.mkRow pendingAnalysis (Some "https://github.com/owner/repo")] [].

Definition cloneSqliteWriter (githubUrl : string) : AnalysisRoutes.Cloned :=
  AnalysisRoutes.CloneOk sqliteWriter.

Definition recheckOfOneAnalysis : AnalysisRoutes.Answer * AnalysisRoutes.Db :=
  AnalysisRoutes.handleRecheckAnalysis oneAnalysis (100 * Inputs.day) (100 * Inputs.day)
    defaultsAtDay100 cloneSqliteWriter (Some "user-1") "analysis-1".

End MoreInputs.

(** * Properties *)

Ltac split_ifs :=
  repeat match goal with
         | |- context [if ?c then _ else _] => destruct c
         end.

(** ** The model on small inputs *)

Example includes_ex : JsString.includes "better-sqlite3" "sqlite" = true.
Proof. reflexivity. Qed.

Example lower_ex : JsString.toLowerCase "Node.JS" = "node.js".
Proof. reflexivity. Qed.

Example ofZ_ex : JsString.ofZ 12 = "12".
Proof. reflexivity. Qed.

(** [/global\s+\w+\s*=/i] finds an assignment anywhere in the text, in any
    case, and needs the [=]. *)
Example test_ex :
  let r := nth 0 AppUnderstanding.statePatterns (Regex.re []) in
  Regex.test r "x = 1; GLOBAL  counter= 0" = true
  /\ Regex.test r "global counter" = false
  /\ Regex.test r "globalcounter = 0" = false.
Proof. repeat split; reflexivity. Qed.

(** [/UPDATE\s+\w+\s+SET/gi] ignores case and counts each statement once;
    the last statement has no table name. *)
Example count_ex :
  Regex.matchCount (nth 1 AppUnderstanding.writePatterns (Regex.re []))
    "update  t set x; UPDATE u SET y; update set" = 2%nat.
Proof. reflexivity. Qed.

(** Matches do not overlap: the search goes on where the last match ended. *)
Example count_no_overlap :
  Regex.matchCount (nth 0 AppUnderstanding.readPatterns (Regex.re []))
    "SELECT  select * from t; selectx" = 2%nat.
Proof. reflexivity. Qed.

(** The stack-detection example of section 8, with two packages of one
    service. *)
Example detectStack_pg :
  let pj :=
    AppUnderstanding.mkPackageJson
      (Some {["pg" := "8.0.0"; "stripe" := "1.0.0";
              "@aws-sdk/client-s3" := "3.0"; "aws-sdk" := "2"]}) None in
  AppUnderstanding.detectStack (AppUnderstanding.mkAppContent [] (Some pj) None)
  = StackProfile.mk (Some "Node.js") None (Some "PostgreSQL") (Some ["PostgreSQL"])
      (Some ["Stripe"; "AWS"]) (Some false) (Some false) None.
Proof. vm_compute. reflexivity. Qed.

Example analyzePatterns_ex :
  let pj := AppUnderstanding.mkPackageJson (Some {["sqlite3" := "5.0.0"]}) None in
  AppUnderstanding.analyzePatterns
    (AppUnderstanding.mkAppContent
       [ ("a.js", "db.run('insert  into t values (1)'); x.save(y)");
         ("b.js", "const m = new  Map(); select * from t") ]
       (Some pj) None)
  = BehaviorProfile.mk true true false false RiskHigh 1.
Proof. vm_compute. reflexivity. Qed.

(** The second confidence example of section 8: 10 + 10 + 5 + 5. *)
Example confidence_ex :
  JudgmentEngine.calculateLaunchConfidence
    (StackProfile.mk None None (Some "SQLite") None None None None None)
    (BehaviorProfile.mk true true false false RiskHigh 7)
  = JudgmentEngine.mkConfidence 30
      [ "App is stateful (needs careful scaling)";
        "Write-heavy workload (watch for bottlenecks)";
        "Uses SQLite (consider upgrade for production)";
        "Has 7 external dependencies (monitor reliability)";
        "High concurrency risk (plan for scaling)";
        "No background jobs detected" ].
Proof. vm_compute. reflexivity. Qed.

(** All five rules fire; the two of severity high come first, then the
    lowest display order of the rest. *)
Example detectRisks_ex :
  map RiskScenario.id
    (JudgmentEngine.detectRisks
      (StackProfile.mk None None (Some "SQLite") None None None None (Some "Vercel"))
      (BehaviorProfile.mk true true true false RiskMedium 7))
  = ["external-deps"; "concurrency-risk"; "db-contention"].
Proof. vm_compute. reflexivity. Qed.

Example recommendPlatform_ex :
  PlatformRecommendation.platform_id
    (JudgmentEngine.recommendPlatform
      (StackProfile.mk (Some "Node.js") None None (Some []) (Some []) None None None)
      (BehaviorProfile.mk false false false false RiskLow 0) (Some "Replit")) = "replit".
Proof. vm_compute. reflexivity. Qed.

(** ** Stack detection *)

(** C1: on an input with both a package.json and a non-empty requirements
    list, the Python block runs after the Node block and overwrites the
    runtime: the result is "Python", not the Node value. *)
Theorem detectStack_both_manifests_runtime_python :
  StackProfile.runtime (AppUnderstanding.detectStack Inputs.nodeAndPython) = Some "Python"
  /\ StackProfile.framework (AppUnderstanding.detectStack Inputs.nodeAndPython) = Some "Flask".
Proof. split; vm_compute; reflexivity. Qed.

(** The overwrite does not depend on the input chosen. *)
Lemma detectStack_python_overrides_node fs pj req :
  JsString.truthy req = true ->
  StackProfile.runtime
    (AppUnderstanding.detectStack (AppUnderstanding.mkAppContent fs (Some pj) (Some req)))
  = Some "Python".
Proof.
  intros Hreq. unfold AppUnderstanding.detectStack. cbn [AppUnderstanding.requirements].
  rewrite Hreq.
  unfold AppUnderstanding.pythonDetection, AppUnderstanding.setPrimaryDatabase,
    AppUnderstanding.detectPythonFramework.
  repeat match goal with
         | |- context [if ?c then _ else _] => destruct c
         | |- context [match ?d with Some _ => _ | None => _ end] => destruct d
         | |- context [match ?d with [] => _ | _ :: _ => _ end] => destruct d
         end; reflexivity.
Qed.

(** C2: with stripe declared under devDependencies only, detectStack still
    lists the service "Stripe" in external_apis. *)
Theorem detectStack_dev_dependency_counts_as_api :
  StackProfile.external_apis (AppUnderstanding.detectStack Inputs.stripeDevOnly)
  = Some ["Stripe"].
Proof. vm_compute. reflexivity. Qed.

(** *** The database fields *)

Section DatabaseFields.
Import AppUnderstanding.

Lemma addDatabase_extends deps e dbs :
  exists l, addDatabase deps (Some dbs) e = Some (dbs ++ l)%list
            /\ (l = [] \/ l = [snd e]).
Proof.
  unfold addDatabase, push. cbn.
  destruct (hasDep deps (fst e) && negb (listIncludes dbs (snd e))).
  - exists [snd e]. split; [reflexivity | now right].
  - exists []. rewrite app_nil_r. split; [reflexivity | now left].
Qed.

Lemma fold_addDatabase_extends deps tbl : forall dbs,
  exists l, fold_left (addDatabase deps) tbl (Some dbs) = Some (dbs ++ l)%list
            /\ Forall (fun d => In d (map snd tbl)) l.
Proof.
  induction tbl as [|e tbl IH]; intros dbs; cbn [fold_left].
  - exists []. rewrite app_nil_r. split; [reflexivity | constructor].
  - destruct (addDatabase_extends deps e dbs) as (l1 & -> & Hl1).
    destruct (IH (dbs ++ l1)%list) as (l2 & -> & Hl2).
    exists (l1 ++ l2)%list. rewrite <- app_assoc. split; [reflexivity |].
    apply Forall_app. split.
    + destruct Hl1 as [-> | ->]; [constructor |].
      constructor; [now left | constructor].
    + eapply List.Forall_impl; [| exact Hl2]. intros d Hd. now right.
Qed.

Lemma nodeDetection_databases fs pj p :
  StackProfile.databases (nodeDetection fs pj p)
  = fold_left (addDatabase (mergedDeps pj)) dbMapping (StackProfile.databases p).
Proof.
  unfold nodeDetection, detectPlatform, setPrimaryDatabase, detectFramework.
  cbn -[fold_left dbMapping apiPatterns frameworks].
  destruct (find _ frameworks); cbn -[fold_left dbMapping apiPatterns];
    destruct (fold_left _ dbMapping _) as [[|d l]|]; split_ifs; reflexivity.
Qed.

Lemma nodeDetection_database fs pj p :
  StackProfile.database (nodeDetection fs pj p)
  = match fold_left (addDatabase (mergedDeps pj)) dbMapping (StackProfile.databases p) with
    | Some (d :: _) => Some d
    | _ => StackProfile.database p
    end.
Proof.
  unfold nodeDetection, detectPlatform, setPrimaryDatabase, detectFramework.
  cbn -[fold_left dbMapping apiPatterns frameworks].
  destruct (find _ frameworks); cbn -[fold_left dbMapping apiPatterns];
    destruct (fold_left _ dbMapping _) as [[|d l]|]; split_ifs; reflexivity.
Qed.

Lemma detectPythonFramework_databases r p :
  StackProfile.databases (detectPythonFramework r p) = StackProfile.databases p.
Proof. unfold detectPythonFramework. split_ifs; reflexivity. Qed.

Lemma detectPythonFramework_database r p :
  StackProfile.database (detectPythonFramework r p) = StackProfile.database p.
Proof. unfold detectPythonFramework. split_ifs; reflexivity. Qed.

Lemma addPythonDatabases_extends r dbs :
  exists l, addPythonDatabases r (Some dbs) = Some (dbs ++ l)%list
            /\ Forall (fun d => In d Spec.databaseNames) l.
Proof.
  unfold addPythonDatabases, push.
  destruct (JsString.includes r "psycopg"), (JsString.includes r "pymongo"),
    (JsString.includes r "mysql"); cbn;
    repeat rewrite <- app_assoc; cbn [app];
    first [ eexists; split; [reflexivity |]; repeat constructor; cbn; tauto
          | exists []; rewrite app_nil_r; split; [reflexivity | constructor] ].
Qed.

Lemma setPrimaryDatabase_databases p :
  StackProfile.databases (setPrimaryDatabase p) = StackProfile.databases p.
Proof.
  unfold setPrimaryDatabase. destruct (StackProfile.databases p) as [[|d l]|] eqn:E;
    cbn; congruence.
Qed.

Lemma setPrimaryDatabase_database p :
  StackProfile.database (setPrimaryDatabase p)
  = match StackProfile.databases p with
    | Some (d :: _) => Some d
    | _ => StackProfile.database p
    end.
Proof.
  unfold setPrimaryDatabase. destruct (StackProfile.databases p) as [[|d l]|]; reflexivity.
Qed.

Lemma pythonDetection_databases req p :
  StackProfile.databases (pythonDetection req p)
  = addPythonDatabases (JsString.toLowerCase req) (StackProfile.databases p).
Proof.
  unfold pythonDetection. rewrite setPrimaryDatabase_databases.
  cbn [StackProfile.databases StackProfile.set_databases].
  now rewrite detectPythonFramework_databases.
Qed.

Lemma pythonDetection_database req p :
  StackProfile.database (pythonDetection req p)
  = match addPythonDatabases (JsString.toLowerCase req) (StackProfile.databases p) with
    | Some (d :: _) => Some d
    | _ => StackProfile.database p
    end.
Proof.
  unfold pythonDetection. rewrite setPrimaryDatabase_database.
  cbn [StackProfile.databases StackProfile.database StackProfile.set_databases].
  now rewrite detectPythonFramework_databases, detectPythonFramework_database.
Qed.

Lemma detectStack_database_fields appContent :
  exists dbs,
    StackProfile.databases (detectStack appContent) = Some dbs
    /\ StackProfile.database (detectStack appContent) = head dbs
    /\ Forall (fun d => In d Spec.databaseNames) dbs.
Proof.
  unfold detectStack. cbn -[nodeDetection pythonDetection dedupe].
  set (p1 := match packageJson appContent with
             | Some pj => nodeDetection (files appContent) pj initialStackProfile
             | None => initialStackProfile
             end).
  assert (H1 : exists dbs, StackProfile.databases p1 = Some dbs
                           /\ StackProfile.database p1 = head dbs
                           /\ Forall (fun d => In d Spec.databaseNames) dbs).
  { subst p1. destruct (packageJson appContent) as [pj|].
    - destruct (fold_addDatabase_extends (mergedDeps pj) dbMapping []) as (l & Hl & Hall).
      exists l. rewrite nodeDetection_databases, nodeDetection_database.
      cbn [initialStackProfile StackProfile.databases StackProfile.database].
      rewrite Hl. cbn [app]. split; [reflexivity | split].
      + destruct l; reflexivity.
      + eapply List.Forall_impl; [| exact Hall]. cbn. intros d Hd.
        repeat (destruct Hd as [<- | Hd]; [tauto |]). destruct Hd.
    - exists []. split; [reflexivity | split]; [reflexivity | constructor]. }
  destruct H1 as (dbs & Hdbs & Hdb & Hall).
  destruct (requirements appContent) as [req|]; [destruct (JsString.truthy req) |].
  - destruct (addPythonDatabases_extends (JsString.toLowerCase req) dbs) as (l & Hl & Hall').
    exists (dbs ++ l)%list.
    rewrite pythonDetection_databases, pythonDetection_database, Hdbs, Hl.
    split; [reflexivity | split].
    + destruct dbs; cbn; [destruct l; cbn; [exact Hdb | reflexivity] | reflexivity].
    + apply Forall_app. split; assumption.
  - exists dbs. split; [| split]; assumption.
  - exists dbs. split; [| split]; assumption.
Qed.

End DatabaseFields.

(** C9: in every profile detectStack returns, [databases] is a list and
    [database] is its first element: when [database] is present the list
    starts with it, and when it is absent the list has no element. *)
Theorem detectStack_database_is_first_of_databases (appContent : AppUnderstanding.AppContent) :
  let p := AppUnderstanding.detectStack appContent in
  (forall d, StackProfile.database p = Some d ->
             exists rest, StackProfile.databases p = Some (d :: rest))
  /\ (StackProfile.database p = None -> StackProfile.databases p = Some [])
  /\ (exists dbs, StackProfile.databases p = Some dbs /\ StackProfile.database p = head dbs).
Proof.
  cbv zeta.
  destruct (detectStack_database_fields appContent) as (dbs & Hdbs & Hdb & _).
  rewrite Hdbs, Hdb. split; [| split].
  - intros d Hd. destruct dbs as [|x rest]; [discriminate |].
    injection Hd as ->. now exists rest.
  - intros Hnone. destruct dbs; [reflexivity | discriminate].
  - now exists dbs.
Qed.

(** Both blocks contribute: pg in the manifest and psycopg in the
    requirements give the list twice the same name, and the first entry is
    still the primary database. *)
Example detectStack_both_blocks_push :
  let p := AppUnderstanding.detectStack
             (AppUnderstanding.mkAppContent []
                (Some (AppUnderstanding.mkPackageJson (Some {["pg" := "8.11.0"]}) None))
                (Some "psycopg2==2.9")) in
  StackProfile.databases p = Some ["PostgreSQL"; "PostgreSQL"]
  /\ StackProfile.database p = Some "PostgreSQL".
Proof. split; vm_compute; reflexivity. Qed.

(** ** Behaviour analysis *)

Lemma isSQLiteOf_detectStack appContent :
  AppUnderstanding.isSQLiteOf (AppUnderstanding.detectStack appContent) = true
  <-> StackProfile.database (AppUnderstanding.detectStack appContent) = Some "SQLite".
Proof.
  destruct (detectStack_database_fields appContent) as (dbs & _ & Hdb & Hall).
  unfold AppUnderstanding.isSQLiteOf. rewrite Hdb.
  destruct dbs as [|d rest]; cbn [head].
  - split; discriminate.
  - apply Forall_cons in Hall as [Hd _]. cbn in Hd.
    repeat (destruct Hd as [<- | Hd]; [vm_compute; split; congruence |]).
    destruct Hd.
Qed.

(** C3: the concurrency risk analyzePatterns reports is "high" when the
    detected database is SQLite and the code is write-heavy, or when the code
    is stateful and its text has no pooling indicator; otherwise "medium" when
    there are background jobs or more than 10 dependencies; otherwise "low". *)
Theorem analyzePatterns_concurrency_risk (appContent : AppUnderstanding.AppContent) :
  let b := AppUnderstanding.analyzePatterns appContent in
  let sqlite := AppUnderstanding.isSQLiteOf (AppUnderstanding.detectStack appContent) in
  let pooling :=
    Regex.test AppUnderstanding.poolPattern (AppUnderstanding.codeContentOf appContent) in
  let high := (sqlite && BehaviorProfile.write_heavy b)
              || (BehaviorProfile.is_stateful b && negb pooling) in
  let medium := BehaviorProfile.has_background_jobs b
                || (10 <? BehaviorProfile.external_dependency_count b) in
  BehaviorProfile.estimated_concurrency_risk b
  = (if high then RiskHigh else if medium then RiskMedium else RiskLow)
  /\ (BehaviorProfile.estimated_concurrency_risk b = RiskHigh <-> high = true)
  /\ (BehaviorProfile.estimated_concurrency_risk b = RiskMedium
      <-> high = false /\ medium = true)
  /\ (BehaviorProfile.estimated_concurrency_risk b = RiskLow
      <-> high = false /\ medium = false)
  /\ (sqlite = true
      <-> StackProfile.database (AppUnderstanding.detectStack appContent) = Some "SQLite").
Proof.
  cbv zeta. split; [reflexivity |].
  split; [| split; [| split]].
  - unfold AppUnderstanding.analyzePatterns; cbn [BehaviorProfile.estimated_concurrency_risk
      BehaviorProfile.write_heavy BehaviorProfile.is_stateful
      BehaviorProfile.has_background_jobs BehaviorProfile.external_dependency_count].
    destruct (_ || _); [tauto |]. destruct (_ || _); split; congruence.
  - unfold AppUnderstanding.analyzePatterns; cbn [BehaviorProfile.estimated_concurrency_risk
      BehaviorProfile.write_heavy BehaviorProfile.is_stateful
      BehaviorProfile.has_background_jobs BehaviorProfile.external_dependency_count].
    destruct (_ || _); [split; [congruence | intros [? _]; congruence] |].
    destruct (_ || _); split; try tauto; try congruence. intros [_ ?]; congruence.
  - unfold AppUnderstanding.analyzePatterns; cbn [BehaviorProfile.estimated_concurrency_risk
      BehaviorProfile.write_heavy BehaviorProfile.is_stateful
      BehaviorProfile.has_background_jobs BehaviorProfile.external_dependency_count].
    destruct (_ || _); [split; [congruence | intros [? _]; congruence] |].
    destruct (_ || _); split; try tauto; try congruence. intros [_ ?]; congruence.
  - apply isSQLiteOf_detectStack.
Qed.

(** C8: with no file and no manifest the behaviour profile is all false,
    risk "low", count 0 (whatever the requirements text is), and with neither
    manifest nor requirements the stack profile has two empty lists and no
    other field. The model of both functions is total: there is no failing
    path to take. *)
Theorem detection_degrades_on_missing_input :
  (forall req,
     AppUnderstanding.analyzePatterns (AppUnderstanding.mkAppContent [] None req)
     = BehaviorProfile.mk false false false false RiskLow 0)
  /\ (forall fs,
        AppUnderstanding.detectStack (AppUnderstanding.mkAppContent fs None None)
        = StackProfile.mk None None None (Some []) (Some []) None None None)
  /\ (forall fs,
        AppUnderstanding.detectStack (AppUnderstanding.mkAppContent fs None (Some ""))
        = StackProfile.mk None None None (Some []) (Some []) None None None).
Proof.
  split; [| split; intros fs; reflexivity].
  intros req. unfold AppUnderstanding.analyzePatterns.
  cbn [AppUnderstanding.codeContentOf AppUnderstanding.files map JsString.join].
  assert (Hs : AppUnderstanding.somePattern AppUnderstanding.statePatterns "" = false)
    by (vm_compute; reflexivity).
  assert (Hb : AppUnderstanding.somePattern AppUnderstanding.bgJobPatterns "" = false)
    by (vm_compute; reflexivity).
  assert (Hu : AppUnderstanding.somePattern AppUnderstanding.uploadPatterns "" = false)
    by (vm_compute; reflexivity).
  assert (Hw : AppUnderstanding.totalMatches AppUnderstanding.writePatterns "" = O)
    by (vm_compute; reflexivity).
  assert (Hr : AppUnderstanding.totalMatches AppUnderstanding.readPatterns "" = O)
    by (vm_compute; reflexivity).
  rewrite Hs, Hb, Hu, Hw, Hr.
  cbn [Nat.ltb Nat.leb AppUnderstanding.dependencyCount AppUnderstanding.packageJson].
  rewrite andb_false_r. reflexivity.
Qed.

(** ** Judgment engine *)

(** C4: on the SQLite scenario the confidence is 30 + 10 + 20 + 5 = 65, the
    status is "watch", and detectRisks puts "Database contention", with
    severity high, first. *)
Theorem sqlite_scenario_verdict :
  JudgmentEngine.score
    (JudgmentEngine.calculateLaunchConfidence Inputs.sqliteStack Inputs.sqliteBehavior) = 65
  /\ fst (JudgmentEngine.statefulnessFactor Inputs.sqliteBehavior) = 30
  /\ fst (JudgmentEngine.dataFactor Inputs.sqliteBehavior) = 10
  /\ fst (JudgmentEngine.dependencyFactor Inputs.sqliteBehavior) = 20
  /\ fst (JudgmentEngine.concurrencyFactor Inputs.sqliteBehavior) = 5
  /\ JudgmentEngine.statusOfScore 65 = StatusWatch
  /\ LaunchVerdict.status (JudgmentEngine.generateLaunchVerdict Inputs.sqliteAnalysis)
     = StatusWatch
  /\ LaunchVerdict.confidence_score
       (JudgmentEngine.generateLaunchVerdict Inputs.sqliteAnalysis) = 65
  /\ exists top rest,
       JudgmentEngine.detectRisks Inputs.sqliteStack Inputs.sqliteBehavior = top :: rest
       /\ RiskScenario.title top = "Database contention"
       /\ RiskScenario.severity top = SevHigh
       /\ LaunchVerdict.risks (JudgmentEngine.generateLaunchVerdict Inputs.sqliteAnalysis)
          = top :: rest.
Proof.
  repeat (split; [vm_compute; reflexivity |]).
  eexists. eexists. split; [vm_compute; reflexivity |].
  repeat split; vm_compute; reflexivity.
Qed.

Lemma statusOfScore_cases score :
  (80 <= score -> JudgmentEngine.statusOfScore score = StatusSafe)
  /\ (50 <= score < 80 -> JudgmentEngine.statusOfScore score = StatusWatch)
  /\ (score < 50 -> JudgmentEngine.statusOfScore score = StatusFix).
Proof.
  unfold JudgmentEngine.statusOfScore.
  destruct (Z.leb_spec 80 score), (Z.leb_spec 50 score);
    repeat split; intros; first [reflexivity | lia].
Qed.

(** C6: the status of a verdict is the status of its score: safe from 80 up,
    watch from 50 to 79, fix below 50; it never gets less safe as the score
    grows; and generateLaunchVerdict reports the status of the very score it
    reports. *)
Theorem verdict_status_follows_score :
  (forall score,
     (80 <= score -> JudgmentEngine.statusOfScore score = StatusSafe)
     /\ (50 <= score < 80 -> JudgmentEngine.statusOfScore score = StatusWatch)
     /\ (score < 50 -> JudgmentEngine.statusOfScore score = StatusFix))
  /\ (forall s1 s2, s1 <= s2 ->
        Spec.safety (JudgmentEngine.statusOfScore s1)
        <= Spec.safety (JudgmentEngine.statusOfScore s2))
  /\ JudgmentEngine.statusOfScore 49 = StatusFix
  /\ JudgmentEngine.statusOfScore 50 = StatusWatch
  /\ JudgmentEngine.statusOfScore 79 = StatusWatch
  /\ JudgmentEngine.statusOfScore 80 = StatusSafe
  /\ (forall analysis,
        let v := JudgmentEngine.generateLaunchVerdict analysis in
        LaunchVerdict.status v = JudgmentEngine.statusOfScore (LaunchVerdict.confidence_score v)
        /\ LaunchVerdict.confidence_score v
           = JudgmentEngine.score
               (JudgmentEngine.calculateLaunchConfidence
                  (AppAnalysis.stack_detection analysis)
                  (AppAnalysis.behavior_profile analysis))).
Proof.
  split; [exact statusOfScore_cases |].
  split.
  { intros s1 s2 Hle. unfold JudgmentEngine.statusOfScore.
    destruct (Z.leb_spec 80 s1), (Z.leb_spec 50 s1), (Z.leb_spec 80 s2), (Z.leb_spec 50 s2);
      cbn; lia. }
  do 4 (split; [reflexivity |]).
  intros analysis. split; reflexivity.
Qed.

(** *** Sorting *)

Section SortProperties.
Context {A : Type} (cmp : A -> A -> Z).

Lemma insert_permutation x l : Permutation (JsArray.insert cmp x l) (x :: l).
Proof.
  induction l as [|y l IH]; cbn; [reflexivity |].
  destruct (0 <? cmp x y); [| reflexivity].
  rewrite IH. apply perm_swap.
Qed.

Lemma sort_permutation l : Permutation (JsArray.sort cmp l) l.
Proof.
  induction l as [|x l IH]; cbn; [reflexivity |].
  rewrite insert_permutation. now constructor.
Qed.


Hypothesis cmp_total : forall x y, 0 < cmp x y -> cmp y x <= 0.
Hypothesis cmp_trans : forall x y z, cmp x y <= 0 -> cmp y z <= 0 -> cmp x z <= 0.

Lemma insert_sorted x l :
  StronglySorted (fun a b => cmp a b <= 0) l ->
  StronglySorted (fun a b => cmp a b <= 0) (JsArray.insert cmp x l).
Proof.
  induction 1 as [|y l Hsorted IH Hall]; cbn.
  - repeat constructor.
  - destruct (Z.ltb_spec 0 (cmp x y)) as [Hgt | Hle].
    + constructor; [exact IH |].
      eapply Permutation_Forall; [symmetry; apply insert_permutation |].
      constructor; [now apply cmp_total | exact Hall].
    + constructor; [now constructor |].
      constructor; [exact Hle |].
      eapply List.Forall_impl; [| exact Hall]. intros z Hz. now apply cmp_trans with y.
Qed.

Lemma sort_sorted l : StronglySorted (fun a b => cmp a b <= 0) (JsArray.sort cmp l).
Proof.
  induction l as [|x l IH]; cbn; [constructor | now apply insert_sorted].
Qed.

End SortProperties.


(** A list has one sorted arrangement when no two of its elements tie. *)
Lemma sorted_permutation_unique {A : Type} (R : A -> A -> Prop) (l1 : list A) :
  forall l2,
    (forall a b, In a l1 -> In b l1 -> R a b -> R b a -> a = b) ->
    StronglySorted R l1 -> StronglySorted R l2 -> Permutation l1 l2 -> l1 = l2.
Proof.
  induction l1 as [|x l1 IH]; intros l2 Hanti Hs1 Hs2 Hperm.
  - apply Permutation_nil in Hperm. now subst.
  - destruct l2 as [|y l2]; [apply Permutation_length in Hperm; discriminate |].
    apply StronglySorted_inv in Hs1 as [Hs1 Hx].
    apply StronglySorted_inv in Hs2 as [Hs2 Hy].
    rewrite List.Forall_forall in Hx, Hy.
    assert (Hxy : x = y).
    { assert (Hin_x : In x (y :: l2)) by (eapply Permutation_in; [exact Hperm | now left]).
      assert (Hin_y : In y (x :: l1))
        by (eapply Permutation_in; [symmetry; exact Hperm | now left]).
      destruct Hin_x as [-> | Hin_x]; [reflexivity |].
      destruct Hin_y as [-> | Hin_y]; [reflexivity |].
      apply Hanti; [now left | now right | now apply Hx | now apply Hy]. }
    subst y. f_equal. apply IH; try assumption.
    + intros a b Ha Hb. apply Hanti; now right.
    + now apply Permutation_cons_inv in Hperm.
Qed.

Lemma StronglySorted_weaken {A : Type} (R S : A -> A -> Prop) (l : list A) :
  (forall a b, R a b -> S a b) -> StronglySorted R l -> StronglySorted S l.
Proof.
  intros HRS. induction 1 as [|x l Hsorted IH Hall]; constructor; [exact IH |].
  eapply List.Forall_impl; [| exact Hall]. intros y. apply HRS.
Qed.

Ltac eval_weight_tests :=
  repeat match goal with
         | |- context [negb (?x =? 0)] =>
             let v := eval vm_compute in (negb (x =? 0)) in
             change (negb (x =? 0)) with v
         | H : context [negb (?x =? 0)] |- _ =>
             let v := eval vm_compute in (negb (x =? 0)) in
             change (negb (x =? 0)) with v in H
         end;
  cbv iota in *.

Lemma riskCompare_ranksBefore a b :
  JudgmentEngine.riskCompare a b <= 0 <-> Spec.ranksBefore a b.
Proof.
  unfold JudgmentEngine.riskCompare, Spec.ranksBefore.
  destruct (RiskScenario.severity a), (RiskScenario.severity b);
    cbn [JudgmentEngine.severityWeight Spec.severityAbove]; eval_weight_tests;
    intuition (first [lia | discriminate]).
Qed.

Lemma riskCompare_total x y :
  0 < JudgmentEngine.riskCompare x y -> JudgmentEngine.riskCompare y x <= 0.
Proof.
  unfold JudgmentEngine.riskCompare.
  destruct (RiskScenario.severity x), (RiskScenario.severity y);
    cbn [JudgmentEngine.severityWeight]; eval_weight_tests; lia.
Qed.

Lemma riskCompare_trans x y z :
  JudgmentEngine.riskCompare x y <= 0 -> JudgmentEngine.riskCompare y z <= 0 ->
  JudgmentEngine.riskCompare x z <= 0.
Proof.
  unfold JudgmentEngine.riskCompare.
  destruct (RiskScenario.severity x), (RiskScenario.severity y), (RiskScenario.severity z);
    cbn [JudgmentEngine.severityWeight]; eval_weight_tests; lia.
Qed.

Lemma severityAbove_asymmetric a b : Spec.severityAbove a b -> ~ Spec.severityAbove b a.
Proof. destruct a, b; cbn; tauto. Qed.

Lemma severityAbove_irreflexive a : ~ Spec.severityAbove a a.
Proof. destruct a; cbn; tauto. Qed.

(** Each candidate is the scenario of one rule, and the rules' display
    orders differ: two candidates with one order are one scenario. *)
Lemma detectedRisks_order_injective stackProfile behaviorProfile a b :
  In a (JudgmentEngine.detectedRisks stackProfile behaviorProfile) ->
  In b (JudgmentEngine.detectedRisks stackProfile behaviorProfile) ->
  RiskScenario.order a = RiskScenario.order b -> a = b.
Proof.
  unfold JudgmentEngine.detectedRisks, JudgmentEngine.pushIf.
  rewrite !in_app_iff. intros Ha Hb.
  repeat match goal with
         | H : _ \/ _ |- _ => destruct H as [H | H]
         | H : In _ (if ?c then _ else _) |- _ => destruct c
         | H : In _ [_] |- _ => destruct H as [<- | []]
         | H : In _ [] |- _ => destruct H
         end;
    cbn; intros Horder; first [reflexivity | discriminate].
Qed.

(** The ranked list does not depend on how the sort goes about it: every
    arrangement of the candidates that is in rank order is the one
    [detectRisks] cuts its three from. *)
Lemma detectRisks_order_determined stackProfile behaviorProfile l :
  Permutation l (JudgmentEngine.detectedRisks stackProfile behaviorProfile) ->
  StronglySorted Spec.ranksBefore l ->
  firstn 3 l = JudgmentEngine.detectRisks stackProfile behaviorProfile.
Proof.
  intros Hperm Hsorted. unfold JudgmentEngine.detectRisks, JsArray.slice0. f_equal.
  apply sorted_permutation_unique with (R := Spec.ranksBefore).
  - intros a b Ha Hb Hab Hba.
    apply (detectedRisks_order_injective stackProfile behaviorProfile).
    + eapply Permutation_in; [exact Hperm | exact Ha].
    + eapply Permutation_in; [exact Hperm | exact Hb].
    + destruct Hab as [Hab | [Hsev Hab]], Hba as [Hba | [Hsev' Hba]].
      * now apply severityAbove_asymmetric in Hab.
      * rewrite Hsev' in Hab. now apply severityAbove_irreflexive in Hab.
      * rewrite Hsev in Hba. now apply severityAbove_irreflexive in Hba.
      * lia.
  - exact Hsorted.
  - apply StronglySorted_weaken with (R := fun a b => JudgmentEngine.riskCompare a b <= 0).
    + intros a b. apply riskCompare_ranksBefore.
    + apply sort_sorted; [exact riskCompare_total | exact riskCompare_trans].
  - rewrite Hperm. symmetry. apply sort_permutation.
Qed.


(** ** Alert orchestrator *)

Section Cooldown.
Import AlertOrchestrator.

Lemma categoryEqb_eq a b : categoryEqb a b = true <-> a = b.
Proof. destruct a, b; cbn; split; congruence. Qed.

Lemma has_recent_iff w userId analysisId c :
  has (map Alert.category (recentAlertsQuery w userId analysisId)) c = true
  <-> Spec.notifiedRecently w userId analysisId c.
Proof.
  unfold has, recentAlertsQuery, Spec.notifiedRecently.
  rewrite existsb_exists. split.
  - intros (c' & Hin & Heq). apply categoryEqb_eq in Heq. subst c'.
    apply in_map_iff in Hin as (a & Hcat & Hin).
    apply filter_In in Hin as (Hin & Hcond).
    apply andb_true_iff in Hcond as (Hcond & Htime).
    apply andb_true_iff in Hcond as (Huser & Hanalysis).
    exists a. repeat split; try assumption.
    + now apply String.eqb_eq.
    + now apply String.eqb_eq.
    + now apply Z.ltb_lt.
  - intros (a & Hin & Huser & Hanalysis & Hcat & Htime).
    exists c. split; [| now apply categoryEqb_eq].
    apply in_map_iff. exists a. split; [exact Hcat |].
    apply filter_In. split; [exact Hin |].
    rewrite !andb_true_iff. repeat split.
    + now apply String.eqb_eq.
    + now apply String.eqb_eq.
    + now apply Z.ltb_lt.
Qed.

Lemma isHigh_false r : isHigh r = false <-> r <> RiskHigh.
Proof. destruct r; cbn; split; congruence. Qed.

Lemma isHigh_true r : isHigh r = true <-> r = RiskHigh.
Proof. destruct r; cbn; split; congruence. Qed.

Ltac bool_to_prop :=
  repeat match goal with
         | H : _ && _ = true |- _ => apply andb_true_iff in H as [? ?]
         | H : negb _ = true |- _ => apply negb_true_iff in H
         | H : isHigh _ = false |- _ => apply isHigh_false in H
         | H : isHigh _ = true |- _ => apply isHigh_true in H
         | H : (_ <? _) = true |- _ => apply Z.ltb_lt in H
         end.

Lemma emitted_iff w analysisId userId newProfile previousProfile c :
  (exists a, In a (evaluateAlerts w analysisId userId newProfile (Some previousProfile))
             /\ Alert.category a = c)
  <-> has (map Alert.category (recentAlertsQuery w userId analysisId)) c = false
      /\ Spec.triggers c previousProfile newProfile.
Proof.
  unfold evaluateAlerts.
  set (recent := map Alert.category (recentAlertsQuery w userId analysisId)).
  split.
  - intros (a & Hin & Hcat). rewrite !in_app_iff in Hin. unfold pushIf in Hin.
    destruct Hin as [H | [H | [H | [H | H]]]];
      match type of H with
      | In _ (if ?g then _ else _) =>
          destruct g eqn:E; [destruct H as [<- | []] | destruct H]
      end;
      cbn in Hcat; subst c; bool_to_prop; cbn [Spec.triggers];
      repeat split; first [assumption | lia].
  - intros [Hrecent Htrig]. unfold pushIf.
    destruct c; cbn [Spec.triggers] in Htrig.
    + destruct Htrig as [Hprev Hnew].
      apply isHigh_false in Hprev. apply isHigh_true in Hnew.
      rewrite Hrecent, Hprev, Hnew. cbn [negb andb].
      eexists. split; [apply in_or_app; left; left; reflexivity | reflexivity].
    + assert (Hlt : (BehaviorProfile.external_dependency_count previousProfile + 2
                     <? BehaviorProfile.external_dependency_count newProfile) = true)
        by (apply Z.ltb_lt; lia).
      rewrite Hrecent, Hlt. cbn [negb andb].
      eexists. split;
        [apply in_or_app; right; apply in_or_app; left; left; reflexivity | reflexivity].
    + destruct Htrig as [Hprev Hnew]. rewrite Hrecent, Hprev, Hnew. cbn [negb andb].
      eexists. split;
        [do 2 (apply in_or_app; right); apply in_or_app; left; left; reflexivity
        | reflexivity].
    + destruct Htrig as [Hjobs Hwrite]. rewrite Hrecent, Hjobs, Hwrite. cbn [negb andb].
      eexists. split;
        [do 3 (apply in_or_app; right); apply in_or_app; left; left; reflexivity
        | reflexivity].
    + destruct Htrig as [Hprev Hnew]. rewrite Hrecent, Hprev, Hnew. cbn [negb andb].
      eexists. split;
        [do 4 (apply in_or_app; right); left; reflexivity | reflexivity].
Qed.

End Cooldown.



(** The two runs of section 8: nothing after 3 days, one alert after 8. *)
Example cooldown_three_days :
  AlertOrchestrator.evaluateAlerts (Inputs.worldWithAlertAged 3) "analysis-1" "user-1"
    Inputs.statefulProfile (Some Inputs.statelessProfile) = [].
Proof. vm_compute. reflexivity. Qed.

Example cooldown_eight_days :
  map Alert.category
    (AlertOrchestrator.evaluateAlerts (Inputs.worldWithAlertAged 8) "analysis-1" "user-1"
       Inputs.statefulProfile (Some Inputs.statelessProfile)) = [ArchitectureDrift].
Proof. vm_compute. reflexivity. Qed.

(** Exactly 7 days old is already outside the window. *)
Example cooldown_seven_days :
  map Alert.category
    (AlertOrchestrator.evaluateAlerts (Inputs.worldWithAlertAged 7) "analysis-1" "user-1"
       Inputs.statefulProfile (Some Inputs.statelessProfile)) = [ArchitectureDrift].
Proof. vm_compute. reflexivity. Qed.

(** ** Platform recommendation *)

Section ReplitBonus.
Import AppUnderstanding JudgmentEngine.

Lemma nodeDetection_runtime fs pj p :
  StackProfile.runtime (nodeDetection fs pj p) = Some "Node.js".
Proof.
  unfold nodeDetection, detectPlatform, setPrimaryDatabase, detectFramework.
  cbn -[fold_left dbMapping apiPatterns frameworks].
  destruct (find _ frameworks); cbn -[fold_left dbMapping apiPatterns];
    destruct (fold_left _ dbMapping _) as [[|d l]|]; split_ifs; reflexivity.
Qed.

Lemma detectStack_node_only_runtime fs pj req :
  JsString.truthy_opt req = false ->
  StackProfile.runtime (detectStack (mkAppContent fs (Some pj) req)) = Some "Node.js".
Proof.
  intros Hreq. unfold detectStack.
  cbn [requirements packageJson files].
  destruct req as [r|]; cbn in Hreq; [rewrite Hreq |]; apply nodeDetection_runtime.
Qed.

Lemma in_two_bullets (c1 c2 : bool) (s1 s2 x : string) :
  In x (JsArray.slice0 2 (pushIf c1 s1 ++ pushIf c2 s2)%list) ->
  (c1 = true /\ x = s1) \/ (c2 = true /\ x = s2).
Proof.
  destruct c1, c2; cbn; intros H;
    repeat (destruct H as [<- | H]; [tauto |]); destruct H.
Qed.

(** The bullets of a recommendation are those of one of the four candidates,
    or one of the two fallback pairs. *)
Lemma recommendPlatform_bullets stackProfile behaviorProfile currentPlatform x :
  In x (PlatformRecommendation.why_bullets
          (recommendPlatform stackProfile behaviorProfile currentPlatform)) ->
  (exists p, In p (platformCandidates stackProfile behaviorProfile)
             /\ In x (PlatformScore.whyBullets p))
  \/ In x ["Handles your current usage well"; "No urgent need to change";
           "Best fit for your app's needs"; "Balances simplicity and capability"].
Proof.
  unfold recommendPlatform.
  set (candidates := platformCandidates stackProfile behaviorProfile).
  set (platforms := JsArray.sort platformCompare candidates).
  assert (Hperm : Permutation platforms candidates) by apply sort_permutation.
  assert (Hhd : In (hd (replitCandidate stackProfile behaviorProfile) platforms) candidates).
  { eapply Permutation_in; [exact Hperm |].
    destruct platforms as [|p0 rest] eqn:E; [| now left].
    apply Permutation_length in Hperm. discriminate. }
  set (found := if JsString.truthy_opt currentPlatform then _ else None).
  assert (Hfound : forall data, found = Some data -> In data candidates).
  { subst found. intros data. destruct (JsString.truthy_opt currentPlatform); [| discriminate].
    intros Hfind. apply find_some in Hfind as [Hin _].
    eapply Permutation_in; [exact Hperm | exact Hin]. }
  destruct found as [data|].
  - specialize (Hfound data eq_refl). destruct (70 <=? PlatformScore.score data).
    + cbn [PlatformRecommendation.why_bullets]. unfold orDefaultBullets.
      destruct (PlatformScore.whyBullets data) eqn:E.
      * cbn. intros H. right. tauto.
      * intros H. left. exists data. rewrite E. now split.
    + cbn [PlatformRecommendation.why_bullets]. unfold orDefaultBullets.
      destruct (PlatformScore.whyBullets (hd _ platforms)) eqn:E.
      * cbn. intros H. right. tauto.
      * intros H. left. eexists. rewrite E. split; [exact Hhd | exact H].
  - cbn [PlatformRecommendation.why_bullets]. unfold orDefaultBullets.
    destruct (PlatformScore.whyBullets (hd _ platforms)) eqn:E.
    + cbn. intros H. right. tauto.
    + intros H. left. eexists. rewrite E. split; [exact Hhd | exact H].
Qed.

End ReplitBonus.

(** C10: for a profile detected from a package.json without a requirements
    list the runtime is "Node.js"; lower-cased it equals neither "node" nor
    "python", so the Replit candidate never gets the 20 points for runtime
    support, and the bullet "Great support for Node.js and Python" appears
    neither among its bullets nor in the recommendation. *)
Theorem replit_runtime_bonus_never_applies
    (fs : list (string * string)) (pj : AppUnderstanding.PackageJson) (req : option string)
    (behaviorProfile : BehaviorProfile.t) (currentPlatform : option string) :
  JsString.truthy_opt req = false ->
  let stackProfile :=
    AppUnderstanding.detectStack (AppUnderstanding.mkAppContent fs (Some pj) req) in
  let replit := JudgmentEngine.replitCandidate stackProfile behaviorProfile in
  StackProfile.runtime stackProfile = Some "Node.js"
  /\ JudgmentEngine.lowerOpt (StackProfile.runtime stackProfile) = Some "node.js"
  /\ PlatformScore.score replit
     = 50 + JudgmentEngine.bonus
              (negb (BehaviorProfile.is_stateful behaviorProfile)
               && JudgmentEngine.isLow
                    (BehaviorProfile.estimated_concurrency_risk behaviorProfile)) 30
  /\ PlatformScore.score replit <= 80
  /\ ~ In "Great support for Node.js and Python" (PlatformScore.whyBullets replit)
  /\ ~ In "Great support for Node.js and Python"
         (PlatformRecommendation.why_bullets
            (JudgmentEngine.recommendPlatform stackProfile behaviorProfile currentPlatform)).
Proof.
  intros Hreq. cbv zeta.
  pose proof (detectStack_node_only_runtime fs pj req Hreq) as Hruntime.
  set (stackProfile :=
         AppUnderstanding.detectStack (AppUnderstanding.mkAppContent fs (Some pj) req)) in *.
  assert (Hreplit :
    forall x, In x (PlatformScore.whyBullets
                      (JudgmentEngine.replitCandidate stackProfile behaviorProfile)) ->
              x = "Simple setup for low-to-moderate traffic").
  { intros x Hx. unfold JudgmentEngine.replitCandidate in Hx.
    cbn [PlatformScore.whyBullets] in Hx. rewrite Hruntime in Hx.
    apply in_two_bullets in Hx as [[_ ->] | [Hsupported _]]; [reflexivity |].
    vm_compute in Hsupported. discriminate. }
  split; [exact Hruntime |].
  split; [rewrite Hruntime; reflexivity |].
  assert (Hscore :
    PlatformScore.score (JudgmentEngine.replitCandidate stackProfile behaviorProfile)
    = 50 + JudgmentEngine.bonus
             (negb (BehaviorProfile.is_stateful behaviorProfile)
              && JudgmentEngine.isLow
                   (BehaviorProfile.estimated_concurrency_risk behaviorProfile)) 30).
  { unfold JudgmentEngine.replitCandidate. cbn [PlatformScore.score].
    rewrite Hruntime.
    change (JudgmentEngine.optEquals (JudgmentEngine.lowerOpt (Some "Node.js")) "node"
            || JudgmentEngine.optEquals (JudgmentEngine.lowerOpt (Some "Node.js")) "python")
      with false.
    unfold JudgmentEngine.bonus at 2. lia. }
  split; [exact Hscore |].
  split; [rewrite Hscore; unfold JudgmentEngine.bonus; destruct (_ && _); lia |].
  split.
  - intros Hin. apply Hreplit in Hin. discriminate.
  - intros Hin. apply recommendPlatform_bullets in Hin as [(p & Hp & Hx) | Hdefault].
    + cbn [JudgmentEngine.platformCandidates In] in Hp.
      destruct Hp as [<- | [<- | [<- | [<- | []]]]].
      * apply Hreplit in Hx. discriminate.
      * apply in_two_bullets in Hx as [[_ Hx] | [_ Hx]]; discriminate.
      * apply in_two_bullets in Hx as [[_ Hx] | [_ Hx]]; discriminate.
      * apply in_two_bullets in Hx as [[_ Hx] | [_ Hx]]; discriminate.
    + cbn in Hdefault. repeat (destruct Hdefault as [Hd | Hdefault]; [discriminate |]).
      destruct Hdefault.
Qed.

(** The theorem at a concrete manifest. *)
Lemma replit_runtime_bonus_never_applies_witness :
  JsString.truthy_opt (AppUnderstanding.requirements Inputs.nodeOnly) = false
  /\ PlatformScore.score
       (JudgmentEngine.replitCandidate
          (AppUnderstanding.detectStack Inputs.nodeOnly) Inputs.statelessProfile) = 80.
Proof.
  split; [reflexivity |].
  destruct (replit_runtime_bonus_never_applies [] 
              (AppUnderstanding.mkPackageJson (Some {["express" := "4.18.0"]}) None)
              None Inputs.statelessProfile None eq_refl)
    as (_ & _ & Hscore & _).
  exact Hscore.
Defined.

(** * Further properties of the judgment engine *)

Section ConfidenceScore.
Import JudgmentEngine.

Lemma dependencyFactor_points b :
  let n := BehaviorProfile.external_dependency_count b in
  (n < 3 /\ fst (dependencyFactor b) = 20)
  \/ (3 <= n <= 5 /\ fst (dependencyFactor b) = 10)
  \/ (5 < n /\ fst (dependencyFactor b) = 5).
Proof.
  cbv zeta. unfold dependencyFactor.
  destruct (Z.ltb_spec (BehaviorProfile.external_dependency_count b) 3);
    [left; split; [lia | reflexivity] |].
  destruct (Z.leb_spec (BehaviorProfile.external_dependency_count b) 5);
    [right; left | right; right]; (split; [lia | reflexivity]).
Qed.

(** X1: the confidence score lies between 30 and 100 and is a multiple of
    5; it is 100 exactly for a stateless, read-heavy application with fewer
    than 3 dependencies and low concurrency risk, and 30 exactly for a
    stateful, write-heavy one with more than 5 dependencies and high risk;
    the factor list has 5 entries, or 6 when a database remark is added. *)
Theorem calculateLaunchConfidence_score_range
    (stackProfile : StackProfile.t) (b : BehaviorProfile.t) :
  let c := calculateLaunchConfidence stackProfile b in
  30 <= score c <= 100
  /\ score c mod 5 = 0
  /\ (score c = 100
      <-> BehaviorProfile.is_stateful b = false
          /\ BehaviorProfile.write_heavy b = false
          /\ BehaviorProfile.external_dependency_count b < 3
          /\ BehaviorProfile.estimated_concurrency_risk b = RiskLow)
  /\ (score c = 30
      <-> BehaviorProfile.is_stateful b = true
          /\ BehaviorProfile.write_heavy b = true
          /\ 5 < BehaviorProfile.external_dependency_count b
          /\ BehaviorProfile.estimated_concurrency_risk b = RiskHigh)
  /\ (5 <= length (factors c) <= 6)%nat.
Proof.
  cbv zeta. unfold calculateLaunchConfidence. cbn [score factors].
  unfold statefulnessFactor, dataFactor, concurrencyFactor.
  pose proof (dependencyFactor_points b) as Hdeps. cbv zeta in Hdeps.
  split; [| split; [| split; [| split]]].
  - destruct (BehaviorProfile.is_stateful b), (BehaviorProfile.write_heavy b),
      (BehaviorProfile.estimated_concurrency_risk b); cbn [negb fst];
      destruct Hdeps as [[_ ->] | [[_ ->] | [_ ->]]]; lia.
  - destruct (BehaviorProfile.is_stateful b), (BehaviorProfile.write_heavy b),
      (BehaviorProfile.estimated_concurrency_risk b); cbn [negb fst];
      destruct Hdeps as [[_ ->] | [[_ ->] | [_ ->]]]; reflexivity.
  - destruct (BehaviorProfile.is_stateful b), (BehaviorProfile.write_heavy b),
      (BehaviorProfile.estimated_concurrency_risk b); cbn [negb fst];
      destruct Hdeps as [[Hn ->] | [[Hn ->] | [Hn ->]]];
      (split; [intros Hs; first [lia | repeat split; first [reflexivity | lia]]
              | intros (H1 & H2 & H3 & H4); first [discriminate | lia]]).
  - destruct (BehaviorProfile.is_stateful b), (BehaviorProfile.write_heavy b),
      (BehaviorProfile.estimated_concurrency_risk b); cbn [negb fst];
      destruct Hdeps as [[Hn ->] | [[Hn ->] | [Hn ->]]];
      (split; [intros Hs; first [lia | repeat split; first [reflexivity | lia]]
              | intros (H1 & H2 & H3 & H4); first [discriminate | lia]]).
  - rewrite !length_app. cbn [length]. unfold databaseFactors.
    destruct (JsString.truthy_opt _); [| cbn; lia].
    destruct (_ || _); [cbn; lia |]. destruct (_ || _); cbn; lia.
Qed.

(** X2: what the status of a verdict says about the profile: "fix" is only
    given to applications that are both stateful and write-heavy, such
    applications are never "safe", neither are stateful ones with high
    concurrency risk, and a stateless read-heavy one is never "fix". *)
Theorem generateLaunchVerdict_status_and_profile (analysis : AppAnalysis.t) :
  let b := AppAnalysis.behavior_profile analysis in
  let status := LaunchVerdict.status (generateLaunchVerdict analysis) in
  (status = StatusFix ->
   BehaviorProfile.is_stateful b = true /\ BehaviorProfile.write_heavy b = true)
  /\ (BehaviorProfile.is_stateful b = true -> BehaviorProfile.write_heavy b = true ->
      status <> StatusSafe)
  /\ (BehaviorProfile.is_stateful b = true ->
      BehaviorProfile.estimated_concurrency_risk b = RiskHigh ->
      status <> StatusSafe)
  /\ (BehaviorProfile.is_stateful b = false -> BehaviorProfile.write_heavy b = false ->
      status <> StatusFix).
Proof.
  cbv zeta. unfold generateLaunchVerdict. cbn [LaunchVerdict.status].
  unfold statusOfScore, calculateLaunchConfidence. cbn [score].
  unfold statefulnessFactor, dataFactor, concurrencyFactor.
  pose proof (dependencyFactor_points (AppAnalysis.behavior_profile analysis)) as Hdeps.
  cbv zeta in Hdeps.
  destruct (BehaviorProfile.is_stateful _), (BehaviorProfile.write_heavy _),
    (BehaviorProfile.estimated_concurrency_risk _); cbn [negb fst];
    destruct Hdeps as [[_ ->] | [[_ ->] | [_ ->]]]; vm_compute;
    repeat split; intros; congruence.
Qed.

End ConfidenceScore.

Section RiskRanking.
Import JudgmentEngine.

Lemma detectedRisks_cases stackProfile b r :
  In r (detectedRisks stackProfile b) ->
  r = dbContentionRisk b \/ r = costExplosionRisk \/ r = externalDepsRisk b
  \/ r = backgroundBlockingRisk \/ r = concurrencyRisk b.
Proof.
  unfold detectedRisks, pushIf. rewrite !in_app_iff. intros H.
  repeat match goal with
         | H : _ \/ _ |- _ => destruct H as [H | H]
         | H : In _ (if ?c then _ else _) |- _ => destruct c
         | H : In _ [_] |- _ => destruct H as [<- | []]
         | H : In _ [] |- _ => destruct H
         end; tauto.
Qed.

Lemma detectRisks_subset stackProfile b r :
  In r (detectRisks stackProfile b) -> In r (detectedRisks stackProfile b).
Proof.
  unfold detectRisks, JsArray.slice0. intros Hin.
  eapply Permutation_in; [apply sort_permutation |].
  rewrite <- (firstn_skipn 3 (JsArray.sort _ _)). apply in_or_app. left. exact Hin.
Qed.

Lemma NoDup_firstn {A : Type} (n : nat) (l : list A) : List.NoDup l -> List.NoDup (firstn n l).
Proof.
  intros Hnodup. rewrite <- (firstn_skipn n l) in Hnodup.
  now apply NoDup_app_remove_r in Hnodup.
Qed.

Lemma detectedRisks_ids_distinct stackProfile b :
  List.NoDup (map RiskScenario.id (detectedRisks stackProfile b)).
Proof.
  unfold detectedRisks, pushIf.
  destruct (dbContentionFires stackProfile b), (costExplosionFires stackProfile),
    (externalDepsFires b), (backgroundBlockingFires b), (concurrencyFires b);
    cbn; repeat constructor; cbn; intuition discriminate.
Qed.

(** X3: every scenario detectRisks returns is one of the five of the
    catalogue, with severity medium or high, never low, and no scenario is
    returned twice. *)
Theorem detectRisks_items (stackProfile : StackProfile.t) (b : BehaviorProfile.t) :
  Forall (fun r => In (RiskScenario.id r) Catalog.riskIds
                   /\ RiskScenario.severity r <> SevLow
                   /\ 1 <= RiskScenario.order r <= 5)
         (detectRisks stackProfile b)
  /\ List.NoDup (map RiskScenario.id (detectRisks stackProfile b)).
Proof.
  split.
  - apply List.Forall_forall. intros r Hin.
    apply detectRisks_subset, detectedRisks_cases in Hin.
    destruct Hin as [-> | [-> | [-> | [-> | ->]]]]; cbn;
      (split; [tauto | split; [| lia]]).
    + destruct (BehaviorProfile.estimated_concurrency_risk b); discriminate.
    + discriminate.
    + destruct (5 <? _); discriminate.
    + discriminate.
    + destruct (BehaviorProfile.is_stateful b); discriminate.
  - unfold detectRisks, JsArray.slice0. rewrite <- firstn_map. apply NoDup_firstn.
    eapply Permutation_NoDup; [| apply detectedRisks_ids_distinct].
    apply Permutation_map. symmetry. apply sort_permutation.
Qed.

Lemma detectRisks_sorted stackProfile b :
  StronglySorted Spec.ranksBefore
    (JsArray.sort riskCompare (detectedRisks stackProfile b)).
Proof.
  apply StronglySorted_weaken with (R := fun a b => riskCompare a b <= 0).
  - intros x y. apply riskCompare_ranksBefore.
  - apply sort_sorted; [exact riskCompare_total | exact riskCompare_trans].
Qed.

(** The head of the ranked list ranks before every candidate. *)
Lemma detectRisks_head stackProfile b top rest x :
  detectRisks stackProfile b = top :: rest ->
  In x (detectedRisks stackProfile b) ->
  x = top \/ Spec.ranksBefore top x.
Proof.
  unfold detectRisks, JsArray.slice0. intros Hout Hx.
  pose proof (detectRisks_sorted stackProfile b) as Hsorted.
  assert (Hin : In x (JsArray.sort riskCompare (detectedRisks stackProfile b)))
    by (eapply Permutation_in; [symmetry; apply sort_permutation | exact Hx]).
  destruct (JsArray.sort riskCompare (detectedRisks stackProfile b)) as [|y l];
    [discriminate |].
  cbn in Hout. injection Hout as -> _.
  apply StronglySorted_inv in Hsorted as [_ Hall].
  destruct Hin as [-> | Hin]; [now left | right].
  rewrite List.Forall_forall in Hall. now apply Hall.
Qed.

Lemma detectRisks_nonempty stackProfile b x :
  In x (detectedRisks stackProfile b) ->
  exists top rest, detectRisks stackProfile b = top :: rest.
Proof.
  unfold detectRisks, JsArray.slice0. intros Hx.
  assert (Hin : In x (JsArray.sort riskCompare (detectedRisks stackProfile b)))
    by (eapply Permutation_in; [symmetry; apply sort_permutation | exact Hx]).
  destruct (JsArray.sort riskCompare (detectedRisks stackProfile b)) as [|y l];
    [destruct Hin |].
  cbn. eauto.
Qed.

Lemma ranksBefore_weight a b :
  Spec.ranksBefore a b ->
  severityWeight (RiskScenario.severity b) <= severityWeight (RiskScenario.severity a).
Proof.
  unfold Spec.ranksBefore.
  destruct (RiskScenario.severity a), (RiskScenario.severity b); cbn;
    intros [H | [H _]]; first [lia | discriminate | destruct H].
Qed.

(** X4: the first scenario of the list is as severe as any firing
    candidate, the ones cut off included; and a stateful application, or one
    with more than 5 dependencies, always gets a list that starts with a
    scenario of severity high. *)
Theorem detectRisks_first_is_most_severe
    (stackProfile : StackProfile.t) (b : BehaviorProfile.t) :
  (forall top rest x,
     detectRisks stackProfile b = top :: rest ->
     In x (detectedRisks stackProfile b) ->
     severityWeight (RiskScenario.severity x)
     <= severityWeight (RiskScenario.severity top))
  /\ (BehaviorProfile.is_stateful b = true
      \/ 5 < BehaviorProfile.external_dependency_count b ->
      exists top rest,
        detectRisks stackProfile b = top :: rest
        /\ RiskScenario.severity top = SevHigh).
Proof.
  assert (Hmost : forall top rest x,
            detectRisks stackProfile b = top :: rest ->
            In x (detectedRisks stackProfile b) ->
            severityWeight (RiskScenario.severity x)
            <= severityWeight (RiskScenario.severity top)).
  { intros top rest x Hout Hx.
    destruct (detectRisks_head stackProfile b top rest x Hout Hx) as [-> | Hrank];
      [lia | now apply ranksBefore_weight]. }
  split; [exact Hmost |].
  intros Hcond.
  assert (Hhigh : exists x, In x (detectedRisks stackProfile b)
                            /\ RiskScenario.severity x = SevHigh).
  { unfold detectedRisks. destruct Hcond as [Hstateful | Hdeps].
    - exists (concurrencyRisk b). split.
      + rewrite !in_app_iff. do 4 right.
        unfold concurrencyFires. rewrite Hstateful. now left.
      + cbn. now rewrite Hstateful.
    - exists (externalDepsRisk b). split.
      + rewrite !in_app_iff. do 2 right. left.
        unfold externalDepsFires.
        destruct (Z.ltb_spec 2 (BehaviorProfile.external_dependency_count b));
          [now left | lia].
      + cbn. destruct (Z.ltb_spec 5 (BehaviorProfile.external_dependency_count b));
          [reflexivity | lia]. }
  destruct Hhigh as (x & Hx & Hsev).
  destruct (detectRisks_nonempty stackProfile b x Hx) as (top & rest & Hout).
  exists top, rest. split; [exact Hout |].
  specialize (Hmost top rest x Hout Hx). rewrite Hsev in Hmost.
  destruct (RiskScenario.severity top); cbn in Hmost; [lia | lia | reflexivity].
Qed.

End RiskRanking.

Section SqlitePipeline.
Import AppUnderstanding JudgmentEngine.

Lemma sqlite_write_heavy_is_high appContent :
  StackProfile.database (detectStack appContent) = Some "SQLite" ->
  BehaviorProfile.write_heavy (analyzePatterns appContent) = true ->
  BehaviorProfile.estimated_concurrency_risk (analyzePatterns appContent) = RiskHigh.
Proof.
  intros Hdb Hwrite. apply isSQLiteOf_detectStack in Hdb.
  unfold analyzePatterns in *.
  cbn [BehaviorProfile.write_heavy BehaviorProfile.estimated_concurrency_risk] in *.
  now rewrite Hdb, Hwrite.
Qed.

Lemma sqlite_verdict_core (analysis : AppAnalysis.t)
    (stackProfile : StackProfile.t) (b : BehaviorProfile.t) :
  StackProfile.database stackProfile = Some "SQLite" ->
  BehaviorProfile.write_heavy b = true ->
  BehaviorProfile.estimated_concurrency_risk b = RiskHigh ->
  let verdict := generateLaunchVerdict (AnalyzeRoute.withProfiles analysis stackProfile b) in
  (exists rest, LaunchVerdict.risks verdict = dbContentionRisk b :: rest)
  /\ RiskScenario.severity (dbContentionRisk b) = SevHigh
  /\ LaunchVerdict.confidence_score verdict <= 65
  /\ LaunchVerdict.status verdict <> StatusSafe.
Proof.
  intros Hdb Hwrite Hrisk. cbv zeta.
  unfold AnalyzeRoute.withProfiles, generateLaunchVerdict.
  cbn [LaunchVerdict.risks LaunchVerdict.confidence_score LaunchVerdict.status
       AppAnalysis.stack_detection AppAnalysis.behavior_profile].
  assert (Hin : In (dbContentionRisk b) (detectedRisks stackProfile b)).
  { unfold detectedRisks. apply in_or_app. left.
    unfold dbContentionFires, primaryDatabase. rewrite Hdb, Hwrite.
    unfold JsString.or_else. cbn [JsString.truthy_opt JsString.truthy andb].
    change (dbIncludes (Some "SQLite") "sqlite") with true.
    cbn [orb]. now left. }
  assert (Hsev : RiskScenario.severity (dbContentionRisk b) = SevHigh)
    by (unfold dbContentionRisk; cbn [RiskScenario.severity]; now rewrite Hrisk).
  assert (Hscore : score (calculateLaunchConfidence stackProfile b) <= 65).
  { unfold calculateLaunchConfidence. cbn [score].
    unfold statefulnessFactor, dataFactor, concurrencyFactor.
    rewrite Hwrite, Hrisk. cbn [negb fst].
    pose proof (dependencyFactor_points b) as Hdeps. cbv zeta in Hdeps.
    destruct (BehaviorProfile.is_stateful b); cbn [negb fst];
      destruct Hdeps as [[_ ->] | [[_ ->] | [_ ->]]]; lia. }
  split; [| split; [exact Hsev | split; [exact Hscore |]]].
  - destruct (detectRisks_nonempty stackProfile b _ Hin) as (top & rest & Hout).
    exists rest. rewrite Hout. f_equal.
    destruct (detectRisks_head stackProfile b top rest _ Hout Hin) as [Heq | Hrank];
      [now symmetry |].
    assert (Htop : In top (detectedRisks stackProfile b))
      by (apply detectRisks_subset; rewrite Hout; now left).
    apply (detectedRisks_order_injective stackProfile b); [exact Htop | exact Hin |].
    assert (Hge : 1 <= RiskScenario.order top).
    { apply detectedRisks_cases in Htop.
      destruct Htop as [-> | [-> | [-> | [-> | ->]]]];
        cbn [RiskScenario.order dbContentionRisk costExplosionRisk externalDepsRisk
             backgroundBlockingRisk concurrencyRisk]; lia. }
    destruct Hrank as [Habove | [_ Hle]].
    + rewrite Hsev in Habove. destruct (RiskScenario.severity top); destruct Habove.
    + unfold dbContentionRisk in Hle |- *. cbn [RiskScenario.order] in Hle |- *. lia.
  - unfold statusOfScore.
    destruct (Z.leb_spec 80 (score (calculateLaunchConfidence stackProfile b)));
      [lia |].
    destruct (50 <=? _); discriminate.
Qed.

(** X5: when detectStack finds SQLite as the primary database and
    analyzePatterns finds the code write-heavy, the verdict of the analysis
    route puts "Database contention" first, with severity high, scores at
    most 65 and so is never "safe". *)
Theorem sqlite_write_heavy_verdict
    (analysis : AppAnalysis.t) (appContent : AppContent) :
  StackProfile.database (detectStack appContent) = Some "SQLite" ->
  BehaviorProfile.write_heavy (analyzePatterns appContent) = true ->
  let verdict := AnalyzeRoute.analyzeContent analysis appContent in
  (exists rest,
     LaunchVerdict.risks verdict = dbContentionRisk (analyzePatterns appContent) :: rest)
  /\ RiskScenario.severity (dbContentionRisk (analyzePatterns appContent)) = SevHigh
  /\ LaunchVerdict.confidence_score verdict <= 65
  /\ LaunchVerdict.status verdict <> StatusSafe.
Proof.
  intros Hdb Hwrite.
  exact (sqlite_verdict_core analysis (detectStack appContent) (analyzePatterns appContent)
           Hdb Hwrite (sqlite_write_heavy_is_high appContent Hdb Hwrite)).
Qed.

(** The theorem on a small sqlite3 application. *)
Lemma sqlite_write_heavy_verdict_witness :
  StackProfile.database (detectStack MoreInputs.sqliteWriter) = Some "SQLite"
  /\ BehaviorProfile.write_heavy (analyzePatterns MoreInputs.sqliteWriter) = true
  /\ LaunchVerdict.status
       (AnalyzeRoute.analyzeContent MoreInputs.pendingAnalysis MoreInputs.sqliteWriter)
     <> StatusSafe.
Proof.
  assert (Hdb : StackProfile.database (detectStack MoreInputs.sqliteWriter) = Some "SQLite")
    by (vm_compute; reflexivity).
  assert (Hwrite : BehaviorProfile.write_heavy (analyzePatterns MoreInputs.sqliteWriter) = true)
    by (vm_compute; reflexivity).
  split; [exact Hdb | split; [exact Hwrite |]].
  exact (proj2 (proj2 (proj2
    (sqlite_write_heavy_verdict MoreInputs.pendingAnalysis MoreInputs.sqliteWriter
       Hdb Hwrite)))).
Defined.

End SqlitePipeline.

Section PlatformChoice.
Import JudgmentEngine.

Lemma platformCompare_sorted stackProfile b :
  StronglySorted (fun p q => PlatformScore.score q <= PlatformScore.score p)
    (JsArray.sort platformCompare (platformCandidates stackProfile b)).
Proof.
  apply StronglySorted_weaken with (R := fun p q => platformCompare p q <= 0).
  - unfold platformCompare. intros p q. lia.
  - apply sort_sorted; unfold platformCompare; intros; lia.
Qed.

(** The first of the sorted candidates scores at least as much as each. *)
Lemma best_candidate stackProfile b :
  let best := hd (replitCandidate stackProfile b)
                (JsArray.sort platformCompare (platformCandidates stackProfile b)) in
  In best (platformCandidates stackProfile b)
  /\ forall q, In q (platformCandidates stackProfile b) ->
               PlatformScore.score q <= PlatformScore.score best.
Proof.
  cbv zeta.
  pose proof (platformCompare_sorted stackProfile b) as Hsorted.
  pose proof (sort_permutation platformCompare (platformCandidates stackProfile b)) as Hperm.
  destruct (JsArray.sort platformCompare (platformCandidates stackProfile b)) as [|p l].
  - apply Permutation_length in Hperm. discriminate.
  - cbn [hd]. split; [eapply Permutation_in; [exact Hperm | now left] |].
    intros q Hq. apply StronglySorted_inv in Hsorted as [_ Hall].
    rewrite List.Forall_forall in Hall.
    apply (Permutation_in _ (Permutation_sym Hperm)) in Hq.
    destruct Hq as [<- | Hq]; [lia | now apply Hall].
Qed.

(** How the recommendation is put together: from the current platform's
    candidate when it scores 70 or more, from the best candidate otherwise. *)
Lemma recommendPlatform_cases stackProfile b currentPlatform :
  let r := recommendPlatform stackProfile b currentPlatform in
  exists p,
    In p (platformCandidates stackProfile b)
    /\ PlatformRecommendation.platform_id r = PlatformScore.id p
    /\ PlatformRecommendation.platform_name r = PlatformScore.name p
    /\ PlatformRecommendation.when_it_changes r = PlatformScore.whenItChanges p
    /\ PlatformRecommendation.confidence_note r = PlatformScore.confidenceNote p
    /\ ((exists current,
           currentPlatform = Some current
           /\ JsString.truthy current = true
           /\ JsString.includes (JsString.toLowerCase current) (PlatformScore.id p) = true
           /\ 70 <= PlatformScore.score p
           /\ PlatformRecommendation.recommended_badge r = "✅ Stay where you are"
           /\ PlatformRecommendation.why_bullets r
              = orDefaultBullets (PlatformScore.whyBullets p)
                  ["Handles your current usage well"; "No urgent need to change"])
        \/ ((forall q, In q (platformCandidates stackProfile b) ->
                       PlatformScore.score q <= PlatformScore.score p)
            /\ PlatformRecommendation.recommended_badge r
               = (if JsString.truthy_opt currentPlatform
                  then "⚠️ Consider upgrading" else "✅ Recommended right now")
            /\ PlatformRecommendation.why_bullets r
               = orDefaultBullets (PlatformScore.whyBullets p)
                   ["Best fit for your app's needs"; "Balances simplicity and capability"])).
Proof.
  cbv zeta. unfold recommendPlatform.
  pose proof (best_candidate stackProfile b) as [Hbest_in Hbest_max]. cbv zeta in *.
  set (platforms := JsArray.sort platformCompare (platformCandidates stackProfile b)) in *.
  set (best := hd (replitCandidate stackProfile b) platforms) in *.
  assert (Hperm : Permutation platforms (platformCandidates stackProfile b))
    by apply sort_permutation.
  assert (Hbest :
    let r := PlatformRecommendation.mk (PlatformScore.id best) (PlatformScore.name best)
               (if JsString.truthy_opt currentPlatform
                then "⚠️ Consider upgrading" else "✅ Recommended right now")
               (orDefaultBullets (PlatformScore.whyBullets best)
                  ["Best fit for your app's needs"; "Balances simplicity and capability"])
               (PlatformScore.whenItChanges best) (PlatformScore.confidenceNote best) in
    exists p,
      In p (platformCandidates stackProfile b)
      /\ PlatformRecommendation.platform_id r = PlatformScore.id p
      /\ PlatformRecommendation.platform_name r = PlatformScore.name p
      /\ PlatformRecommendation.when_it_changes r = PlatformScore.whenItChanges p
      /\ PlatformRecommendation.confidence_note r = PlatformScore.confidenceNote p
      /\ ((exists current,
             currentPlatform = Some current
             /\ JsString.truthy current = true
             /\ JsString.includes (JsString.toLowerCase current) (PlatformScore.id p) = true
             /\ 70 <= PlatformScore.score p
             /\ PlatformRecommendation.recommended_badge r = "✅ Stay where you are"
             /\ PlatformRecommendation.why_bullets r
                = orDefaultBullets (PlatformScore.whyBullets p)
                    ["Handles your current usage well"; "No urgent need to change"])
          \/ ((forall q, In q (platformCandidates stackProfile b) ->
                         PlatformScore.score q <= PlatformScore.score p)
              /\ PlatformRecommendation.recommended_badge r
                 = (if JsString.truthy_opt currentPlatform
                    then "⚠️ Consider upgrading" else "✅ Recommended right now")
              /\ PlatformRecommendation.why_bullets r
                 = orDefaultBullets (PlatformScore.whyBullets p)
                     ["Best fit for your app's needs";
                      "Balances simplicity and capability"]))).
  { cbv zeta. exists best. cbn [PlatformRecommendation.platform_id
      PlatformRecommendation.platform_name PlatformRecommendation.when_it_changes
      PlatformRecommendation.confidence_note PlatformRecommendation.recommended_badge
      PlatformRecommendation.why_bullets].
    split; [exact Hbest_in |]. do 4 (split; [reflexivity |]).
    right. split; [exact Hbest_max | split; reflexivity]. }
  cbv zeta in Hbest.
  destruct currentPlatform as [current|]; cbn [JsString.truthy_opt default] in *;
    [| exact Hbest].
  destruct (JsString.truthy current) eqn:Htruthy; [| exact Hbest].
  destruct (find _ platforms) as [data|] eqn:Hfind; [| exact Hbest].
  destruct (Z.leb_spec 70 (PlatformScore.score data)) as [Hscore | _]; [| exact Hbest].
  apply find_some in Hfind as [Hin Hincl].
  exists data. cbn [PlatformRecommendation.platform_id
    PlatformRecommendation.platform_name PlatformRecommendation.when_it_changes
    PlatformRecommendation.confidence_note PlatformRecommendation.recommended_badge
    PlatformRecommendation.why_bullets].
  split; [eapply Permutation_in; [exact Hperm | exact Hin] |].
  do 4 (split; [reflexivity |]).
  left. exists current. repeat split; assumption.
Qed.

Lemma candidate_facts stackProfile b p :
  In p (platformCandidates stackProfile b) ->
  In (PlatformScore.id p) Catalog.platformIds
  /\ (length (PlatformScore.whyBullets p) <= 2)%nat.
Proof.
  cbn [platformCandidates In].
  intros [<- | [<- | [<- | [<- | []]]]]; cbn [PlatformScore.id PlatformScore.whyBullets
    replitCandidate vercelCandidate railwayCandidate flyCandidate];
    (split; [cbn; tauto | apply firstn_le_length]).
Qed.

(** X6: a recommendation always names one of the four platforms replit,
    vercel, railway and fly, and carries one or two reasons, never none and
    never more. *)
Theorem recommendPlatform_shape
    (stackProfile : StackProfile.t) (b : BehaviorProfile.t) (currentPlatform : option string) :
  let r := recommendPlatform stackProfile b currentPlatform in
  In (PlatformRecommendation.platform_id r) Catalog.platformIds
  /\ (1 <= length (PlatformRecommendation.why_bullets r) <= 2)%nat.
Proof.
  cbv zeta.
  destruct (recommendPlatform_cases stackProfile b currentPlatform)
    as (p & Hp & -> & _ & _ & _ & Hcase).
  destruct (candidate_facts stackProfile b p Hp) as [Hid Hlen].
  split; [exact Hid |].
  destruct Hcase as [(_ & _ & _ & _ & _ & _ & ->) | (_ & _ & ->)];
    unfold orDefaultBullets; destruct (PlatformScore.whyBullets p); cbn in *; lia.
Qed.

(** X7: without a current platform the recommendation is a candidate no
    other candidate outscores, under the badge "Recommended right now"; the
    badge "Stay where you are" is only given when the current platform's
    name contains the recommended platform's id and that candidate scores 70
    or more; otherwise a current platform gets "Consider upgrading" and a
    top-scoring candidate. *)
Theorem recommendPlatform_badges
    (stackProfile : StackProfile.t) (b : BehaviorProfile.t) (currentPlatform : option string) :
  let r := recommendPlatform stackProfile b currentPlatform in
  let badge := PlatformRecommendation.recommended_badge r in
  (JsString.truthy_opt currentPlatform = false <-> badge = "✅ Recommended right now")
  /\ (badge = "✅ Stay where you are" ->
      exists current p,
        currentPlatform = Some current
        /\ In p (platformCandidates stackProfile b)
        /\ PlatformScore.id p = PlatformRecommendation.platform_id r
        /\ JsString.includes (JsString.toLowerCase current) (PlatformScore.id p) = true
        /\ 70 <= PlatformScore.score p)
  /\ (badge <> "✅ Stay where you are" ->
      exists p,
        In p (platformCandidates stackProfile b)
        /\ PlatformScore.id p = PlatformRecommendation.platform_id r
        /\ forall q, In q (platformCandidates stackProfile b) ->
                     PlatformScore.score q <= PlatformScore.score p).
Proof.
  cbv zeta.
  destruct (recommendPlatform_cases stackProfile b currentPlatform)
    as (p & Hp & Hid & _ & _ & _ & Hcase).
  destruct Hcase as [(current & -> & Htruthy & Hincl & Hscore & Hbadge & _)
                    | (Hmax & Hbadge & _)].
  - rewrite Hbadge. cbn [JsString.truthy_opt]. rewrite Htruthy.
    split; [split; discriminate |]. split.
    + intros _. exists current, p. repeat split; solve [assumption | now symmetry].
    + intros Hne. now contradiction Hne.
  - rewrite Hbadge. destruct (JsString.truthy_opt currentPlatform).
    + split; [split; discriminate |]. split; [discriminate |].
      intros _. exists p. repeat split; solve [assumption | now symmetry].
    + split; [split; reflexivity |]. split; [discriminate |].
      intros _. exists p. repeat split; solve [assumption | now symmetry].
Qed.

End PlatformChoice.

Section NextStep.
Import JudgmentEngine.

Lemma confidence_bounds stackProfile b :
  30 <= score (calculateLaunchConfidence stackProfile b) <= 100.
Proof.
  unfold calculateLaunchConfidence. cbn [score].
  unfold statefulnessFactor, dataFactor, concurrencyFactor.
  pose proof (dependencyFactor_points b) as Hdeps. cbv zeta in Hdeps.
  destruct (BehaviorProfile.is_stateful b), (BehaviorProfile.write_heavy b),
    (BehaviorProfile.estimated_concurrency_risk b); cbn [negb fst];
    destruct Hdeps as [[_ ->] | [[_ ->] | [_ ->]]]; lia.
Qed.

Lemma nextStep_at_mvp stackProfile b :
  NextBestStepRecommendation.mode (recommendNextStep stackProfile b StageMvp) <> SmallUpgrade
  /\ NextBestStepRecommendation.upgrade_required (recommendNextStep stackProfile b StageMvp)
     = false.
Proof.
  unfold recommendNextStep, doNothingStep. split_ifs; cbn; split; congruence.
Qed.

Lemma nextStep_after_mvp stackProfile b stage :
  stage <> StageMvp ->
  NextBestStepRecommendation.mode (recommendNextStep stackProfile b stage) <> DoNothing.
Proof.
  unfold recommendNextStep, doNothingStep.
  destruct stage; intros Hstage; [now contradiction Hstage | | |];
    split_ifs; cbn; discriminate.
Qed.

(** X8: recommendNextStep asks for an upgrade only with a small_upgrade
    step at the growth or production stage; at the MVP stage it never
    proposes an upgrade; do_nothing is only ever proposed at the MVP stage;
    and at the production stage a high-risk profile (high concurrency risk,
    stateful, or more than 5 dependencies) always gets a required upgrade. *)
Theorem recommendNextStep_upgrade_rules
    (stackProfile : StackProfile.t) (b : BehaviorProfile.t) (stage : Stage) :
  let r := recommendNextStep stackProfile b stage in
  (NextBestStepRecommendation.upgrade_required r = true ->
   NextBestStepRecommendation.mode r = SmallUpgrade
   /\ (stage = StageGrowth \/ stage = StageProduction))
  /\ (stage = StageMvp ->
      NextBestStepRecommendation.mode r <> SmallUpgrade
      /\ NextBestStepRecommendation.upgrade_required r = false)
  /\ (NextBestStepRecommendation.mode r = DoNothing -> stage = StageMvp)
  /\ (stage = StageProduction ->
      BehaviorProfile.estimated_concurrency_risk b = RiskHigh
      \/ BehaviorProfile.is_stateful b = true
      \/ 5 < BehaviorProfile.external_dependency_count b ->
      NextBestStepRecommendation.mode r = SmallUpgrade
      /\ NextBestStepRecommendation.upgrade_required r = true).
Proof.
  cbv zeta. unfold recommendNextStep, doNothingStep.
  split; [| split; [| split]].
  - destruct stage; split_ifs; cbn; intros H; first [discriminate | tauto].
  - intros ->. split_ifs; cbn; split; congruence.
  - destruct stage; split_ifs; cbn; intros H; first [discriminate | reflexivity].
  - intros -> Hrisk.
    assert (Hhigh : isHigh (BehaviorProfile.estimated_concurrency_risk b)
                    || BehaviorProfile.is_stateful b
                    || (5 <? BehaviorProfile.external_dependency_count b) = true).
    { destruct Hrisk as [-> | [-> | Hdeps]].
      - reflexivity.
      - now rewrite orb_true_r.
      - apply Z.ltb_lt in Hdeps. rewrite Hdeps. now rewrite orb_true_r. }
    rewrite Hhigh. cbn. split; reflexivity.
Qed.

(** X9: a verdict keeps the analysis id, lists at most 3 risks and scores
    between 30 and 100; with status "fix" the stage is MVP, so the next step
    never requires or proposes an upgrade; with status "safe" the stage is
    production, so the next step is never do_nothing. *)
Theorem generateLaunchVerdict_shape (analysis : AppAnalysis.t) :
  let v := generateLaunchVerdict analysis in
  LaunchVerdict.analysis_id v = AppAnalysis.id analysis
  /\ (length (LaunchVerdict.risks v) <= 3)%nat
  /\ 30 <= LaunchVerdict.confidence_score v <= 100
  /\ (LaunchVerdict.status v = StatusFix ->
      NextBestStepRecommendation.upgrade_required (LaunchVerdict.next_best_step v) = false
      /\ NextBestStepRecommendation.mode (LaunchVerdict.next_best_step v) <> SmallUpgrade)
  /\ (LaunchVerdict.status v = StatusSafe ->
      NextBestStepRecommendation.mode (LaunchVerdict.next_best_step v) <> DoNothing)
  /\ (LaunchVerdict.status v = StatusWatch ->
      NextBestStepRecommendation.mode (LaunchVerdict.next_best_step v) <> DoNothing).
Proof.
  cbv zeta. unfold generateLaunchVerdict.
  cbn [LaunchVerdict.analysis_id LaunchVerdict.risks LaunchVerdict.confidence_score
       LaunchVerdict.status LaunchVerdict.next_best_step].
  set (stack := AppAnalysis.stack_detection analysis).
  set (b := AppAnalysis.behavior_profile analysis).
  pose proof (confidence_bounds stack b) as Hbounds.
  set (n := score (calculateLaunchConfidence stack b)) in *.
  split; [reflexivity |].
  split; [apply firstn_le_length |].
  split; [exact Hbounds |].
  unfold statusOfScore, stageOfScore.
  destruct (Z.leb_spec 80 n), (Z.leb_spec 65 n), (Z.leb_spec 50 n); try lia.
  - split; [discriminate |]. split; [| discriminate].
    intros _. now apply nextStep_after_mvp.
  - split; [discriminate |]. split; [discriminate |].
    intros _. now apply nextStep_after_mvp.
  - split; [discriminate |]. split; [discriminate |].
    intros _. now apply nextStep_after_mvp.
  - split; [| split; discriminate].
    intros _. destruct (nextStep_at_mvp stack b) as [Hmode Hup]. now split.
Qed.

End NextStep.

(** * Further properties of stack detection *)

Section StackDetection.
Import AppUnderstanding.

Lemma listIncludes_In l x : listIncludes l x = true <-> In x l.
Proof.
  unfold listIncludes. rewrite existsb_exists. split.
  - intros (y & Hy & Heq). apply String.eqb_eq in Heq. now subst.
  - intros Hin. exists x. split; [exact Hin | apply String.eqb_refl].
Qed.

Lemma dedupe_from (arr : list string) : forall acc,
  List.NoDup acc ->
  let out := fold_left (fun acc x => if listIncludes acc x then acc else (acc ++ [x])%list)
               arr acc in
  List.NoDup out /\ forall x, In x out <-> In x acc \/ In x arr.
Proof.
  induction arr as [|y arr IH]; intros acc Hacc; cbn [fold_left].
  - split; [exact Hacc | intros x; cbn; tauto].
  - destruct (listIncludes acc y) eqn:Hy.
    + apply listIncludes_In in Hy. destruct (IH acc Hacc) as [Hnodup Hin].
      split; [exact Hnodup |]. intros x. rewrite Hin. cbn.
      split; [tauto |]. intros [H | [<- | H]]; tauto.
    + assert (Hnotin : ~ In y acc).
      { intros Hin. apply listIncludes_In in Hin. congruence. }
      assert (Hacc' : List.NoDup (acc ++ [y])).
      { eapply Permutation_NoDup; [apply Permutation_cons_append |].
        now constructor. }
      destruct (IH (acc ++ [y])%list Hacc') as [Hnodup Hin].
      split; [exact Hnodup |]. intros x. rewrite Hin, in_app_iff. cbn. tauto.
Qed.

Lemma dedupe_spec arr :
  List.NoDup (dedupe arr) /\ forall x, In x (dedupe arr) <-> In x arr.
Proof.
  destruct (dedupe_from arr [] (List.NoDup_nil _)) as [Hnodup Hin].
  split; [exact Hnodup |]. intros x. unfold dedupe. rewrite Hin. cbn. tauto.
Qed.

Lemma depKeys_In (deps : gmap string string) dep :
  In dep (depKeys deps) <-> is_Some (deps !! dep).
Proof.
  unfold depKeys. rewrite <- list_elem_of_In, list_elem_of_fmap. split.
  - intros ([k v] & -> & Hin). apply elem_of_map_to_list in Hin. now exists v.
  - intros [v Hv]. exists (dep, v). split; [reflexivity |].
    now apply elem_of_map_to_list.
Qed.

Lemma mergedDeps_declares pj dep :
  is_Some (mergedDeps pj !! dep) <-> Manifest.declares pj dep.
Proof.
  unfold mergedDeps, Manifest.declares. rewrite lookup_union_is_Some. tauto.
Qed.

Lemma addApi_Some deps apis pkg api :
  addApi deps (Some apis) (pkg, api)
  = if existsb (fun dep => JsString.includes dep pkg) (depKeys deps)
    then Some (apis ++ [api])%list else Some apis.
Proof. unfold addApi, push. cbn [fst snd]. destruct (existsb _ _); reflexivity. Qed.

Lemma fold_addApi deps tbl : forall apis,
  exists l,
    fold_left (addApi deps) tbl (Some apis) = Some (apis ++ l)%list
    /\ forall api, In api l
                   <-> exists pkg dep, In (pkg, api) tbl
                                       /\ In dep (depKeys deps)
                                       /\ JsString.includes dep pkg = true.
Proof.
  induction tbl as [|[pkg api] tbl IH]; intros apis; cbn [fold_left].
  - exists []. rewrite app_nil_r. split; [reflexivity |].
    intros x. split; [intros [] | intros (? & ? & [] & _)].
  - rewrite addApi_Some.
    destruct (existsb _ (depKeys deps)) eqn:Hex.
    + apply existsb_exists in Hex as (dep & Hdep & Hincl).
      destruct (IH (apis ++ [api])%list) as (l & -> & Hl).
      exists (api :: l). rewrite <- app_assoc. split; [reflexivity |].
      intros x. cbn [In]. rewrite Hl. split.
      * intros [<- | (pkg' & dep' & Hin & Hd & Hi)].
        -- exists pkg, dep. repeat split; [now left | assumption | assumption].
        -- exists pkg', dep'. repeat split; [now right | assumption | assumption].
      * intros (pkg' & dep' & [Heq | Hin] & Hd & Hi).
        -- injection Heq as -> ->. now left.
        -- right. now exists pkg', dep'.
    + destruct (IH apis) as (l & -> & Hl).
      exists l. split; [reflexivity |].
      intros x. rewrite Hl. split.
      * intros (pkg' & dep' & Hin & Hd & Hi). exists pkg', dep'.
        repeat split; [now right | assumption | assumption].
      * intros (pkg' & dep' & [Heq | Hin] & Hd & Hi).
        -- injection Heq as <- <-.
           assert (Htrue : existsb (fun dep => JsString.includes dep pkg) (depKeys deps) = true)
             by (apply existsb_exists; now exists dep').
           congruence.
        -- now exists pkg', dep'.
Qed.

Lemma nodeDetection_external_apis fs pj p :
  StackProfile.external_apis (nodeDetection fs pj p)
  = fold_left (addApi (mergedDeps pj)) apiPatterns (StackProfile.external_apis p).
Proof.
  unfold nodeDetection, detectPlatform, setPrimaryDatabase, detectFramework.
  cbn -[fold_left dbMapping apiPatterns frameworks].
  destruct (find _ frameworks); cbn -[fold_left dbMapping apiPatterns];
    destruct (fold_left _ dbMapping _) as [[|d l]|]; split_ifs; reflexivity.
Qed.

Lemma pythonDetection_frame req p :
  StackProfile.external_apis (pythonDetection req p) = StackProfile.external_apis p
  /\ StackProfile.deployment_platform (pythonDetection req p)
     = StackProfile.deployment_platform p
  /\ StackProfile.has_background_jobs (pythonDetection req p)
     = StackProfile.has_background_jobs p
  /\ StackProfile.has_file_uploads (pythonDetection req p)
     = StackProfile.has_file_uploads p.
Proof.
  unfold pythonDetection, setPrimaryDatabase, detectPythonFramework.
  cbn [StackProfile.databases StackProfile.set_databases].
  destruct (addPythonDatabases _ _) as [[|d l]|]; split_ifs; repeat split; reflexivity.
Qed.

(** The profile after both detection blocks, before the final
    deduplication. *)
Lemma detectStack_external_apis_raw fs pj req :
  exists raw,
    StackProfile.external_apis (detectStack (mkAppContent fs (Some pj) req))
    = Some (dedupe raw)
    /\ fold_left (addApi (mergedDeps pj)) apiPatterns (Some []) = Some raw.
Proof.
  destruct (fold_addApi (mergedDeps pj) apiPatterns []) as (l & Hl & _).
  exists l. split; [| exact Hl].
  unfold detectStack. cbn [packageJson requirements files StackProfile.external_apis
    StackProfile.set_external_apis].
  assert (Hnode : StackProfile.external_apis (nodeDetection fs pj initialStackProfile)
                  = Some l).
  { rewrite nodeDetection_external_apis. exact Hl. }
  destruct req as [r|]; [destruct (JsString.truthy r) |].
  - rewrite (proj1 (pythonDetection_frame r _)), Hnode. reflexivity.
  - rewrite Hnode. reflexivity.
  - rewrite Hnode. reflexivity.
Qed.

(** X10: with a manifest, external_apis lists a service exactly when some
    declared package, under dependencies or devDependencies alike, has a
    name that contains one of the service's package patterns; no service is
    listed twice. *)
Theorem detectStack_external_apis
    (fs : list (string * string)) (pj : PackageJson) (req : option string) :
  exists apis,
    StackProfile.external_apis (detectStack (mkAppContent fs (Some pj) req)) = Some apis
    /\ List.NoDup apis
    /\ (forall api, In api apis
                    <-> exists pkg dep, In (pkg, api) apiPatterns
                                        /\ Manifest.declares pj dep
                                        /\ JsString.includes dep pkg = true)
    /\ Forall (fun api => In api Catalog.apiNames) apis.
Proof.
  destruct (detectStack_external_apis_raw fs pj req) as (raw & -> & Hraw).
  destruct (fold_addApi (mergedDeps pj) apiPatterns []) as (l & Hl & Hin).
  rewrite Hl in Hraw. injection Hraw as <-. cbn [app] in *.
  destruct (dedupe_spec l) as [Hnodup Hdedupe].
  exists (dedupe l). split; [reflexivity | split; [exact Hnodup |]].
  assert (Hiff : forall api, In api (dedupe l)
                   <-> exists pkg dep, In (pkg, api) apiPatterns
                                       /\ Manifest.declares pj dep
                                       /\ JsString.includes dep pkg = true).
  { intros api. rewrite Hdedupe, Hin. split.
    - intros (pkg & dep & Htbl & Hdep & Hincl). exists pkg, dep.
      repeat split; try assumption. now apply mergedDeps_declares, depKeys_In.
    - intros (pkg & dep & Htbl & Hdep & Hincl). exists pkg, dep.
      repeat split; try assumption. now apply depKeys_In, mergedDeps_declares. }
  split; [exact Hiff |].
  apply List.Forall_forall. intros api Hapi.
  apply Hiff in Hapi as (pkg & dep & Htbl & _).
  cbn in Htbl.
  repeat (destruct Htbl as [Heq | Htbl]; [injection Heq as _ <-; cbn; tauto |]).
  destruct Htbl.
Qed.

Lemma pythonDetection_runtime req p :
  StackProfile.runtime (pythonDetection req p) = Some "Python".
Proof.
  unfold pythonDetection, setPrimaryDatabase, detectPythonFramework.
  cbn [StackProfile.databases StackProfile.set_databases].
  destruct (addPythonDatabases _ _) as [[|d l]|]; split_ifs; reflexivity.
Qed.

Lemma addPythonDatabases_fresh r :
  exists l, addPythonDatabases r (Some []) = Some l
            /\ Forall (fun d => In d ["PostgreSQL"; "MongoDB"; "MySQL"]) l.
Proof.
  unfold addPythonDatabases, push.
  destruct (JsString.includes r "psycopg"), (JsString.includes r "pymongo"),
    (JsString.includes r "mysql"); cbn [fmap option_fmap option_map app];
    eexists; (split; [reflexivity |]);
    repeat (apply List.Forall_cons; [cbn [In]; tauto |]); apply List.Forall_nil.
Qed.

(** X11: without a package.json the profile has no deployment platform, no
    background-job or upload flag and no external API, whatever files and
    requirements there are (a vercel.json included); the runtime is "Python"
    exactly when the requirements text is not empty, and the primary
    database is never SQLite. *)
Theorem detectStack_without_manifest
    (fs : list (string * string)) (req : option string) :
  let p := detectStack (mkAppContent fs None req) in
  StackProfile.deployment_platform p = None
  /\ StackProfile.has_background_jobs p = None
  /\ StackProfile.has_file_uploads p = None
  /\ StackProfile.external_apis p = Some []
  /\ StackProfile.runtime p = (if JsString.truthy_opt req then Some "Python" else None)
  /\ StackProfile.database p <> Some "SQLite".
Proof.
  cbv zeta.
  assert (Hnone :
    let p := StackProfile.set_external_apis
               (Some (dedupe (default [] (StackProfile.external_apis initialStackProfile))))
               initialStackProfile in
    StackProfile.deployment_platform p = None
    /\ StackProfile.has_background_jobs p = None
    /\ StackProfile.has_file_uploads p = None
    /\ StackProfile.external_apis p = Some []
    /\ StackProfile.runtime p = None
    /\ StackProfile.database p <> Some "SQLite").
  { cbv zeta. do 5 (split; [reflexivity |]). discriminate. }
  cbv zeta in Hnone.
  unfold detectStack. cbn [packageJson requirements files].
  destruct req as [r|]; cbn [JsString.truthy_opt]; [| exact Hnone].
  destruct (JsString.truthy r); [| exact Hnone]. clear Hnone.
  destruct (pythonDetection_frame r initialStackProfile) as (Hapis & Hplat & Hjobs & Hup).
  cbn [StackProfile.deployment_platform StackProfile.has_background_jobs
       StackProfile.has_file_uploads StackProfile.external_apis StackProfile.runtime
       StackProfile.database StackProfile.set_external_apis].
  rewrite Hapis, Hplat, Hjobs, Hup, pythonDetection_runtime, pythonDetection_database.
  cbn [initialStackProfile StackProfile.deployment_platform
       StackProfile.has_background_jobs StackProfile.has_file_uploads
       StackProfile.external_apis StackProfile.databases StackProfile.database default].
  do 5 (split; [reflexivity |]).
  destruct (addPythonDatabases_fresh (JsString.toLowerCase r)) as (l & -> & Hall).
  destruct l as [|d l]; [discriminate |].
  apply Forall_cons in Hall as [Hd _]. cbn [In] in Hd.
  destruct Hd as [<- | [<- | [<- | []]]]; discriminate.
Qed.

Lemma toLowerCase_truthy r : JsString.truthy (JsString.toLowerCase r) = JsString.truthy r.
Proof. destruct r; reflexivity. Qed.

(** X12: the Python block reads the requirements text in lower case only:
    two texts that differ in nothing but the case of their letters give the
    same profile. *)
Theorem detectStack_requirements_case
    (fs : list (string * string)) (pj : option PackageJson) (r1 r2 : string) :
  JsString.toLowerCase r1 = JsString.toLowerCase r2 ->
  detectStack (mkAppContent fs pj (Some r1)) = detectStack (mkAppContent fs pj (Some r2)).
Proof.
  intros Hlower. unfold detectStack. cbn [packageJson requirements files].
  assert (Htruthy : JsString.truthy r1 = JsString.truthy r2)
    by (rewrite <- (toLowerCase_truthy r1), <- (toLowerCase_truthy r2); now rewrite Hlower).
  rewrite Htruthy. unfold pythonDetection. rewrite Hlower. reflexivity.
Qed.

(** The theorem on "django==4.2" and "Django==4.2". *)
Lemma detectStack_requirements_case_witness :
  JsString.toLowerCase MoreInputs.djangoUpper = JsString.toLowerCase MoreInputs.djangoLower
  /\ MoreInputs.djangoUpper <> MoreInputs.djangoLower
  /\ StackProfile.framework
       (detectStack (mkAppContent [] None (Some MoreInputs.djangoUpper))) = Some "Django".
Proof.
  split; [reflexivity | split; [discriminate |]].
  rewrite (detectStack_requirements_case [] None MoreInputs.djangoUpper
             MoreInputs.djangoLower eq_refl).
  reflexivity.
Defined.

Lemma addDatabase_nodup deps e dbs :
  List.NoDup dbs ->
  exists dbs', addDatabase deps (Some dbs) e = Some dbs' /\ List.NoDup dbs'.
Proof.
  intros Hnodup. unfold addDatabase, push. cbn [fmap option_fmap option_map default].
  destruct (hasDep deps (fst e)); cbn [andb];
    [destruct (listIncludes dbs (snd e)) eqn:Hincl; cbn [negb] |].
  - now exists dbs.
  - exists (dbs ++ [snd e])%list. split; [reflexivity |].
    eapply Permutation_NoDup; [apply Permutation_cons_append |].
    constructor; [| exact Hnodup].
    intros Hin. apply listIncludes_In in Hin. congruence.
  - now exists dbs.
Qed.

Lemma fold_addDatabase_nodup deps tbl : forall dbs,
  List.NoDup dbs ->
  exists dbs', fold_left (addDatabase deps) tbl (Some dbs) = Some dbs'
               /\ List.NoDup dbs'.
Proof.
  induction tbl as [|e tbl IH]; intros dbs Hnodup; cbn [fold_left].
  - now exists dbs.
  - destruct (addDatabase_nodup deps e dbs Hnodup) as (dbs1 & -> & Hnodup1).
    now apply IH.
Qed.

(** X13: the Node block never lists a database twice, although several
    packages map to one name: without a requirements text the databases list
    has no duplicate. *)
Theorem detectStack_node_databases_distinct
    (fs : list (string * string)) (pj : PackageJson) (req : option string) :
  JsString.truthy_opt req = false ->
  exists dbs,
    StackProfile.databases (detectStack (mkAppContent fs (Some pj) req)) = Some dbs
    /\ List.NoDup dbs
    /\ (length dbs <= 5)%nat.
Proof.
  intros Hreq.
  destruct (fold_addDatabase_nodup (mergedDeps pj) dbMapping [] (List.NoDup_nil _))
    as (dbs & Hfold & Hnodup).
  destruct (fold_addDatabase_extends (mergedDeps pj) dbMapping []) as (l & Hl & Hall).
  rewrite Hl in Hfold. injection Hfold as <-. cbn [app] in *.
  exists l.
  assert (Hdbs : StackProfile.databases (detectStack (mkAppContent fs (Some pj) req))
                 = Some l).
  { unfold detectStack. cbn [packageJson requirements files StackProfile.databases
      StackProfile.set_external_apis].
    destruct req as [r|]; cbn in Hreq; [rewrite Hreq |];
      rewrite nodeDetection_databases; exact Hl. }
  split; [exact Hdbs | split; [exact Hnodup |]].
  change 5%nat with (length Spec.databaseNames).
  apply NoDup_incl_length; [exact Hnodup |].
  intros d Hd. rewrite List.Forall_forall in Hall. specialize (Hall d Hd).
  cbn in Hall |- *.
  repeat (destruct Hall as [<- | Hall]; [tauto |]). destruct Hall.
Qed.

(** The theorem on a manifest with both sqlite3 and better-sqlite3. *)
Lemma detectStack_node_databases_distinct_witness :
  JsString.truthy_opt (requirements MoreInputs.twoSqlitePackages) = false
  /\ exists dbs,
       StackProfile.databases (detectStack MoreInputs.twoSqlitePackages) = Some dbs
       /\ List.NoDup dbs
       /\ (length dbs <= 5)%nat.
Proof.
  split; [reflexivity |].
  exact (detectStack_node_databases_distinct []
           (mkPackageJson (Some {["sqlite3" := "5.1.0"; "better-sqlite3" := "9.0.0"]}) None)
           None eq_refl).
Defined.

End StackDetection.

(** * Further properties of behaviour analysis *)

Section BehaviourAnalysis.
Import AppUnderstanding.

(** X14: with a manifest, external_dependency_count is the number of
    distinct package names declared under dependencies and devDependencies
    together: a package declared under both counts once, so the count is at
    most the sum of the two sizes and at least each of them. *)
Theorem analyzePatterns_dependency_count
    (fs : list (string * string)) (pj : PackageJson) (req : option string) :
  let n := BehaviorProfile.external_dependency_count
             (analyzePatterns (mkAppContent fs (Some pj) req)) in
  let deps := default ∅ (dependencies pj) in
  let dev := default ∅ (devDependencies pj) in
  n = Z.of_nat (size (Manifest.declaredNames pj))
  /\ n <= Z.of_nat (size deps) + Z.of_nat (size dev)
  /\ Z.of_nat (size deps) <= n
  /\ Z.of_nat (size dev) <= n.
Proof.
  cbv zeta. unfold analyzePatterns. cbn [BehaviorProfile.external_dependency_count].
  unfold dependencyCount, depKeys, mergedDeps, Manifest.declaredNames.
  cbn [packageJson].
  set (deps := default ∅ (dependencies pj)). set (dev := default ∅ (devDependencies pj)).
  rewrite length_fmap, length_map_to_list, <- size_dom, dom_union_L.
  rewrite (union_comm_L (dom dev) (dom deps)).
  rewrite <- (size_dom deps), <- (size_dom dev).
  split; [reflexivity |].
  pose proof (size_union_alt (dom deps) (dom dev)) as Hunion.
  assert (Hdiff : (size (dom dev ∖ dom deps) <= size (dom dev))%nat).
  { apply subseteq_size. intros x Hx. now apply elem_of_difference in Hx as [Hx _]. }
  assert (Hdev : (size (dom dev) <= size (dom deps ∪ dom dev))%nat)
    by apply subseteq_size, union_subseteq_r.
  lia.
Qed.

Lemma addPythonDatabases_three r dbs :
  exists l, addPythonDatabases r (Some dbs) = Some (dbs ++ l)%list
            /\ Forall (fun d => In d ["PostgreSQL"; "MongoDB"; "MySQL"]) l.
Proof.
  unfold addPythonDatabases, push.
  destruct (JsString.includes r "psycopg"), (JsString.includes r "pymongo"),
    (JsString.includes r "mysql"); cbn [fmap option_fmap option_map];
    repeat rewrite <- app_assoc; cbn [app];
    first [ eexists; split; [reflexivity |];
            repeat (apply List.Forall_cons; [cbn [In]; tauto |]); apply List.Forall_nil
          | exists []; rewrite app_nil_r; split; [reflexivity | apply List.Forall_nil] ].
Qed.

(** Whether the primary database is SQLite is settled by the manifest. *)
Lemma database_is_sqlite_by_manifest fs pj req :
  StackProfile.database (detectStack (mkAppContent fs pj req)) = Some "SQLite"
  <-> StackProfile.database (detectStack (mkAppContent [] pj None)) = Some "SQLite".
Proof.
  unfold detectStack. cbn [packageJson requirements files StackProfile.database
    StackProfile.set_external_apis].
  set (p1 := match pj with
             | Some pj0 => nodeDetection fs pj0 initialStackProfile
             | None => initialStackProfile
             end).
  set (p1' := match pj with
              | Some pj0 => nodeDetection [] pj0 initialStackProfile
              | None => initialStackProfile
              end).
  assert (H1 : exists dbs, StackProfile.databases p1 = Some dbs
                           /\ StackProfile.database p1 = head dbs
                           /\ StackProfile.database p1' = head dbs).
  { subst p1 p1'. destruct pj as [pj0|].
    - destruct (fold_addDatabase_extends (mergedDeps pj0) dbMapping []) as (l & Hl & _).
      exists l. rewrite nodeDetection_databases, !nodeDetection_database.
      cbn [initialStackProfile StackProfile.databases StackProfile.database].
      rewrite Hl. cbn [app]. split; [reflexivity |]. split; destruct l; reflexivity.
    - exists []. repeat split. }
  destruct H1 as (dbs & Hdbs & Hdb & Hdb').
  rewrite Hdb'.
  destruct req as [r|]; [destruct (JsString.truthy r) |]; try (now rewrite Hdb).
  rewrite pythonDetection_database, Hdbs.
  destruct (addPythonDatabases_three (JsString.toLowerCase r) dbs) as (l & -> & Hall).
  destruct dbs as [|d dbs]; cbn [app head]; [| reflexivity].
  destruct l as [|d l]; [now rewrite Hdb |].
  apply Forall_cons in Hall as [Hd _]. cbn [In] in Hd.
  destruct Hd as [<- | [<- | [<- | []]]]; split; discriminate.
Qed.

(** X15: the behaviour profile is a function of the file contents, in their
    order, and of the manifest: neither the file names nor the requirements
    text have any influence on it. *)
Theorem analyzePatterns_reads_contents_only
    (fs fs' : list (string * string)) (pj : option PackageJson) (req req' : option string) :
  map snd fs = map snd fs' ->
  analyzePatterns (mkAppContent fs pj req) = analyzePatterns (mkAppContent fs' pj req').
Proof.
  intros Hcontents. unfold analyzePatterns.
  assert (Hcode : codeContentOf (mkAppContent fs pj req)
                  = codeContentOf (mkAppContent fs' pj req'))
    by (unfold codeContentOf; cbn [files]; now rewrite Hcontents).
  assert (Hsqlite : isSQLiteOf (detectStack (mkAppContent fs pj req))
                    = isSQLiteOf (detectStack (mkAppContent fs' pj req'))).
  { apply eq_true_iff_eq.
    rewrite !isSQLiteOf_detectStack.
    rewrite (database_is_sqlite_by_manifest fs pj req).
    rewrite (database_is_sqlite_by_manifest fs' pj req'). reflexivity. }
  rewrite Hcode, Hsqlite. reflexivity.
Qed.

(** The theorem on one file under two names. *)
Lemma analyzePatterns_reads_contents_only_witness :
  analyzePatterns
    (mkAppContent [("server.js", "app.locals.cache = new Map()")] None None)
  = analyzePatterns
      (mkAppContent [("lib/state.ts", "app.locals.cache = new Map()")] None
         (Some "flask")).
Proof.
  exact (analyzePatterns_reads_contents_only
           [("server.js", "app.locals.cache = new Map()")]
           [("lib/state.ts", "app.locals.cache = new Map()")]
           None None (Some "flask") eq_refl).
Defined.

End BehaviourAnalysis.

(** ** Matching in a longer text *)

Section RegexExtension.
Import Regex Continuation.

Lemma string_app_cons c (s t : string) : (String c s ++ t = String c (s ++ t))%string.
Proof. reflexivity. Qed.

Lemma string_app_nil_l (t : string) : ("" ++ t = t)%string.
Proof. reflexivity. Qed.

Lemma string_app_assoc (a b c : string) : ((a ++ b) ++ c = a ++ (b ++ c))%string.
Proof.
  induction a as [|x a IH]; [reflexivity |].
  rewrite !string_app_cons. now rewrite IH.
Qed.

Lemma string_app_nil_r (a : string) : (a ++ "" = a)%string.
Proof.
  induction a as [|x a IH]; [reflexivity |].
  rewrite string_app_cons. now rewrite IH.
Qed.

Lemma star_falls_back cls k u : is_Some (k u) -> is_Some (star cls k u).
Proof.
  intros Hk. destruct u as [|c u]; cbn [star]; [exact Hk |].
  destruct (cls c); [| exact Hk]. destruct (star cls k u); [eauto | exact Hk].
Qed.

Lemma star_extends t cls k : extends t k -> extends t (star cls k).
Proof.
  intros Hk s. induction s as [|c s IH].
  - rewrite string_app_nil_l. cbn [star]. intros Hs.
    apply star_falls_back. apply (Hk "" Hs).
  - rewrite string_app_cons. cbn [star]. destruct (cls c).
    + destruct (star cls k s) as [r|] eqn:Hstar.
      * intros _. destruct (IH (ex_intro _ r eq_refl)) as [r' ->]. eauto.
      * intros Hs. apply (Hk (String c s)) in Hs. rewrite string_app_cons in Hs.
        destruct (star cls k (s ++ t)); [eauto | exact Hs].
    + intros Hs. apply (Hk (String c s)) in Hs. now rewrite string_app_cons in Hs.
Qed.

Lemma plus_extends t cls k : extends t k -> extends t (plus cls k).
Proof.
  intros Hk s. destruct s as [|c s].
  - cbn [plus]. intros [r Hr]. discriminate.
  - rewrite string_app_cons. cbn [plus].
    destruct (cls c); [exact (star_extends t cls k Hk s) | intros [r Hr]; discriminate].
Qed.

Lemma step_extends t i a k : extends t k -> extends t (step i a k).
Proof.
  intros Hk. destruct a; cbn [step].
  - intros s. destruct s as [|c' s].
    + intros [r Hr]. discriminate.
    + rewrite string_app_cons. cbn [step]. destruct (chrMatches i c c');
        [exact (Hk s) | intros [r Hr]; discriminate].
  - now apply plus_extends.
  - now apply star_extends.
  - now apply plus_extends.
Qed.

Lemma matchAt_extends r t : extends t (matchAt r).
Proof.
  unfold matchAt. induction (atoms r) as [|a l IH]; cbn [fold_right].
  - intros s _. eauto.
  - now apply step_extends.
Qed.

Lemma test_app_r r s t : test r s = true -> test r (s ++ t)%string = true.
Proof.
  induction s as [|c s IH].
  - rewrite string_app_nil_l. cbn [test].
    destruct (matchAt r "") as [rest|] eqn:Hm; [| discriminate].
    intros _. destruct (matchAt_extends r t "") as [rest' Hrest]; [rewrite Hm; eauto |].
    rewrite string_app_nil_l in Hrest. destruct t; cbn [test]; now rewrite Hrest.
  - rewrite string_app_cons. cbn [test].
    destruct (matchAt r (String c s)) as [rest|] eqn:Hm.
    + intros _. destruct (matchAt_extends r t (String c s)) as [rest' Hrest];
        [rewrite Hm; eauto |].
      rewrite string_app_cons in Hrest. now rewrite Hrest.
    + intros Hs. destruct (matchAt r (String c (s ++ t))); [reflexivity | now apply IH].
Qed.

Lemma test_app_l r s t : test r s = true -> test r (t ++ s)%string = true.
Proof.
  intros Hs. induction t as [|c t IH]; [exact Hs |].
  rewrite string_app_cons. cbn [test].
  destruct (matchAt r (String c (t ++ s))); [reflexivity | exact IH].
Qed.

Lemma test_in_context r pre s post :
  test r s = true -> test r (pre ++ s ++ post)%string = true.
Proof. intros Hs. now apply test_app_l, test_app_r. Qed.

End RegexExtension.

Section DetectionMonotone.
Import AppUnderstanding.

Lemma join_cons sep x y (l : list string) :
  JsString.join sep (x :: y :: l) = (x ++ sep ++ JsString.join sep (y :: l))%string.
Proof. reflexivity. Qed.

Lemma join_app_r sep (xs ys : list string) :
  exists post, JsString.join sep (xs ++ ys) = (JsString.join sep xs ++ post)%string.
Proof.
  induction xs as [|x xs IH]; cbn [app].
  - exists (JsString.join sep ys). reflexivity.
  - destruct IH as (post & Hpost). destruct xs as [|y xs].
    + cbn [app] in *. destruct ys as [|z ys].
      * exists "". symmetry. apply string_app_nil_r.
      * exists (sep ++ JsString.join sep (z :: ys))%string. reflexivity.
    + exists post. cbn [app] in Hpost |- *.
      rewrite !join_cons, Hpost. now rewrite !string_app_assoc.
Qed.

Lemma join_app_l sep (xs ys : list string) :
  exists pre, JsString.join sep (xs ++ ys) = (pre ++ JsString.join sep ys)%string.
Proof.
  induction xs as [|x xs IH]; cbn [app].
  - exists "". reflexivity.
  - destruct IH as (pre & Hpre). destruct (xs ++ ys)%list as [|z zs] eqn:Hrest.
    + apply app_eq_nil in Hrest as [-> ->]. exists x. symmetry. apply string_app_nil_r.
    + exists (x ++ sep ++ pre)%string. rewrite join_cons, Hpre.
      now rewrite !string_app_assoc.
Qed.

Lemma codeContent_in_context before fs after pj req pj' req' :
  exists pre post,
    codeContentOf (mkAppContent (before ++ fs ++ after) pj' req')
    = (pre ++ codeContentOf (mkAppContent fs pj req) ++ post)%string.
Proof.
  unfold codeContentOf. cbn [files]. rewrite !map_app.
  destruct (join_app_l (String (ascii_of_nat 10) "") (map snd before)
              (map snd fs ++ map snd after)) as (pre & ->).
  destruct (join_app_r (String (ascii_of_nat 10) "") (map snd fs) (map snd after))
    as (post & ->).
  now exists pre, post.
Qed.

Lemma somePattern_in_context patterns pre s post :
  somePattern patterns s = true ->
  somePattern patterns (pre ++ s ++ post)%string = true.
Proof.
  unfold somePattern. rewrite !existsb_exists.
  intros (r & Hr & Htest). exists r. split; [exact Hr |]. now apply test_in_context.
Qed.

(** X16: adding files to a repository, before or after the ones it has,
    never clears a detection: what was found stateful, with background jobs,
    with file uploads or with a pooling indicator is still found so, whatever
    the added files contain. *)
Theorem analyzePatterns_detection_monotone
    (before fs after : list (string * string))
    (pj pj' : option PackageJson) (req req' : option string) :
  let small := mkAppContent fs pj req in
  let big := mkAppContent (before ++ fs ++ after) pj' req' in
  (BehaviorProfile.is_stateful (analyzePatterns small) = true ->
   BehaviorProfile.is_stateful (analyzePatterns big) = true)
  /\ (BehaviorProfile.has_background_jobs (analyzePatterns small) = true ->
      BehaviorProfile.has_background_jobs (analyzePatterns big) = true)
  /\ (BehaviorProfile.has_file_uploads (analyzePatterns small) = true ->
      BehaviorProfile.has_file_uploads (analyzePatterns big) = true)
  /\ (Regex.test poolPattern (codeContentOf small) = true ->
      Regex.test poolPattern (codeContentOf big) = true).
Proof.
  cbv zeta.
  destruct (codeContent_in_context before fs after pj req pj' req') as (pre & post & Hcode).
  unfold analyzePatterns.
  cbn [BehaviorProfile.is_stateful BehaviorProfile.has_background_jobs
       BehaviorProfile.has_file_uploads].
  rewrite Hcode.
  repeat split; intros H;
    first [now apply somePattern_in_context | now apply test_in_context].
Qed.

End DetectionMonotone.

(** * Further properties of the alert orchestrator *)

Section AlertRounds.
Import AlertOrchestrator AlertStore.

Lemma evaluateAlerts_cases w analysisId userId newProfile previousProfile a :
  In a (evaluateAlerts w analysisId userId newProfile previousProfile) ->
  Alert.id a = ""
  /\ Alert.user_id a = userId
  /\ Alert.analysis_id a = analysisId
  /\ Alert.created_at a = jsNow w
  /\ Alert.read_at a = None
  /\ Alert.severity a = severityOf (Alert.category a)
  /\ is_Some (Alert.what_changed a)
  /\ is_Some (Alert.next_step a).
Proof.
  unfold evaluateAlerts. destruct previousProfile as [previous|]; [| intros []].
  rewrite !in_app_iff. unfold pushIf. intros H.
  repeat match goal with
         | H : _ \/ _ |- _ => destruct H as [H | H]
         | H : In _ (if ?c then _ else _) |- _ => destruct c
         | H : In _ [_] |- _ => destruct H as [<- | []]
         | H : In _ [] |- _ => destruct H
         end;
    cbn [createAlert Alert.id Alert.user_id Alert.analysis_id Alert.created_at
         Alert.read_at Alert.severity Alert.category Alert.what_changed Alert.next_step
         severityOf];
    repeat split; eauto.
Qed.

Lemma evaluateAlerts_rule_order w analysisId userId newProfile previousProfile :
  StronglySorted Z.lt
    (map (fun a => ruleIndex (Alert.category a))
       (evaluateAlerts w analysisId userId newProfile previousProfile)).
Proof.
  unfold evaluateAlerts. destruct previousProfile as [previous|]; [| constructor].
  unfold pushIf.
  repeat match goal with
         | |- context [if ?c then [_] else []] => destruct c
         end;
    cbn [app map createAlert Alert.category ruleIndex];
    repeat (constructor; [| repeat (constructor; [lia |]); constructor]);
    constructor.
Qed.

Lemma sorted_lt_NoDup (l : list Z) : StronglySorted Z.lt l -> List.NoDup l.
Proof.
  induction 1 as [|x l Hsorted IH Hall]; constructor; [| exact IH].
  intros Hin. rewrite List.Forall_forall in Hall. specialize (Hall x Hin). lia.
Qed.

Lemma evaluateAlerts_categories_distinct w analysisId userId newProfile previousProfile :
  List.NoDup (map Alert.category
                (evaluateAlerts w analysisId userId newProfile previousProfile)).
Proof.
  pose proof (evaluateAlerts_rule_order w analysisId userId newProfile previousProfile)
    as Hsorted.
  apply sorted_lt_NoDup in Hsorted. rewrite <- map_map in Hsorted.
  now apply NoDup_map_inv in Hsorted.
Qed.

(** X17: a round of evaluateAlerts returns at most 5 alerts, at most one per
    category and in the order of the rules; each is addressed to the user and
    analysis of the call, has no id and no read date yet, is dated by the
    server's clock, carries the severity fixed for its category, and has
    both a what_changed and a next_step text; without a previous profile the
    round returns nothing. *)
Theorem evaluateAlerts_shape
    (w : World) (analysisId userId : string)
    (newProfile : BehaviorProfile.t) (previousProfile : option BehaviorProfile.t) :
  let out := evaluateAlerts w analysisId userId newProfile previousProfile in
  (length out <= 5)%nat
  /\ List.NoDup (map Alert.category out)
  /\ StronglySorted Z.lt (map (fun a => ruleIndex (Alert.category a)) out)
  /\ Forall (fun a => Alert.id a = ""
                      /\ Alert.user_id a = userId
                      /\ Alert.analysis_id a = analysisId
                      /\ Alert.created_at a = jsNow w
                      /\ Alert.read_at a = None
                      /\ Alert.severity a = severityOf (Alert.category a)
                      /\ is_Some (Alert.what_changed a)
                      /\ is_Some (Alert.next_step a)) out
  /\ (previousProfile = None -> out = []).
Proof.
  cbv zeta. split; [| split; [| split; [| split]]].
  - unfold evaluateAlerts. destruct previousProfile as [previous|]; [| cbn; lia].
    rewrite !length_app. unfold pushIf.
    repeat match goal with
           | |- context [if ?c then [_] else []] => destruct c
           end; cbn [length]; lia.
  - apply evaluateAlerts_categories_distinct.
  - apply evaluateAlerts_rule_order.
  - apply List.Forall_forall. intros a. apply evaluateAlerts_cases.
  - intros ->. reflexivity.
Qed.

Lemma filter_filter_same {A : Type} (f g : A -> bool) (l : list A) :
  (forall a, g a = true -> f a = true) ->
  List.filter g (List.filter f l) = List.filter g l.
Proof.
  intros Himpl. induction l as [|a l IH]; cbn; [reflexivity |].
  destruct (f a) eqn:Hf; cbn.
  - destruct (g a); now rewrite IH.
  - destruct (g a) eqn:Hg; [| exact IH]. apply Himpl in Hg. congruence.
Qed.

(** A round only reads the rows of its own user and analysis that are
    less than 7 days old: with every other row removed from the table, the
    result is the same. *)
Theorem evaluateAlerts_reads_own_recent_rows
    (w : World) (analysisId userId : string)
    (newProfile : BehaviorProfile.t) (previousProfile : option BehaviorProfile.t) :
  let own a :=
    String.eqb (Alert.user_id a) userId && String.eqb (Alert.analysis_id a) analysisId in
  let recent a := dbNow w - sevenDays <? Alert.created_at a in
  evaluateAlerts w analysisId userId newProfile previousProfile
  = evaluateAlerts
      (mkWorld (List.filter (fun a => own a && recent a) (alertsTable w)) (dbNow w) (jsNow w))
      analysisId userId newProfile previousProfile.
Proof.
  cbv zeta. unfold evaluateAlerts, recentAlertsQuery.
  cbn [alertsTable dbNow jsNow createAlert].
  rewrite filter_filter_same; [reflexivity |].
  intros a Ha. exact Ha.
Qed.

Lemma saveFrom_rows defaults alerts : forall i table savedAlerts,
  saveFrom i defaults table alerts savedAlerts
  = ((table ++ insertedRows i defaults alerts)%list,
     (savedAlerts ++ insertedRows i defaults alerts)%list).
Proof.
  induction alerts as [|a alerts IH]; intros i table savedAlerts; cbn [saveFrom insertedRows].
  - now rewrite !app_nil_r.
  - rewrite IH, <- !app_assoc. reflexivity.
Qed.


Lemma insertedRows_nth defaults alerts : forall i k a,
  nth_error alerts k = Some a ->
  In (insertedRow (defaults (i + k)%nat) a) (insertedRows i defaults alerts).
Proof.
  induction alerts as [|b alerts IH]; intros i k a; [destruct k; discriminate |].
  destruct k as [|k]; cbn [nth_error insertedRows].
  - intros [= ->]. left. now rewrite Nat.add_0_r.
  - intros Hk. right. rewrite <- Nat.add_succ_comm. now apply IH.
Qed.

(** X18: after saveAlerts has stored the alerts of a round, a later round for
    the same user and analysis that reads the table while those rows are
    less than 7 days old emits no alert of any category the first round
    emitted, whatever the profiles of the later round are. *)
Theorem recheck_then_cooldown
    (w later : World) (defaults : nat -> Defaults) (analysisId userId : string)
    (newProfile newProfile' : BehaviorProfile.t)
    (oldProfile oldProfile' : option BehaviorProfile.t) :
  let out := evaluateAlerts w analysisId userId newProfile oldProfile in
  alertsTable later = fst (recheckAlerts w defaults analysisId userId newProfile oldProfile) ->
  (forall k, (k < length out)%nat -> dbNow later - sevenDays < timestamp (defaults k)) ->
  forall a b,
    In a out ->
    In b (evaluateAlerts later analysisId userId newProfile' oldProfile') ->
    Alert.category b <> Alert.category a.
Proof.
  cbv zeta. intros Htable Hfresh a b Ha Hb Hcat.
  unfold recheckAlerts, saveAlerts in Htable. rewrite saveFrom_rows in Htable.
  cbn [fst] in Htable.
  destruct oldProfile' as [previous'|]; [| destruct Hb].
  apply In_nth_error in Ha as (k & Hk).
  assert (Hlt : (k < length (evaluateAlerts w analysisId userId newProfile oldProfile))%nat)
    by (apply nth_error_Some; congruence).
  pose proof (insertedRows_nth defaults _ 0 k a Hk) as Hrow. cbn [Nat.add] in Hrow.
  assert (Ha : In a (evaluateAlerts w analysisId userId newProfile oldProfile))
    by (eapply nth_error_In; exact Hk).
  destruct (evaluateAlerts_cases _ _ _ _ _ _ Ha) as (_ & Huser & Hanalysis & _).
  assert (Hrecent : Spec.notifiedRecently later userId analysisId (Alert.category a)).
  { exists (insertedRow (defaults k) a). rewrite Htable.
    split; [apply in_or_app; now right |].
    cbn [insertedRow Alert.user_id Alert.analysis_id Alert.category Alert.created_at].
    repeat split; try assumption. now apply Hfresh. }
  apply has_recent_iff in Hrecent.
  destruct (proj1 (emitted_iff later analysisId userId newProfile' previous'
                     (Alert.category a)) (ex_intro _ b (conj Hb Hcat))) as [Hfalse _].
  congruence.
Qed.

(** The theorem on a recheck that found the application newly stateful, read
    again three days later. *)
Lemma recheck_then_cooldown_witness :
  exists a,
    In a (evaluateAlerts MoreInputs.emptyWorld "analysis-1" "user-1"
            Inputs.statefulProfile (Some Inputs.statelessProfile))
    /\ Alert.category a = ArchitectureDrift
    /\ forall b,
         In b (evaluateAlerts MoreInputs.worldAfterRecheck "analysis-1" "user-1"
                 Inputs.statefulProfile (Some Inputs.statelessProfile)) ->
         Alert.category b <> Alert.category a.
Proof.
  eexists. split; [left; reflexivity |]. split; [reflexivity |].
  intros b Hb.
  refine (recheck_then_cooldown MoreInputs.emptyWorld MoreInputs.worldAfterRecheck
            MoreInputs.defaultsAtDay100 "analysis-1" "user-1"
            Inputs.statefulProfile Inputs.statefulProfile
            (Some Inputs.statelessProfile) (Some Inputs.statelessProfile)
            eq_refl _ _ b _ Hb).
  - intros k _. vm_compute. reflexivity.
  - left. reflexivity.
Defined.






End AlertRounds.

(** * Properties of content fetching *)

Section ContentFetching.

Import AppUnderstanding ContentFetch.

Lemma includes_unfold (s p : string) :
  JsString.includes s p
  = JsString.startsWith p s
    || match s with
       | EmptyString => false
       | String _ s' => JsString.includes s' p
       end.
Proof. destruct s; reflexivity. Qed.

Lemma endsWith_unfold (s suffix : string) :
  endsWith s suffix
  = String.eqb s suffix
    || match s with
       | EmptyString => false
       | String _ s' => endsWith s' suffix
       end.
Proof. destruct s; reflexivity. Qed.

Lemma startsWith_includes (p s : string) :
  JsString.startsWith p s = true -> JsString.includes s p = true.
Proof. intros H. rewrite includes_unfold, H. reflexivity. Qed.

Lemma includes_app_l (dir s p : string) :
  JsString.includes s p = true -> JsString.includes (dir ++ s) p = true.
Proof.
  intros H. induction dir as [|c dir IH]; [exact H |].
  rewrite string_app_cons, includes_unfold, IH. apply orb_true_r.
Qed.

Lemma endsWith_app_l (dir s suffix : string) :
  endsWith s suffix = true -> endsWith (dir ++ s) suffix = true.
Proof.
  intros H. induction dir as [|c dir IH]; [exact H |].
  rewrite string_app_cons, endsWith_unfold, IH. apply orb_true_r.
Qed.

(** X20: what fetchFiles skips at the root of a repository, parseZipUpload
    skips at any depth: a path skipped by the patterns of fetchFiles is
    skipped by those of parseZipUpload, also below any directory of an
    archive. The patterns of parseZipUpload skip more: some paths are
    skipped in an archive and fetched from GitHub. *)
Theorem zip_skips_what_tree_skips :
  (forall dir path,
     shouldSkip treeSkipPatterns path = true ->
     shouldSkip zipSkipPatterns (dir ++ path) = true)
  /\ (exists path,
        shouldSkip zipSkipPatterns path = true
        /\ shouldSkip treeSkipPatterns path = false).
Proof.
  split.
  - intros dir path H.
    apply existsb_exists in H. destruct H as [pattern [Hin Htest]].
    apply existsb_exists.
    cbn [treeSkipPatterns In] in Hin.
    repeat (destruct Hin as [<- | Hin];
            [ cbn [testPattern] in Htest;
              first
                [ apply startsWith_includes in Htest;
                  eexists (Anywhere _); split;
                  [ | cbn [testPattern]; apply includes_app_l; exact Htest ];
                  cbn [zipSkipPatterns In]; tauto
                | eexists (AtEnd _); split;
                  [ | cbn [testPattern]; apply endsWith_app_l; exact Htest ];
                  cbn [zipSkipPatterns In]; tauto ]
            | ]).
    destruct Hin.
  - exists "src/dist/app.js". split; reflexivity.
Qed.

(** *** The files map *)

Lemma mapSet_keys (fs : list (string * string)) (name content k : string) :
  In k (map fst (mapSet fs name content)) <-> k = name \/ In k (map fst fs).
Proof.
  induction fs as [|[k0 v0] fs IH]; cbn [mapSet map fst In].
  - split; intros [H | H]; auto.
  - destruct (String.eqb_spec k0 name) as [-> | Hne]; cbn [map fst In].
    + intuition congruence.
    + rewrite IH. intuition congruence.
Qed.

Lemma mapSet_NoDup (fs : list (string * string)) (name content : string) :
  List.NoDup (map fst fs) -> List.NoDup (map fst (mapSet fs name content)).
Proof.
  induction fs as [|[k0 v0] fs IH]; cbn [mapSet map fst]; intros Hnd.
  - constructor; [intros [] | constructor].
  - inversion Hnd as [|? ? Hnotin Hnd']; subst.
    destruct (String.eqb_spec k0 name) as [-> | Hne]; cbn [map fst].
    + constructor; assumption.
    + constructor; [| apply IH; exact Hnd'].
      rewrite mapSet_keys. intros [-> | Hin]; [now apply Hne | now apply Hnotin].
Qed.

Lemma mapSet_In (fs : list (string * string)) (name content k v : string) :
  List.NoDup (map fst fs) ->
  In (k, v) (mapSet fs name content)
  <-> (k = name /\ v = content) \/ (k <> name /\ In (k, v) fs).
Proof.
  induction fs as [|[k0 v0] fs IH]; cbn [mapSet map fst In]; intros Hnd.
  - split.
    + intros [H | []]. injection H as <- <-. now left.
    + intros [[-> ->] | [_ []]]. now left.
  - inversion Hnd as [|? ? Hnotin Hnd']; subst.
    destruct (String.eqb_spec k0 name) as [-> | Hne]; cbn [In].
    + split.
      * intros [H | H]; [injection H as <- <-; now left |].
        right. split; [| now right].
        intros ->. apply Hnotin. apply (in_map fst) in H. exact H.
      * intros [[-> ->] | [Hk [H | H]]]; [now left | | now right].
        injection H as <- <-. now destruct Hk.
    + rewrite (IH Hnd'). split.
      * intros [H | [H | H]]; [| now left | right; split; [tauto | now right]].
        injection H as <- <-. right. split; [exact Hne | now left].
      * intros [H | [Hk [H | H]]]; [right; now left | now left | right; right; tauto].
Qed.

Lemma parseZipUpload_snoc (parse : string -> JsonResult) (zipEntries : list ZipEntry)
    (entry : ZipEntry) :
  parseZipUpload parse (zipEntries ++ [entry])%list
  = addEntry parse (parseZipUpload parse zipEntries) entry.
Proof. unfold parseZipUpload. now rewrite fold_left_app. Qed.

Lemma addEntry_not_read (parse : string -> JsonResult) (appContent : AppContent)
    (entry : ZipEntry) :
  isRead entry = false -> addEntry parse appContent entry = appContent.
Proof.
  unfold isRead, addEntry.
  destruct (isDirectory entry); [reflexivity |].
  destruct (shouldSkip zipSkipPatterns (entryName entry)); [reflexivity |].
  destruct (data entry); [discriminate | reflexivity].
Qed.

Lemma addEntry_read (parse : string -> JsonResult) (appContent : AppContent)
    (entry : ZipEntry) :
  isRead entry = true ->
  exists content,
    data entry = Some content
    /\ files (addEntry parse appContent entry)
       = mapSet (files appContent) (entryName entry) content
    /\ requirements (addEntry parse appContent entry)
       = (if endsWith (entryName entry) "requirements.txt" then Some content
          else requirements appContent)
    /\ packageJson (addEntry parse appContent entry)
       = (if endsWith (entryName entry) "package.json" then
            match parse content with
            | JsonValue v => v
            | JsonThrows => packageJson appContent
            end
          else packageJson appContent).
Proof.
  unfold isRead, addEntry.
  destruct (isDirectory entry); [discriminate |].
  destruct (shouldSkip zipSkipPatterns (entryName entry)); [discriminate |].
  destruct (data entry) as [content |]; [| discriminate].
  intros _. exists content. repeat split.
Qed.

Lemma parseZipUpload_keys_NoDup (parse : string -> JsonResult) (zipEntries : list ZipEntry) :
  List.NoDup (map fst (files (parseZipUpload parse zipEntries))).
Proof.
  induction zipEntries as [|entry zipEntries IH] using rev_ind; [constructor |].
  rewrite parseZipUpload_snoc.
  destruct (isRead entry) eqn:Hread.
  - destruct (addEntry_read parse (parseZipUpload parse zipEntries) entry Hread)
      as [content [_ [-> _]]].
    now apply mapSet_NoDup.
  - now rewrite addEntry_not_read.
Qed.

(** X21: the files parseZipUpload returns. A name is a key of the map at
    most once; under it lies the content of the last entry of that name that
    is a file, matches no skip pattern and can be read, and a name without
    such an entry is no key. So no key contains node_modules/, .git/, .next/,
    dist/, build/ or __pycache__/, and none ends with .lock. *)
Theorem parseZipUpload_files
    (parse : string -> JsonResult) (zipEntries : list ZipEntry) :
  let result := files (parseZipUpload parse zipEntries) in
  List.NoDup (map fst result)
  /\ (forall name content,
        In (name, content) result
        <-> List.last (map data
                    (List.filter
                       (fun entry => isRead entry && String.eqb (entryName entry) name)
                       zipEntries))
                 None
            = Some content)
  /\ Forall (fun kv => shouldSkip zipSkipPatterns (fst kv) = false) result.
Proof.
  cbv zeta.
  assert (Hmain : forall name content,
            In (name, content) (files (parseZipUpload parse zipEntries))
            <-> List.last (map data
                        (List.filter
                           (fun entry => isRead entry && String.eqb (entryName entry) name)
                           zipEntries))
                     None
                = Some content).
  { induction zipEntries as [|entry zipEntries IH] using rev_ind; intros name content.
    - cbn. split; [intros [] | discriminate].
    - rewrite parseZipUpload_snoc, List.filter_app, List.map_app. cbn [List.filter].
      destruct (isRead entry) eqn:Hread; cbn [andb].
      + destruct (addEntry_read parse (parseZipUpload parse zipEntries) entry Hread)
          as [c [Hdata [-> _]]].
        rewrite mapSet_In by apply parseZipUpload_keys_NoDup.
        destruct (String.eqb_spec (entryName entry) name) as [Heq | Hne].
        * cbn [map]. rewrite List.last_last, Hdata. split.
          -- intros [[_ ->] | [Hk _]]; [reflexivity | now destruct Hk].
          -- intros H. injection H as ->. left. now split.
        * cbn [map]. rewrite app_nil_r, <- IH. split.
          -- intros [[-> _] | [_ H]]; [now destruct Hne | exact H].
          -- intros H. right. split; [congruence | exact H].
      + rewrite addEntry_not_read by exact Hread.
        cbn [map]. rewrite app_nil_r. apply IH. }
  split; [apply parseZipUpload_keys_NoDup |]. split; [exact Hmain |].
  apply List.Forall_forall. intros [name content] Hin. cbn [fst].
  apply Hmain in Hin.
  destruct (List.filter _ zipEntries) as [|e l] eqn:Hfilter; [discriminate |].
  assert (Hlast : In (List.last (e :: l) e) (e :: l)).
  { clear. generalize e at 1 3. induction l as [|x l IH]; intros d.
    - now left.
    - right. specialize (IH x). cbn [List.last] in *. destruct l; [now left |].
      destruct IH as [<- | IH]; [now left | now right]. }
  rewrite <- Hfilter in Hlast. apply filter_In in Hlast.
  destruct Hlast as [_ Hp]. apply andb_true_iff in Hp. destruct Hp as [Hread Hname].
  apply String.eqb_eq in Hname. rewrite <- Hname.
  unfold isRead in Hread.
  destruct (shouldSkip zipSkipPatterns (entryName _)); [| reflexivity].
  now rewrite andb_false_r in Hread.
Qed.

(** X22: the manifests parseZipUpload returns. requirements is the content
    of the last read entry whose name ends with requirements.txt, and
    packageJson what JSON.parse makes of the last read entry whose name ends
    with package.json and whose content parses: at any depth of the archive,
    the later entry replacing the earlier one. Without such an entry the
    field stays unset. *)
Theorem parseZipUpload_manifests
    (parse : string -> JsonResult) (zipEntries : list ZipEntry) :
  let result := parseZipUpload parse zipEntries in
  requirements result
  = List.last
      (map data
         (List.filter
            (fun entry => isRead entry && endsWith (entryName entry) "requirements.txt")
            zipEntries))
      None
  /\ packageJson result
     = List.last
         (map (fun entry => valueOf (manifestOf parse entry))
            (List.filter
               (fun entry =>
                  isRead entry && endsWith (entryName entry) "package.json"
                  && isValue (manifestOf parse entry))
               zipEntries))
         None.
Proof.
  cbv zeta.
  induction zipEntries as [|entry zipEntries [IHr IHp]] using rev_ind;
    [split; reflexivity |].
  rewrite parseZipUpload_snoc, !List.filter_app, !List.map_app. cbn [List.filter].
  destruct (isRead entry) eqn:Hread; cbn [andb].
  - destruct (addEntry_read parse (parseZipUpload parse zipEntries) entry Hread)
      as [content [Hdata [_ [-> ->]]]].
    split.
    + destruct (endsWith (entryName entry) "requirements.txt"); cbn [map].
      * now rewrite List.last_last, Hdata.
      * now rewrite app_nil_r.
    + assert (Hm : manifestOf parse entry = parse content)
        by (unfold manifestOf; now rewrite Hdata).
      rewrite !Hm.
      destruct (endsWith (entryName entry) "package.json"); cbn [andb map].
      * destruct (parse content) as [| v] eqn:Hparse; cbn [isValue map].
        -- now rewrite app_nil_r.
        -- now rewrite List.last_last, Hm.
      * now rewrite app_nil_r.
  - rewrite addEntry_not_read by exact Hread. cbn [map].
    rewrite !app_nil_r. now split.
Qed.

(** *** Batches *)

Lemma batchesFrom_spec {A : Type} (files : list A) (fuel i : nat) :
  (length files - i <= fuel)%nat ->
  concat (batchesFrom fuel i files) = skipn i files
  /\ Forall (fun batch => (1 <= length batch <= concurrencyLimit)%nat)
       (batchesFrom fuel i files)
  /\ length (batchesFrom fuel i files) = ((length files - i + 9) / 10)%nat.
Proof.
  revert i. induction fuel as [|fuel IH]; intros i Hfuel; cbn [batchesFrom].
  - replace (length files - i)%nat with 0%nat by lia.
    rewrite skipn_all2 by lia. repeat split. constructor.
  - destruct (Nat.ltb_spec i (length files)) as [Hlt | Hge].
    + destruct (IH (i + concurrencyLimit)%nat) as [Hcat [Hall Hlen]];
        [unfold concurrencyLimit; lia |].
      cbn [concat length]. rewrite Hcat, Hlen. unfold slice, concurrencyLimit in *.
      replace (i + 10 - i)%nat with 10%nat by lia.
      replace (skipn (i + 10) files) with (skipn 10 (skipn i files))
        by (rewrite skipn_skipn; f_equal; lia).
      rewrite firstn_skipn.
      split; [reflexivity |]. split.
      * constructor; [| exact Hall].
        rewrite length_firstn, length_skipn. lia.
      * destruct (Nat.le_gt_cases 10 (length files - i)) as [Hbig | Hsmall].
        -- replace (length files - i + 9)%nat
             with (length files - (i + 10) + 9 + 1 * 10)%nat by lia.
           rewrite Nat.div_add by lia. lia.
        -- replace (length files - (i + 10))%nat with 0%nat by lia.
           change ((0 + 9) / 10)%nat with 0%nat.
           apply Nat.div_unique with (r := (length files - i - 1)%nat); lia.
    + replace (length files - i)%nat with 0%nat by lia.
      rewrite skipn_all2 by lia. repeat split. constructor.
Qed.

Lemma batchesFrom_fuel {A : Type} (files : list A) (fuel fuel' i : nat) :
  (length files - i <= fuel)%nat ->
  (length files - i <= fuel')%nat ->
  batchesFrom fuel i files = batchesFrom fuel' i files.
Proof.
  revert fuel' i. induction fuel as [|fuel IH]; intros [|fuel'] i H H';
    cbn [batchesFrom]; try reflexivity.
  - destruct (Nat.ltb_spec i (length files)); [lia | reflexivity].
  - destruct (Nat.ltb_spec i (length files)); [lia | reflexivity].
  - destruct (Nat.ltb_spec i (length files)); [| reflexivity].
    f_equal. apply IH; unfold concurrencyLimit; lia.
Qed.

(** X23: what fetchFiles fetches, and in which batches. The files to fetch
    are the tree items that are blobs, match no skip pattern and whose size
    is absent, 0 or at most 100KB. The loop cuts them into consecutive
    batches: joined in order the batches give the list back, so every file
    is fetched in exactly one batch; each batch has between 1 and 10 files,
    and there are as many batches as the length divided by 10, rounded up.
    The loop ends after at most as many turns as there are files. *)
Theorem fetchFiles_batches (tree : list TreeItem) :
  let files := filesToFetch tree in
  concat (batches files) = files
  /\ Forall (fun batch => (1 <= length batch <= concurrencyLimit)%nat) (batches files)
  /\ length (batches files) = ((length files + 9) / 10)%nat
  /\ (forall fuel, (length files <= fuel)%nat -> batchesFrom fuel 0 files = batches files)
  /\ (forall item,
        (exists batch, In batch (batches files) /\ In item batch)
        <-> In item tree
            /\ type item = "blob"
            /\ shouldSkip treeSkipPatterns (path item) = false
            /\ (forall n, size item = Some n -> n <= 100 * 1024)).
Proof.
  cbv zeta.
  destruct (batchesFrom_spec (filesToFetch tree) (length (filesToFetch tree)) 0)
    as [Hcat [Hall Hlen]]; [lia |].
  rewrite Nat.sub_0_r in Hlen. fold (batches (filesToFetch tree)) in Hcat, Hall, Hlen.
  change (skipn 0 (filesToFetch tree)) with (filesToFetch tree) in Hcat.
  split; [exact Hcat |]. split; [exact Hall |]. split; [exact Hlen |].
  split; [intros fuel Hfuel; apply batchesFrom_fuel; lia |].
  intros item. rewrite <- in_concat, Hcat.
  unfold filesToFetch. rewrite filter_In.
  destruct (String.eqb_spec (type item) "blob") as [Hblob | Hblob]; cbn [negb].
  - destruct (shouldSkip treeSkipPatterns (path item)).
    + split; [intros [_ H]; discriminate | intros [_ [_ [H _]]]; discriminate].
    + destruct (size item) as [n |].
      * destruct (Z.eqb_spec n 0) as [-> | Hn]; cbn [negb andb].
        -- split; [intros [Hin _] | intros [Hin _]; now split].
           repeat split; try assumption. intros n Hn. injection Hn as <-. lia.
        -- destruct (Z.ltb_spec (100 * 1024) n) as [Hbig | Hsmall].
           ++ split; [intros [_ H]; discriminate |].
              intros [_ [_ [_ H]]]. specialize (H n eq_refl). lia.
           ++ split; [intros [Hin _] | intros [Hin _]; now split].
              repeat split; try assumption. intros m Hm. injection Hm as <-. lia.
      * split; [intros [Hin _] | intros [Hin _]; now split].
        repeat split; try assumption. intros n Hn. discriminate.
  - split; [intros [_ H]; discriminate | intros [_ [H _]]; contradiction].
Qed.

End ContentFetching.

(** * Properties of repository addresses *)

Section RepositoryAddress.

Import ContentFetch GitHubUrl.

Lemma snoc_app (acc : string) (c : ascii) (p : string) :
  (snoc acc c ++ p = acc ++ String c p)%string.
Proof. unfold snoc. now rewrite string_app_assoc. Qed.

Lemma string_length_app (a b : string) :
  String.length (a ++ b) = (String.length a + String.length b)%nat.
Proof.
  induction a as [|c a IH]; [reflexivity |].
  rewrite string_app_cons. cbn [String.length]. now rewrite IH.
Qed.

Lemma string_app_inv_r (a b c : string) : (a ++ c = b ++ c)%string -> a = b.
Proof.
  revert b. induction a as [|x a IH]; intros [|y b] H.
  - reflexivity.
  - apply (f_equal String.length) in H.
    rewrite string_app_nil_l, string_length_app in H. cbn [String.length] in H. lia.
  - apply (f_equal String.length) in H.
    rewrite string_app_nil_l, string_length_app in H. cbn [String.length] in H. lia.
  - rewrite !string_app_cons in H. injection H as -> H. f_equal. now apply IH.
Qed.

Lemma matchLit_app (text rest : string) : matchLit text (text ++ rest) = Some rest.
Proof.
  induction text as [|c text IH]; [reflexivity |].
  rewrite string_app_cons. cbn [matchLit]. now rewrite Ascii.eqb_refl.
Qed.

Lemma matchLit_Some (text s rest : string) :
  matchLit text s = Some rest -> s = (text ++ rest)%string.
Proof.
  revert s. induction text as [|c text IH]; intros s H.
  - cbn in H. now injection H as ->.
  - destruct s as [|d s]; [discriminate |]. cbn [matchLit] in H.
    destruct (Ascii.eqb_spec c d) as [-> |]; [| discriminate].
    rewrite string_app_cons. f_equal. now apply IH.
Qed.

(** *** What a group takes *)

Lemma greedy_takes_run {R : Type} (cls : ascii -> bool) (k : string -> string -> option R)
    (p : string) :
  forall (acc rest : string) (x : R),
    p <> "" ->
    all cls p = true ->
    greedy cls k (acc ++ p) rest = None ->
    k (acc ++ p)%string rest = Some x ->
    greedy cls k acc (p ++ rest) = Some x.
Proof.
  induction p as [|c p IH]; intros acc rest x Hne Hall Hstop Hk; [now destruct Hne |].
  cbn [all] in Hall. apply andb_true_iff in Hall. destruct Hall as [Hc Hall].
  rewrite string_app_cons. cbn [greedy]. rewrite Hc.
  destruct p as [|d p].
  - rewrite string_app_nil_l. fold (snoc acc c) in Hstop, Hk. now rewrite Hstop, Hk.
  - rewrite (IH (snoc acc c) rest x); [reflexivity | discriminate | exact Hall | |];
      now rewrite snoc_app.
Qed.

Lemma lazy_takes_first {R : Type} (cls : ascii -> bool) (k : string -> string -> option R)
    (p : string) :
  forall (acc rest : string) (x : R),
    p <> "" ->
    all cls p = true ->
    (forall p1 p2, p = (p1 ++ p2)%string -> p1 <> "" -> p2 <> "" ->
                   k (acc ++ p1)%string (p2 ++ rest)%string = None) ->
    k (acc ++ p)%string rest = Some x ->
    lazy cls k acc (p ++ rest) = Some x.
Proof.
  induction p as [|c p IH]; intros acc rest x Hne Hall Hshort Hk; [now destruct Hne |].
  cbn [all] in Hall. apply andb_true_iff in Hall. destruct Hall as [Hc Hall].
  rewrite string_app_cons. cbn [lazy]. rewrite Hc.
  destruct p as [|d p].
  - rewrite string_app_nil_l. fold (snoc acc c) in Hk. now rewrite Hk.
  - assert (H0 : k (snoc acc c) (String d p ++ rest)%string = None)
      by (apply (Hshort (String c "") (String d p) eq_refl); discriminate).
    rewrite H0.
    apply IH; [discriminate | exact Hall | | now rewrite snoc_app].
    intros p1 p2 Hp Hp1 Hp2. rewrite snoc_app.
    apply (Hshort (String c p1) p2); [| discriminate | exact Hp2].
    now rewrite string_app_cons, <- Hp.
Qed.

Lemma greedy_sound {R : Type} (cls : ascii -> bool) (k : string -> string -> option R)
    (s : string) :
  forall (acc : string) (x : R),
    greedy cls k acc s = Some x ->
    exists p rest,
      s = (p ++ rest)%string /\ p <> "" /\ all cls p = true
      /\ k (acc ++ p)%string rest = Some x.
Proof.
  induction s as [|c s IH]; intros acc x H; [discriminate |].
  cbn [greedy] in H. destruct (cls c) eqn:Hc; [| discriminate].
  destruct (greedy cls k (snoc acc c) s) as [r |] eqn:Hdeep.
  - injection H as ->. destruct (IH _ _ Hdeep) as [p [rest [-> [_ [Hall Hk]]]]].
    exists (String c p), rest. rewrite snoc_app in Hk.
    repeat split; [discriminate | cbn [all]; now rewrite Hc | exact Hk].
  - exists (String c ""), s. repeat split; [discriminate | cbn [all]; now rewrite Hc | exact H].
Qed.

Lemma lazy_sound {R : Type} (cls : ascii -> bool) (k : string -> string -> option R)
    (s : string) :
  forall (acc : string) (x : R),
    lazy cls k acc s = Some x ->
    exists p rest,
      s = (p ++ rest)%string /\ p <> "" /\ all cls p = true
      /\ k (acc ++ p)%string rest = Some x.
Proof.
  induction s as [|c s IH]; intros acc x H; [discriminate |].
  cbn [lazy] in H. destruct (cls c) eqn:Hc; [| discriminate].
  destruct (k (snoc acc c) s) as [r |] eqn:Hk.
  - injection H as ->. exists (String c ""), s.
    repeat split; [discriminate | cbn [all]; now rewrite Hc | exact Hk].
  - destruct (IH _ _ H) as [p [rest [-> [_ [Hall Hk']]]]].
    exists (String c p), rest. rewrite snoc_app in Hk'.
    repeat split; [discriminate | cbn [all]; now rewrite Hc | exact Hk'].
Qed.

(** *** The end of the https pattern: [(\.git)?$] *)

Lemma run_suffix (s : string) (caps m : captures) :
  run [Maybe ".git"] s caps = Some m
  <-> (s = ".git" /\ m = (caps ++ [Some ".git"])%list)
      \/ (s = "" /\ m = (caps ++ [None])%list).
Proof.
  cbn [run]. split.
  - destruct (matchLit ".git" s) as [rest |] eqn:Hlit.
    + apply matchLit_Some in Hlit. subst s. destruct rest as [|c rest].
      * intros H. injection H as <-. now left.
      * discriminate.
    + destruct s; [| discriminate]. intros H. injection H as <-. now right.
  - intros [[-> ->] | [-> ->]]; reflexivity.
Qed.

Lemma run_suffix_None (s : string) (caps : captures) :
  s <> ".git" -> s <> "" -> run [Maybe ".git"] s caps = None.
Proof.
  intros H1 H2. destruct (run [Maybe ".git"] s caps) as [m |] eqn:Hrun; [| reflexivity].
  apply run_suffix in Hrun. destruct Hrun as [[-> _] | [-> _]]; now exfalso.
Qed.

(** *** The equations of [run] *)

Lemma run_Lit (text : string) (p : list node) (s : string) (caps : captures) :
  run (Lit text :: p) s caps
  = match matchLit text s with
    | Some rest => run p rest caps
    | None => None
    end.
Proof. reflexivity. Qed.

Lemma run_greedy (cls : ascii -> bool) (p : list node) (s : string) (caps : captures) :
  run (Group cls false :: p) s caps
  = greedy cls (fun text rest => run p rest (caps ++ [Some text])%list) "" s.
Proof. reflexivity. Qed.

Lemma run_lazy (cls : ascii -> bool) (p : list node) (s : string) (caps : captures) :
  run (Group cls true :: p) s caps
  = lazy cls (fun text rest => run p rest (caps ++ [Some text])%list) "" s.
Proof. reflexivity. Qed.

Lemma run_git (s : string) (caps m : captures) :
  run [Lit ".git"] s caps = Some m <-> s = ".git" /\ m = caps.
Proof.
  rewrite run_Lit. split.
  - destruct (matchLit ".git" s) as [rest |] eqn:Hlit; [| discriminate].
    apply matchLit_Some in Hlit. subst s. destruct rest; [| discriminate].
    intros H. injection H as <-. now split.
  - intros [-> ->]. reflexivity.
Qed.

Lemma app_git_ne (p : string) : p <> "" -> (p ++ ".git")%string <> ".git".
Proof.
  intros Hp H. apply Hp. apply (string_app_inv_r p "" ".git"). exact H.
Qed.

Lemma app_ne_nil (p q : string) : p <> "" -> (p ++ q)%string <> "".
Proof. destruct p; [intros H; now destruct H | discriminate]. Qed.

(** *** Addresses the patterns match *)

Lemma https_match (owner repo suffix : string) (g : option string) :
  owner <> "" -> all notSlash owner = true ->
  repo <> "" -> all notSlash repo = true ->
  (suffix = ".git" /\ g = Some ".git")
  \/ (suffix = "" /\ g = None /\ endsWith repo ".git" = false) ->
  matchUrl httpsPattern ("https://github.com/" ++ owner ++ "/" ++ repo ++ suffix)
  = Some [Some owner; Some repo; g].
Proof.
  intros Ho Hoall Hr Hrall Hsuffix.
  unfold matchUrl, httpsPattern.
  rewrite run_Lit, matchLit_app, run_greedy.
  apply greedy_takes_run; [exact Ho | exact Hoall | reflexivity |].
  cbv beta. rewrite string_app_nil_l, run_Lit, matchLit_app, run_lazy.
  apply lazy_takes_first; [exact Hr | exact Hrall | |].
  - intros p1 p2 Hsplit Hp1 Hp2. apply run_suffix_None.
    + destruct Hsuffix as [[-> _] | [-> [_ Hends]]].
      * now apply app_git_ne.
      * rewrite string_app_nil_r. intros ->.
        rewrite Hsplit, endsWith_app_l in Hends; [discriminate | reflexivity].
    + now apply app_ne_nil.
  - rewrite string_app_nil_l. apply run_suffix.
    destruct Hsuffix as [[-> ->] | [-> [-> _]]]; [left | right]; now split.
Qed.

Lemma ssh_match (owner repo : string) :
  owner <> "" -> all notSlash owner = true ->
  repo <> "" -> all dot repo = true ->
  matchUrl sshPattern ("git@github.com:" ++ owner ++ "/" ++ repo ++ ".git")
  = Some [Some owner; Some repo].
Proof.
  intros Ho Hoall Hr Hrall.
  unfold matchUrl, sshPattern.
  rewrite run_Lit, matchLit_app, run_greedy.
  apply greedy_takes_run; [exact Ho | exact Hoall | reflexivity |].
  cbv beta. rewrite string_app_nil_l, run_Lit, matchLit_app, run_lazy.
  apply lazy_takes_first; [exact Hr | exact Hrall | |].
  - intros p1 p2 Hsplit Hp1 Hp2.
    destruct (run [Lit ".git"] (p2 ++ ".git") _) as [m |] eqn:Hrun; [| reflexivity].
    apply run_git in Hrun. destruct Hrun as [Hrun _].
    now apply app_git_ne in Hrun.
  - rewrite string_app_nil_l. now apply run_git.
Qed.

(** *** Addresses the patterns refuse *)

Lemma https_forms (url : string) (m : captures) :
  matchUrl httpsPattern url = Some m ->
  exists owner repo g,
    m = [Some owner; Some repo; g]
    /\ owner <> "" /\ all notSlash owner = true
    /\ repo <> "" /\ all notSlash repo = true
    /\ ((g = None /\ url = "https://github.com/" ++ owner ++ "/" ++ repo)
        \/ (g = Some ".git"
            /\ url = "https://github.com/" ++ owner ++ "/" ++ repo ++ ".git"))%string.
Proof.
  unfold matchUrl, httpsPattern. rewrite run_Lit.
  destruct (matchLit "https://github.com/" url) as [rest |] eqn:Hbase; [| discriminate].
  apply matchLit_Some in Hbase. subst url. rewrite run_greedy. intros H.
  apply greedy_sound in H. destruct H as [owner [rest1 [-> [Ho [Hoall H]]]]].
  cbv beta in H. rewrite string_app_nil_l, run_Lit in H.
  destruct (matchLit "/" rest1) as [rest2 |] eqn:Hslash; [| discriminate].
  apply matchLit_Some in Hslash. subst rest1. rewrite run_lazy in H.
  apply lazy_sound in H. destruct H as [repo [rest3 [-> [Hr [Hrall H]]]]].
  cbv beta in H. rewrite string_app_nil_l in H. apply run_suffix in H.
  destruct H as [[-> ->] | [-> ->]].
  - exists owner, repo, (Some ".git"). repeat split; try assumption. now right.
  - exists owner, repo, None. repeat split; try assumption. left.
    now rewrite string_app_nil_r.
Qed.

Lemma ssh_forms (url : string) (m : captures) :
  matchUrl sshPattern url = Some m ->
  exists owner repo,
    m = [Some owner; Some repo]
    /\ owner <> "" /\ all notSlash owner = true
    /\ repo <> "" /\ all dot repo = true
    /\ url = ("git@github.com:" ++ owner ++ "/" ++ repo ++ ".git")%string.
Proof.
  unfold matchUrl, sshPattern. rewrite run_Lit.
  destruct (matchLit "git@github.com:" url) as [rest |] eqn:Hbase; [| discriminate].
  apply matchLit_Some in Hbase. subst url. rewrite run_greedy. intros H.
  apply greedy_sound in H. destruct H as [owner [rest1 [-> [Ho [Hoall H]]]]].
  cbv beta in H. rewrite string_app_nil_l, run_Lit in H.
  destruct (matchLit "/" rest1) as [rest2 |] eqn:Hslash; [| discriminate].
  apply matchLit_Some in Hslash. subst rest1. rewrite run_lazy in H.
  apply lazy_sound in H. destruct H as [repo [rest3 [-> [Hr [Hrall H]]]]].
  cbv beta in H. rewrite string_app_nil_l in H. apply run_git in H.
  destruct H as [-> ->].
  exists owner, repo. repeat split; assumption.
Qed.

Lemma ownerAndRepo_cases (url : string) (o r : option string) :
  ownerAndRepo url = Some (o, r) ->
  exists owner repo,
    o = Some owner /\ r = Some repo
    /\ owner <> "" /\ repo <> "" /\ all notSlash owner = true
    /\ ((all notSlash repo = true
         /\ (url = "https://github.com/" ++ owner ++ "/" ++ repo
             \/ url = "https://github.com/" ++ owner ++ "/" ++ repo ++ ".git"))
        \/ (all dot repo = true
            /\ url = "git@github.com:" ++ owner ++ "/" ++ repo ++ ".git"))%string.
Proof.
  unfold ownerAndRepo.
  destruct (matchUrl httpsPattern url) as [m |] eqn:Hhttps.
  - apply https_forms in Hhttps.
    destruct Hhttps as [owner [repo [g [-> [Ho [Hoall [Hr [Hrall Hurl]]]]]]]].
    intros H. injection H as <- <-. exists owner, repo.
    do 5 (split; [first [reflexivity | assumption] |]).
    left. split; [exact Hrall |]. destruct Hurl as [[_ ->] | [_ ->]]; [now left | now right].
  - destruct (matchUrl sshPattern url) as [m |] eqn:Hssh; [| discriminate].
    apply ssh_forms in Hssh.
    destruct Hssh as [owner [repo [-> [Ho [Hoall [Hr [Hrall ->]]]]]]].
    intros H. injection H as <- <-. exists owner, repo.
    do 5 (split; [first [reflexivity | assumption] |]).
    right. now split.
Qed.

(** X24: the addresses cloneGitHubRepo accepts. For an owner without a
    slash and a repository name, both not empty: the https address with the
    .git suffix gives back that owner and name when the name has no slash,
    and so does the address without the suffix unless the name itself ends
    with .git; the ssh address gives them back when the name has no line
    break, slashes allowed. *)
Theorem ownerAndRepo_accepts (owner repo : string) :
  owner <> "" -> all notSlash owner = true -> repo <> "" ->
  (all notSlash repo = true ->
   ownerAndRepo ("https://github.com/" ++ owner ++ "/" ++ repo ++ ".git")
   = Some (Some owner, Some repo)
   /\ (endsWith repo ".git" = false ->
       ownerAndRepo ("https://github.com/" ++ owner ++ "/" ++ repo)
       = Some (Some owner, Some repo)))
  /\ (all dot repo = true ->
      ownerAndRepo ("git@github.com:" ++ owner ++ "/" ++ repo ++ ".git")
      = Some (Some owner, Some repo)).
Proof.
  intros Ho Hoall Hr. split.
  - intros Hrall. split.
    + unfold ownerAndRepo.
      rewrite (https_match owner repo ".git" (Some ".git")); auto.
    + intros Hends. unfold ownerAndRepo.
      pose proof (https_match owner repo "" None Ho Hoall Hr Hrall) as H.
      rewrite string_app_nil_r in H. rewrite H; auto.
  - intros Hrall. unfold ownerAndRepo.
    replace (matchUrl httpsPattern ("git@github.com:" ++ owner ++ "/" ++ repo ++ ".git"))
      with (@None captures) by reflexivity.
    now rewrite ssh_match.
Qed.

Lemma ownerAndRepo_accepts_witness :
  ownerAndRepo ("https://github.com/" ++ "opsflow-sh" ++ "/" ++ "devopsify.ai" ++ ".git")
  = Some (Some "opsflow-sh", Some "devopsify.ai")
  /\ ownerAndRepo ("https://github.com/" ++ "opsflow-sh" ++ "/" ++ "devopsify.ai")
     = Some (Some "opsflow-sh", Some "devopsify.ai")
  /\ ownerAndRepo ("git@github.com:" ++ "opsflow-sh" ++ "/" ++ "devopsify.ai" ++ ".git")
     = Some (Some "opsflow-sh", Some "devopsify.ai").
Proof.
  destruct (ownerAndRepo_accepts "opsflow-sh" "devopsify.ai") as [Hhttps Hssh];
    [discriminate | reflexivity | discriminate |].
  destruct (Hhttps eq_refl) as [Hgit Hbare].
  exact (conj Hgit (conj (Hbare eq_refl) (Hssh eq_refl))).
Defined.

Lemma app_last_char (a b : string) (c d : ascii) :
  (a ++ String c "" = b ++ String d "")%string -> c = d.
Proof.
  revert b. induction a as [|x a IH]; intros [|y b] H.
  - now injection H.
  - rewrite string_app_nil_l, string_app_cons in H. injection H as _ H.
    destruct b; discriminate.
  - rewrite string_app_nil_l, string_app_cons in H. injection H as _ H.
    destruct a; discriminate.
  - rewrite !string_app_cons in H. injection H as _ H. exact (IH b H).
Qed.

Lemma string_last_char (cls : ascii -> bool) (s : string) :
  s <> "" -> all cls s = true ->
  exists s' d, s = (s' ++ String d "")%string /\ cls d = true.
Proof.
  induction s as [|c s IH]; intros Hne Hall; [now destruct Hne |].
  cbn [all] in Hall. apply andb_true_iff in Hall. destruct Hall as [Hc Hall].
  destruct s as [|c' s].
  - exists "", c. now split.
  - destruct IH as [s' [d [Heq Hd]]]; [discriminate | exact Hall |].
    exists (String c s'), d. rewrite string_app_cons, <- Heq. now split.
Qed.

(** X25: the addresses cloneGitHubRepo refuses. Whenever it reads an owner
    and a repository off an address, both are set and not empty, the owner
    has no slash, and the address is https://github.com/owner/repo,
    optionally followed by .git, with a name without a slash, or
    git@github.com:owner/repo.git with a name without a line break; every
    other address is refused with "Invalid GitHub URL format". So is every
    address that ends with a slash, whatever precedes the slash. *)
Theorem ownerAndRepo_refuses (url : string) :
  (forall o r,
     ownerAndRepo url = Some (o, r) ->
     exists owner repo,
       o = Some owner /\ r = Some repo
       /\ owner <> "" /\ repo <> "" /\ all notSlash owner = true
       /\ ((all notSlash repo = true
            /\ (url = "https://github.com/" ++ owner ++ "/" ++ repo
                \/ url = "https://github.com/" ++ owner ++ "/" ++ repo ++ ".git"))
           \/ (all dot repo = true
               /\ url = "git@github.com:" ++ owner ++ "/" ++ repo ++ ".git"))%string)
  /\ ownerAndRepo (url ++ "/") = None.
Proof.
  split; [exact (ownerAndRepo_cases url) |].
  destruct (ownerAndRepo (url ++ "/")) as [[o r] |] eqn:H; [exfalso | reflexivity].
  apply ownerAndRepo_cases in H.
  destruct H as [owner [repo [_ [_ [_ [Hr [_ [[Hrall [H | H]] | [_ H]]]]]]]]].
  - destruct (string_last_char notSlash repo Hr Hrall) as [repo' [d [-> Hd]]].
    rewrite <- !string_app_assoc in H. apply app_last_char in H. now subst d.
  - change ".git"%string with (".gi" ++ "t")%string in H.
    rewrite <- !string_app_assoc in H. apply app_last_char in H. discriminate.
  - change ".git"%string with (".gi" ++ "t")%string in H.
    rewrite <- !string_app_assoc in H. apply app_last_char in H. discriminate.
Qed.

End RepositoryAddress.

(** * Properties of failed analyses *)

Section FailureStatus.

Import CloneFailure.

Lemma includes_skip (c : ascii) (s p : string) :
  JsString.startsWith p (String c s) = false ->
  JsString.includes (String c s) p = JsString.includes s p.
Proof. intros H. now rewrite includes_unfold, H. Qed.

Lemma startsWith_split (p s : string) :
  JsString.startsWith p s = true -> exists rest, s = (p ++ rest)%string.
Proof.
  revert s. induction p as [|c p IH]; intros s H.
  - now exists s.
  - destruct s as [|d s]; [discriminate |]. cbn [JsString.startsWith] in H.
    destruct (Ascii.eqb_spec c d) as [-> |]; [| discriminate].
    destruct (IH s H) as [rest ->]. now exists rest.
Qed.

Lemma startsWith_app (p rest : string) : JsString.startsWith p (p ++ rest) = true.
Proof.
  induction p as [|c p IH]; [reflexivity |].
  rewrite string_app_cons. cbn [JsString.startsWith]. now rewrite Ascii.eqb_refl.
Qed.

Lemma includes_split (s p : string) :
  JsString.includes s p = true -> exists a b, s = (a ++ p ++ b)%string.
Proof.
  induction s as [|c s IH]; rewrite includes_unfold; intros H;
    apply orb_true_iff in H; destruct H as [H | H]; try discriminate.
  - apply startsWith_split in H. destruct H as [rest ->]. now exists "", rest.
  - apply startsWith_split in H. destruct H as [rest ->]. now exists "", rest.
  - destruct (IH H) as [a [b ->]]. now exists (String c a), b.
Qed.

Lemma includes_trans (s p q : string) :
  JsString.includes s p = true -> JsString.includes p q = true ->
  JsString.includes s q = true.
Proof.
  intros Hsp Hpq.
  apply includes_split in Hsp. destruct Hsp as [a [b ->]].
  apply includes_split in Hpq. destruct Hpq as [a' [b' ->]].
  rewrite !string_app_assoc, <- (string_app_assoc a a').
  apply includes_app_l, startsWith_includes, startsWith_app.
Qed.

Lemma includes_cloneFailure (message p : string) :
  p = "rate limit" \/ p = "not found" ->
  JsString.includes (cloneFailure message) p = JsString.includes message p.
Proof.
  unfold cloneFailure.
  intros [-> | ->];
    repeat (rewrite string_app_cons, includes_skip by reflexivity);
    now rewrite string_app_nil_l.
Qed.

Lemma includes_treeFailure (statusText p : string) :
  p = "rate limit" \/ p = "not found" ->
  JsString.includes (treeFailure statusText) p = JsString.includes statusText p.
Proof.
  unfold treeFailure.
  intros [-> | ->];
    repeat (rewrite string_app_cons, includes_skip by reflexivity);
    now rewrite string_app_nil_l.
Qed.

(** X26: how the routes answer a failed clone. The texts cloneGitHubRepo
    puts before the message of an error have no part in the answer: when
    neither branch has a tree, the status is decided by the status text of
    the response alone, 429 if it contains "rate limit", else 404 if it
    contains "not found", else 500. The tests are case-sensitive: a status
    text in which no space is followed by l or f, as in Not Found, Forbidden
    or Too Many Requests, is answered with 500. *)
Theorem failureStatus_of_tree_failure (statusText : string) :
  (forall message, failureStatus (cloneFailure message) = failureStatus message)
  /\ failureStatus (cloneFailure (treeFailure statusText)) = failureStatus statusText
  /\ (JsString.includes statusText " l" = false ->
      JsString.includes statusText " f" = false ->
      failureStatus (cloneFailure (treeFailure statusText)) = 500).
Proof.
  assert (Hclone : forall message, failureStatus (cloneFailure message) = failureStatus message).
  { intros message. unfold failureStatus.
    now rewrite !includes_cloneFailure by auto. }
  assert (Htree : failureStatus (cloneFailure (treeFailure statusText))
                  = failureStatus statusText).
  { rewrite Hclone. unfold failureStatus.
    now rewrite !includes_treeFailure by auto. }
  split; [exact Hclone |]. split; [exact Htree |].
  intros Hl Hf. rewrite Htree. unfold failureStatus.
  destruct (JsString.includes statusText "rate limit") eqn:Hrate.
  - rewrite (includes_trans statusText "rate limit" " l" Hrate eq_refl) in Hl.
    discriminate.
  - destruct (JsString.includes statusText "not found") eqn:Hnot; [| reflexivity].
    rewrite (includes_trans statusText "not found" " f" Hnot eq_refl) in Hf.
    discriminate.
Qed.

End FailureStatus.

(** * Properties of the routes *)

Section RouteProperties.

Import AlertOrchestrator AlertStore AnalysisRoutes AlertsRoute.

Lemma andb_negb_same (a b : bool) : a && negb b && b = false.
Proof. now destruct a, b. Qed.

(** X27: a round on an unchanged profile. When the new profile is the
    stored one, evaluateAlerts emits at most one alert, and only of category
    platform_suitability: that rule alone looks at the new profile only. It
    emits it exactly when the profile has background jobs and is
    write-heavy and no alert of that category is less than 7 days old, so a
    recheck of an unchanged repository repeats that alert once the 7 days
    are over. *)
Theorem evaluateAlerts_unchanged_profile
    (w : World) (analysisId userId : string) (profile : BehaviorProfile.t) :
  let out := evaluateAlerts w analysisId userId profile (Some profile) in
  (length out <= 1)%nat
  /\ Forall (fun a => Alert.category a = PlatformSuitability) out
  /\ (out <> []
      <-> BehaviorProfile.has_background_jobs profile = true
          /\ BehaviorProfile.write_heavy profile = true
          /\ has (map Alert.category (recentAlertsQuery w userId analysisId))
               PlatformSuitability = false).
Proof.
  cbv zeta. unfold evaluateAlerts.
  rewrite !andb_negb_same.
  replace (BehaviorProfile.external_dependency_count profile + 2
           <? BehaviorProfile.external_dependency_count profile) with false
    by (symmetry; apply Z.ltb_ge; lia).
  rewrite andb_false_r. cbn [pushIf app].
  destruct (has _ PlatformSuitability),
    (BehaviorProfile.has_background_jobs profile),
    (BehaviorProfile.write_heavy profile);
    cbn [negb andb pushIf app length createAlert];
    (split; [lia |]); (split; [repeat constructor |]);
    (split; [intros H; first [now destruct H | repeat split] | intros [? [? ?]]; discriminate]).
Qed.

(** *** Marking an alert as read *)




(** *** Rechecking an analysis *)

Lemma failureStatus_not_200 (message : string) : CloneFailure.failureStatus message <> 200.
Proof.
  unfold CloneFailure.failureStatus.
  destruct (JsString.includes message "rate limit"); [discriminate |].
  destruct (JsString.includes message "not found"); discriminate.
Qed.

Lemma getOne_updateResults (rows : list Row) (analysisId : string)
    (stackProfile : StackProfile.t) (behaviorProfile : BehaviorProfile.t) (score : Z) :
  getOne (updateResults rows analysisId stackProfile behaviorProfile score) analysisId
  = option_map
      (fun row =>
         mkRow (AppAnalysis.mk (AppAnalysis.id (analysis row))
                  (AppAnalysis.user_id (analysis row)) stackProfile behaviorProfile score)
               (github_url row))
      (getOne rows analysisId).
Proof.
  unfold getOne, updateResults.
  induction rows as [|row rows IH]; [reflexivity |].
  cbn [map List.find].
  destruct (String.eqb (AppAnalysis.id (analysis row)) analysisId) eqn:Hid.
  - cbn [analysis AppAnalysis.id]. now rewrite Hid.
  - rewrite Hid. exact IH.
Qed.



(** X30: what a recheck stores is what a later read shows. After a recheck
    answered with 200, handleGetAnalysis for the same user and analysis
    answers 200 with the verdict the recheck returned, and the stored score
    of the row is the score of that verdict; rows whose stored score was the
    score of their stored profiles before still have that property. *)
Theorem recheck_then_get
    (db : Db) (dbTime jsTime : Z) (defaults : nat -> Defaults)
    (cloneGitHubRepo : string -> Cloned) (userId : option string) (analysisId : string) :
  let result :=
    handleRecheckAnalysis db dbTime jsTime defaults cloneGitHubRepo userId analysisId in
  status (fst result) = 200 ->
  handleGetAnalysis (snd result) userId analysisId
  = mkAnswer 200 (verdict (fst result)) []
  /\ (exists row v,
        getOne (analyses (snd result)) analysisId = Some row
        /\ verdict (fst result) = Some v
        /\ AppAnalysis.launch_confidence_score (analysis row)
           = LaunchVerdict.confidence_score v)
  /\ (Forall scored (analyses db) -> Forall scored (analyses (snd result))).
Proof.
  cbv zeta. unfold handleRecheckAnalysis, handleGetAnalysis.
  destruct userId as [user |]; [| discriminate].
  destruct (JsString.truthy user); cbn [negb]; [| discriminate].
  destruct (JsString.truthy analysisId); cbn [negb]; [| discriminate].
  destruct (getOne (analyses db) analysisId) as [row |] eqn:Hget; [| discriminate].
  destruct (String.eqb_spec (AppAnalysis.user_id (analysis row)) user) as [Hown | Hown];
    cbn [negb]; [| discriminate].
  destruct (github_url row) as [url |]; [| discriminate].
  destruct (JsString.truthy url); cbn [negb]; [| discriminate].
  destruct (cloneGitHubRepo url) as [message | appContent];
    [intros H; now apply failureStatus_not_200 in H |].
  intros _. cbn [fst snd analyses verdict].
  rewrite getOne_updateResults, Hget. cbn [option_map analysis AppAnalysis.user_id].
  destruct (String.eqb_spec (AppAnalysis.user_id (analysis row)) user) as [_ | Hne];
    [| contradiction].
  cbn [negb].
  split; [reflexivity |].
  split.
  - eexists. eexists. split; [reflexivity |]. split; [reflexivity |]. reflexivity.
  - intros Hscored. unfold updateResults. apply List.Forall_forall. intros r Hr.
    apply in_map_iff in Hr. destruct Hr as [r0 [<- Hr0]].
    destruct (String.eqb (AppAnalysis.id (analysis r0)) analysisId).
    + reflexivity.
    + rewrite List.Forall_forall in Hscored. now apply Hscored.
Qed.

Lemma recheck_then_get_witness :
  status (fst MoreInputs.recheckOfOneAnalysis) = 200
  /\ handleGetAnalysis (snd MoreInputs.recheckOfOneAnalysis) (Some "user-1") "analysis-1"
     = mkAnswer 200 (verdict (fst MoreInputs.recheckOfOneAnalysis)) [].
Proof.
  split; [reflexivity |].
  exact (proj1 (recheck_then_get MoreInputs.oneAnalysis (100 * Inputs.day) (100 * Inputs.day)
                  MoreInputs.defaultsAtDay100 MoreInputs.cloneSqliteWriter (Some "user-1")
                  "analysis-1" eq_refl)).
Defined.

End RouteProperties.
